(** * The test runner of the Swift extension: plan builder, run handler and
      result parsers

    A shallow embedding of [TestRunner] (the class that builds the list of
    test items of a run, runs or debugs the test binary and reads the test
    results out of its output), followed by the properties proved of it.

    Conventions of the embedding.
    - A [vscode.TestItem] is an object with identity: [includes] and
      [findIndex] compare references.  The tree of test items is therefore
      an arena ([Store]) and a test item is named by its [handle].
    - A JavaScript string is a [string]; its characters are read as code
      units below 256.
    - The reporting sink [vscode.TestRun] is the log of the calls made on
      it ([Event]), oldest first.
    - Everything the host decides (build exit code, cancellation, what the
      test binary prints, whether the debugger starts) is an input of the
      model ([World]). *)

From Stdlib Require Import ZArith QArith Ascii String List Lia Permutation.
From stdpp Require Import base option list.
Import ListNotations.
Local Open Scope string_scope.
Local Open Scope list_scope.

(** ** JavaScript built-ins used by the runner *)

Module JS.

(** [s.startsWith(p)] *)
Definition startsWith (s p : string) : bool := String.prefix p s.

(** [s.endsWith(p)]: the last [p.length] code units of [s] are [p]. *)
Definition endsWith (s p : string) : bool :=
  if (String.length p <=? String.length s)%nat
  then String.eqb
         (String.substring (String.length s - String.length p)
            (String.length p) s) p
  else false.

(** White space of [String.prototype.trim] and of the class [\s], among
    the code units below 256: TAB, LF, VT, FF, CR, SPACE, NBSP. *)
Definition isSpace (c : ascii) : bool :=
  let n := nat_of_ascii c in
  ((9 <=? n) && (n <=? 13) || (n =? 32) || (n =? 160))%nat.

(** Line terminators, which [.] does not match. *)
Definition isLineTerminator (c : ascii) : bool :=
  let n := nat_of_ascii c in ((n =? 10) || (n =? 13))%nat.

Definition isDigit (c : ascii) : bool :=
  let n := nat_of_ascii c in ((48 <=? n) && (n <=? 57))%nat.

Fixpoint dropSpaces (l : list ascii) : list ascii :=
  match l with
  | c :: l' => if isSpace c then dropSpaces l' else l
  | [] => []
  end.

(** [s.trim()] *)
Definition trim (s : string) : string :=
  string_of_list_ascii
    (rev (dropSpaces (rev (dropSpaces (list_ascii_of_string s))))).

(** [s.split("\n")]: the pieces between line feeds; never empty. *)
Fixpoint splitLines (s : string) : list string :=
  match s with
  | EmptyString => [EmptyString]
  | String c s' =>
      if (nat_of_ascii c =? 10)%nat then EmptyString :: splitLines s'
      else match splitLines s' with
           | l :: ls => String c l :: ls
           | [] => [String c EmptyString]
           end
  end.

(** The text [\r\n] *)
Definition CRLF : string :=
  String (ascii_of_nat 13) (String (ascii_of_nat 10) EmptyString).

(** [s.replace(/\n/g, \r\n)] *)
Fixpoint crlf (s : string) : string :=
  match s with
  | EmptyString => EmptyString
  | String c s' =>
      if (nat_of_ascii c =? 10)%nat
      then String (ascii_of_nat 13) (String c (crlf s'))
      else String c (crlf s')
  end.

Definition digitValue (c : ascii) : Z := Z.of_nat (nat_of_ascii c) - 48.

(** The value of a run of decimal digits, most significant first. *)
Definition digitsValue (l : list ascii) : Z :=
  fold_left (fun acc c => 10 * acc + digitValue c)%Z l 0%Z.

(** [parseInt(s)] on the strings the runner gives it, which a group of
    digits has captured: the decimal value of the leading digits. *)
Fixpoint leadingDigits (l : list ascii) : list ascii :=
  match l with
  | c :: l' => if isDigit c then c :: leadingDigits l' else []
  | [] => []
  end.

Definition parseInt (s : string) : Z :=
  digitsValue (leadingDigits (list_ascii_of_string s)).

(** A JavaScript number: a rational, or [None] for NaN. *)
Definition number := option Q.

Fixpoint splitAtDot (l : list ascii) : list ascii * option (list ascii) :=
  match l with
  | [] => ([], None)
  | c :: l' =>
      if (nat_of_ascii c =? 46)%nat then ([], Some l')
      else let '(a, b) := splitAtDot l' in (c :: a, b)
  end.

(** Unary plus, [+s], on decimal literals [ddd], [ddd.ddd], [ddd.] and
    [.ddd] with surrounding white space, which is what the test binary
    prints as a duration.  The other texts that JavaScript reads as
    numbers (signs, exponents, hexadecimal, [Infinity]) are not modelled:
    they are NaN here, as is every text that is no number. *)
Definition toNumber (s : string) : number :=
  let l := list_ascii_of_string (trim s) in
  let '(ip, fp) := splitAtDot l in
  let fp' := match fp with Some f => f | None => [] end in
  match ip ++ fp' with
  | [] => match l with [] => Some 0%Q | _ => None end
  | ds =>
      if forallb isDigit ds
      then Some (Qmake (digitsValue ds)
                   (Z.to_pos (10 ^ Z.of_nat (length fp'))))
      else None
  end.

End JS.

(** ** Regular expressions

    The patterns of the parsers use literals, the classes [.], [\s], [\S]
    and [\d], greedy [*] and [+] on a class, capture groups that do not
    nest, [^] at the start and [$] at the end.  [run] is the backtracking
    matcher of such a pattern, anchored at the start of the input: a
    greedy repetition first takes all it can and gives back one character
    at a time until the rest of the pattern matches. *)

Module Regex.

Inductive Tok : Type :=
| Chr (c : ascii)             (* a literal character *)
| Cls (p : ascii -> bool)     (* one character of a class *)
| Star (p : ascii -> bool)    (* class*, greedy *)
| Open                        (* ( *)
| Close                       (* ) *)
| Eol.                        (* $ *)

Definition Pattern := list Tok.

Definition dot : ascii -> bool := fun c => negb (JS.isLineTerminator c).
Definition space : ascii -> bool := JS.isSpace.
Definition nonspace : ascii -> bool := fun c => negb (JS.isSpace c).
Definition digit : ascii -> bool := JS.isDigit.

Definition lit (s : string) : Pattern := map Chr (list_ascii_of_string s).
Definition plus (p : ascii -> bool) : Pattern := [Cls p; Star p].
Definition group (r : Pattern) : Pattern := Open :: r ++ [Close].

Section Matcher.
Context {R : Type}.

(** [greedy p k pos s]: consume the longest run of [p] at the head of
    [s] for which the continuation [k] succeeds. *)
Fixpoint greedy (p : ascii -> bool) (k : nat -> list ascii -> option R)
    (pos : nat) (s : list ascii) : option R :=
  match s with
  | c :: s' =>
      if p c
      then match greedy p k (S pos) s' with
           | Some r => Some r
           | None => k pos s
           end
      else k pos s
  | [] => k pos s
  end.
End Matcher.

(** [run toks start caps pos s]: match [toks] against [s], the input
    from offset [pos] on; [start] is the offset of the group that is
    open, [caps] the groups closed so far, last first. *)
Fixpoint run (toks : Pattern) (start : option nat) (caps : list (nat * nat))
    (pos : nat) (s : list ascii) : option (list (nat * nat)) :=
  match toks with
  | [] => Some (rev caps)
  | Chr c :: r =>
      match s with
      | c' :: s' => if Ascii.eqb c c' then run r start caps (S pos) s' else None
      | [] => None
      end
  | Cls p :: r =>
      match s with
      | c' :: s' => if p c' then run r start caps (S pos) s' else None
      | [] => None
      end
  | Star p :: r => greedy p (fun pos' s' => run r start caps pos' s') pos s
  | Open :: r => run r (Some pos) caps pos s
  | Close :: r =>
      match start with
      | Some b => run r None ((b, pos) :: caps) pos s
      | None => None
      end
  | Eol :: r =>
      match s with
      | [] => run r start caps pos s
      | _ :: _ => None
      end
  end.

(** The result of [re.exec(line)]: the text of the groups, in order. *)
Definition Match := list string.

Definition exec (re : Pattern) (line : string) : option Match :=
  match run re None [] 0 (list_ascii_of_string line) with
  | Some caps =>
      Some (map (fun be => String.substring (fst be) (snd be - fst be) line) caps)
  | None => None
  end.

(** [m[i]], groups counted from 1. *)
Definition grp (m : Match) (i : nat) : string := nth (i - 1) m EmptyString.

End Regex.

(** ** The patterns of the two parsers

    Each pattern is quoted from the source with its capture groups written
    between angle brackets. *)

Module Patterns.
Import Regex.

(** [/^Test Case '-\[<\S+>\s<.*>\]' started./] *)
Definition darwinStarted : Pattern :=
  lit "Test Case '-[" ++ group (plus nonspace) ++ [Cls space]
    ++ group [Star dot] ++ lit "]' started" ++ [Cls dot].

(** [/^Test Case '-\[<\S+>\s<.*>\]' passed \(<\d.*> seconds\)/] *)
Definition darwinPassed : Pattern :=
  lit "Test Case '-[" ++ group (plus nonspace) ++ [Cls space]
    ++ group [Star dot] ++ lit "]' passed ("
    ++ group [Cls digit; Star dot] ++ lit " seconds)".

(** [/^<.+>:<\d+>:\serror:\s-\[<\S+>\s<.*>\] : <.*>$/] *)
Definition darwinFailed : Pattern :=
  group (plus dot) ++ lit ":" ++ group (plus digit) ++ lit ":"
    ++ [Cls space] ++ lit "error:" ++ [Cls space] ++ lit "-["
    ++ group (plus nonspace) ++ [Cls space] ++ group [Star dot]
    ++ lit "] : " ++ group [Star dot] ++ [Eol].

(** [/^<.+>:<\d+>:\s-\[<\S+>\s<.*>\] : Test skipped/] *)
Definition darwinSkipped : Pattern :=
  group (plus dot) ++ lit ":" ++ group (plus digit) ++ lit ":"
    ++ [Cls space] ++ lit "-[" ++ group (plus nonspace) ++ [Cls space]
    ++ group [Star dot] ++ lit "] : Test skipped".

(** [/^Test Case '<.*>\.<.*>' started/] *)
Definition nonDarwinStarted : Pattern :=
  lit "Test Case '" ++ group [Star dot] ++ lit "." ++ group [Star dot]
    ++ lit "' started".

(** [/^<.+>:<\d+>:\serror:\s*<.*>\.<.*> : <.*>/] *)
Definition nonDarwinFailed : Pattern :=
  group (plus dot) ++ lit ":" ++ group (plus digit) ++ lit ":"
    ++ [Cls space] ++ lit "error:" ++ [Star space]
    ++ group [Star dot] ++ lit "." ++ group [Star dot] ++ lit " : "
    ++ group [Star dot].

(** [/^<.+>:<\d+>:\s*<.*>\.<.*> : Test skipped:/] *)
Definition nonDarwinSkipped : Pattern :=
  group (plus dot) ++ lit ":" ++ group (plus digit) ++ lit ":"
    ++ [Star space] ++ group [Star dot] ++ lit "." ++ group [Star dot]
    ++ lit " : Test skipped:".

(** [/^Test Case '<.*>\.<.*>' passed \(<\d.*> seconds\)/] *)
Definition nonDarwinPassed : Pattern :=
  lit "Test Case '" ++ group [Star dot] ++ lit "." ++ group [Star dot]
    ++ lit "' passed (" ++ group [Cls digit; Star dot] ++ lit " seconds)".

End Patterns.

(** ** Arrays *)

Module Arr.
Section Arr.
Context {A : Type}.

(** [a.pop()]: the last element and the array without it. *)
Fixpoint pop (a : list A) : option (A * list A) :=
  match a with
  | [] => None
  | x :: a' =>
      match pop a' with
      | None => Some (x, [])
      | Some (y, b) => Some (y, x :: b)
      end
  end.

(** [a.findIndex(f)], together with the element at that index; [None]
    is the result [-1]. *)
Fixpoint findIndex (f : A -> bool) (a : list A) : option (nat * A) :=
  match a with
  | [] => None
  | x :: a' =>
      if f x then Some (0, x)
      else match findIndex f a' with
           | Some (i, y) => Some (S i, y)
           | None => None
           end
  end.

(** [a.splice(i, 1)] *)
Definition splice1 (i : nat) (a : list A) : list A := delete i a.
End Arr.
End Arr.

(** ** The tree of test items *)

Definition handle := nat.

Record TestItem : Type := {
  id : string;
  label : string;
  parent : option handle;
  children : list handle
}.

(** The items that exist, by handle. *)
Definition Store := list TestItem.

Section Items.
Variable s : Store.

Definition id_of (t : handle) : string :=
  match s !! t with Some it => id it | None => EmptyString end.
Definition label_of (t : handle) : string :=
  match s !! t with Some it => label it | None => EmptyString end.
Definition parent_of (t : handle) : option handle :=
  match s !! t with Some it => parent it | None => None end.
Definition children_of (t : handle) : list handle :=
  match s !! t with Some it => children it | None => [] end.

(** [test.parent && !test.parent?.parent] *)
Definition isTestCase (t : handle) : bool :=
  match parent_of t with
  | Some p => match parent_of p with Some _ => false | None => true end
  | None => false
  end.
End Items.

(** [vscode.TestRunRequest]: [None] is [undefined]. *)
Record TestRunRequest : Type := {
  include : option (list handle);
  exclude : option (list handle)
}.

(** [vscode.TestController]: [items] are the roots of the tree. *)
Record TestController : Type := { items : list handle }.

(** ** createTestLists *)

Module Plan.
Section Plan.
Variable s : Store.
Variable controller : TestController.
Variable request : TestRunRequest.

(** [l.includes(t)] *)
Definition includes (l : list handle) (t : handle) : bool :=
  existsb (Nat.eqb t) l.

(** [this.request.exclude?.includes(test)] *)
Definition excluded (t : handle) : bool :=
  match exclude request with
  | Some ex => includes ex t
  | None => false
  end.

(** [this.request.exclude?.find(item => item.id.startsWith(test.id))]
    finds an item. *)
Definition includesExcluded (t : handle) : bool :=
  match exclude request with
  | Some ex => existsb (fun item => JS.startsWith (id_of s item) (id_of s t)) ex
  | None => false
  end.

(** The three arrays of the first loop. *)
Record Lists : Type := {
  queue : list handle;
  list_ : list handle;
  queue2 : list handle
}.

(** What the body of the first loop does with the item it has popped. *)
Inductive Verdict : Type :=
| Excluded      (* the user asked to exclude it: [continue] *)
| WholeCase     (* pushed on [list], its children on [queue2] *)
| Expanded      (* its children pushed on [queue] *)
| Leaf.         (* pushed on [list] *)

Definition verdict (t : handle) : Verdict :=
  if excluded t then Excluded
  else if isTestCase s t && negb (includesExcluded t) then WholeCase
  else match children_of s t with
       | _ :: _ => Expanded
       | [] => Leaf
       end.

(** One turn of the first loop, [t] popped and [q] left in the queue. *)
Definition body (t : handle) (q : list handle) (st : Lists) : Lists :=
  match verdict t with
  | Excluded => {| queue := q; list_ := list_ st; queue2 := queue2 st |}
  | WholeCase =>
      {| queue := q; list_ := list_ st ++ [t];
         queue2 := queue2 st ++ children_of s t |}
  | Expanded =>
      {| queue := q ++ children_of s t; list_ := list_ st;
         queue2 := queue2 st |}
  | Leaf => {| queue := q; list_ := list_ st ++ [t]; queue2 := queue2 st |}
  end.

(** [while (queue.length > 0) { ... }], at most [fuel] turns. *)
Fixpoint loop1 (fuel : nat) (st : Lists) : option Lists :=
  match Arr.pop (queue st) with
  | None => Some st
  | Some (t, q) =>
      match fuel with
      | O => None
      | S fuel' => loop1 fuel' (body t q st)
      end
  end.

(** [while (queue2.length > 0) { ... }]; [stack] is [queue2] read from
    its end. *)
Fixpoint loop2 (stack : list handle) (l : list handle) : list handle :=
  match stack with
  | [] => l
  | t :: stack' =>
      if excluded t then loop2 stack' l else loop2 stack' (l ++ [t])
  end.

Definition nonEmpty (o : option (list handle)) : bool :=
  match o with Some (_ :: _) => true | _ => false end.

(** The queue the first loop starts from. *)
Definition initialQueue : list handle :=
  match include request with
  | Some (t :: inc) => t :: inc
  | _ => items controller
  end.

(** The request is filtered in some way. *)
Definition filtered : bool :=
  nonEmpty (include request) || nonEmpty (exclude request).

Record TestLists : Type := {
  testItems : list handle;
  testArgs : list string
}.

Definition createTestLists (fuel : nat) : option TestLists :=
  match loop1 fuel {| queue := initialQueue; list_ := []; queue2 := [] |} with
  | None => None
  | Some st =>
      let argumentList :=
        if filtered then map (id_of s) (list_ st) else [] in
      Some {| testItems := loop2 (rev (queue2 st)) (list_ st);
              testArgs := argumentList |}
  end.
End Plan.
End Plan.

(** ** The reporting sink and the state of a runner *)

(** [vscode.Position], [vscode.Location], [vscode.TestMessage], as the
    values they are built from; what the host does with them (it may
    refuse a negative line) is outside the model. *)
Record Position : Type := { line : Z; character : Z }.
Record Location : Type := { uri : string; position : Position }.
Record TestMessage : Type := { message : string; location : option Location }.

(** A call on [this.testRun]. *)
Inductive Event : Type :=
| enqueued (t : handle)
| started (t : handle)
| passed (t : handle) (duration : JS.number)
| failed (t : handle) (m : TestMessage)
| skipped (t : handle)
| errored (t : handle) (m : TestMessage)
| appendOutput (text : string)
| end_.

(** The fields of a [TestRunner] that change during a run. *)
Record Runner : Type := {
  testItems : list handle;
  testArgs : list string;
  currentTestItem : option handle;
  testRun : list Event
}.

Definition emit (e : Event) (r : Runner) : Runner :=
  {| testItems := testItems r; testArgs := testArgs r;
     currentTestItem := currentTestItem r; testRun := testRun r ++ [e] |}.

Definition setCurrent (c : option handle) (r : Runner) : Runner :=
  {| testItems := testItems r; testArgs := testArgs r;
     currentTestItem := c; testRun := testRun r |}.

(** [this.testItems.splice(i, 1)] *)
Definition spliceItem (i : nat) (r : Runner) : Runner :=
  {| testItems := Arr.splice1 i (testItems r); testArgs := testArgs r;
     currentTestItem := currentTestItem r; testRun := testRun r |}.

(** ** What the runner is given *)

(** A target of the package: [path] is relative to the folder, [sources]
    to the target. *)
Record Target : Type := {
  name : string;
  path : string;
  sources : list string
}.

Record FolderContext : Type := {
  fsPath : string;              (* folder.fsPath *)
  targets : list Target         (* swiftPackage.targets *)
}.

(** The functions of Node's [path] module that the runner calls. *)
Record PathModule : Type := {
  join : string -> string -> string;
  relative : string -> string -> string
}.

(** [process.platform === "darwin"] or not. *)
Inductive Platform : Type := Darwin | NonDarwin.

(** A value that is thrown, or that a promise is rejected with.  The
    handler casts what it catches to [ExecError] without a check, so the
    values are told apart by what the test of the catch block reads:
    whether the value is truthy, whether its [error] field is, and
    whether the [message] of that field is a string.  (A [message] that
    is no string but has a method [startsWith] of its own is left
    out.) *)
Inductive Thrown : Type :=
| Undefined                                   (* [reject()] *)
| ExecError (errorMessage : string) (stdout stderr : string)
                              (* [error] is truthy, [error.message] a string *)
| ErrorWithoutMessage (payload : string)
                              (* [error] is truthy, [error.message] no string *)
| OtherError (payload : string).
                              (* a truthy value whose [error] is falsy *)

Record Env : Type := {
  store : Store;
  folderContext : FolderContext;
  pathModule : PathModule;
  platform : Platform;
  (** [getErrorDescription] of the utilities, which are not part of these
      sources: any function from thrown values to text. *)
  getErrorDescription : Thrown -> string
}.

(** ** The result parsers *)

Module Parser.
Import Regex.
Section Parser.
Variable env : Env.

Definition idIs (testId : string) (item : handle) : bool :=
  String.eqb (id_of (store env) item) testId.

Definition idEndsWith (testName : string) (item : handle) : bool :=
  JS.endsWith (id_of (store env) item) testName.

(** [`${a}/${b}`] *)
Definition slash (a b : string) : string := a ++ "/" ++ b.

(** One turn of the loop of [parseResultDarwin]. *)
Definition darwinLine (r : Runner) (ln : string) : Runner :=
  match exec Patterns.darwinStarted ln with
  | Some startedMatch =>
      let testId := slash (grp startedMatch 1) (grp startedMatch 2) in
      match Arr.findIndex (idIs testId) (testItems r) with
      | Some (_, item) => setCurrent (Some item) (emit (started item) r)
      | None => r
      end
  | None =>
  match exec Patterns.darwinPassed ln with
  | Some passedMatch =>
      let testId := slash (grp passedMatch 1) (grp passedMatch 2) in
      let duration := JS.toNumber (grp passedMatch 3) in
      setCurrent None
        match Arr.findIndex (idIs testId) (testItems r) with
        | Some (i, item) =>
            spliceItem i
              (emit (passed item (option_map (fun d => d * 1000)%Q duration)) r)
        | None => r
        end
  | None =>
  match exec Patterns.darwinFailed ln with
  | Some failedMatch =>
      let testId := slash (grp failedMatch 3) (grp failedMatch 4) in
      setCurrent None
        match Arr.findIndex (idIs testId) (testItems r) with
        | Some (i, item) =>
            let m :=
              {| message := grp failedMatch 5;
                 location :=
                   Some {| uri := grp failedMatch 1;
                           position :=
                             {| line := JS.parseInt (grp failedMatch 2) - 1;
                                character := 0 |} |} |} in
            spliceItem i (emit (failed item m) r)
        | None => r
        end
  | None =>
  match exec Patterns.darwinSkipped ln with
  | Some skippedMatch =>
      let testId := slash (grp skippedMatch 3) (grp skippedMatch 4) in
      setCurrent None
        match Arr.findIndex (idIs testId) (testItems r) with
        | Some (i, item) => spliceItem i (emit (skipped item) r)
        | None => r
        end
  | None => r
  end end end end.

(** [output.split("\n").map(item => item.trim())] *)
Definition linesOf (output : string) : list string :=
  map JS.trim (JS.splitLines output).

Definition parseResultDarwin (r : Runner) (output : string) : Runner :=
  fold_left darwinLine (linesOf output) r.

Definition isTestWithFilenameInTarget
    (testName filename : string) (item : handle) : bool :=
  if negb (idEndsWith testName item) then false
  else
    match parent_of (store env) item with
    | None => false
    | Some p =>
    match parent_of (store env) p with
    | None => false
    | Some targetTestItem =>
        match find (fun t => String.eqb (label_of (store env) targetTestItem) (name t))
                (targets (folderContext env)) with
        | Some target =>
            let fileErrorIsIn := filename in
            let targetPath :=
              join (pathModule env) (fsPath (folderContext env)) (path target) in
            let relativePath :=
              relative (pathModule env) targetPath fileErrorIsIn in
            existsb (fun source => String.eqb source relativePath) (sources target)
        | None => false
        end
    end end.

(** The index of the item a failed or skipped line is about: first by
    file name and target, then by class and function name alone. *)
Definition findByFileThenName (testName filename : string)
    (l : list handle) : option (nat * handle) :=
  match Arr.findIndex (isTestWithFilenameInTarget testName filename) l with
  | Some found => Some found
  | None => Arr.findIndex (idEndsWith testName) l
  end.

(** One turn of the first loop of [parseResultNonDarwin]. *)
Definition nonDarwinLine1 (r : Runner) (ln : string) : Runner :=
  match exec Patterns.nonDarwinStarted ln with
  | Some startedMatch =>
      let testName := slash (grp startedMatch 1) (grp startedMatch 2) in
      match Arr.findIndex (idEndsWith testName) (testItems r) with
      | Some (_, item) => setCurrent (Some item) (emit (started item) r)
      | None => r
      end
  | None =>
  match exec Patterns.nonDarwinFailed ln with
  | Some failedMatch =>
      let testName := slash (grp failedMatch 3) (grp failedMatch 4) in
      setCurrent None
        match findByFileThenName testName (grp failedMatch 1) (testItems r) with
        | Some (i, item) =>
            let m :=
              {| message := grp failedMatch 5;
                 location :=
                   Some {| uri := grp failedMatch 1;
                           position :=
                             {| line := JS.parseInt (grp failedMatch 2);
                                character := 0 |} |} |} in
            spliceItem i (emit (failed item m) r)
        | None => r
        end
  | None =>
  match exec Patterns.nonDarwinSkipped ln with
  | Some skippedMatch =>
      let testName := slash (grp skippedMatch 3) (grp skippedMatch 4) in
      setCurrent None
        match findByFileThenName testName (grp skippedMatch 1) (testItems r) with
        | Some (i, item) => spliceItem i (emit (skipped item) r)
        | None => r
        end
  | None => r
  end end end.

(** One turn of the second loop of [parseResultNonDarwin]. *)
Definition nonDarwinLine2 (r : Runner) (ln : string) : Runner :=
  match exec Patterns.nonDarwinPassed ln with
  | Some passedMatch =>
      let testName := slash (grp passedMatch 1) (grp passedMatch 2) in
      let duration := JS.toNumber (grp passedMatch 3) in
      setCurrent None
        match Arr.findIndex (idEndsWith testName) (testItems r) with
        | Some (i, item) => spliceItem i (emit (passed item duration) r)
        | None => r
        end
  | None => r
  end.

Definition parseResultNonDarwin (r : Runner) (output : string) : Runner :=
  let lines := linesOf output in
  fold_left nonDarwinLine2 lines (fold_left nonDarwinLine1 lines r).

(** The parser of the platform. *)
Definition parseResult (r : Runner) (output : string) : Runner :=
  match platform env with
  | Darwin => parseResultDarwin r output
  | NonDarwin => parseResultNonDarwin r output
  end.
End Parser.
End Parser.

(** ** createLaunchConfigurationForTesting *)

Module Launch.

(** The fields of a [vscode.DebugConfiguration] that the runner reads or
    writes; [args] and [stdio] may be [undefined]. *)
Record DebugConfiguration : Type := {
  program : string;
  args : option (list string);
  cwd : string;
  stdio : option (list (option string));
  preLaunchTask : option string
}.

(** The functions of [../debugger/launch], which are not part of these
    sources: [createTestConfiguration(folderContext, true)] and
    [createDarwinTestConfiguration(folderContext, filter, outputFile)];
    [None] is [null]. *)
Record LaunchModule : Type := {
  createTestConfiguration : option DebugConfiguration;
  createDarwinTestConfiguration : string -> string -> option DebugConfiguration
}.

(** What the function gives: a value it returns ([None] is [null]), or a
    value it throws. *)
Inductive Made : Type :=
| Returned (c : option DebugConfiguration)
| Threw (e : Thrown).

(** The TypeError of [...testBuildConfig.args] when [args] is
    [undefined]; its text is the engine's. *)
Definition notIterable : Thrown := OtherError "TypeError: args is not iterable".

Definition setArgs (a : list string) (c : DebugConfiguration) : DebugConfiguration :=
  {| program := program c; args := Some a; cwd := cwd c; stdio := stdio c;
     preLaunchTask := preLaunchTask c |}.

Definition setStdio (io : list (option string)) (c : DebugConfiguration)
    : DebugConfiguration :=
  {| program := program c; args := args c; cwd := cwd c; stdio := Some io;
     preLaunchTask := preLaunchTask c |}.

(** [s.length > 0] *)
Definition nonEmptyString (s : string) : bool :=
  match s with EmptyString => false | String _ _ => true end.

(** A value that is a non-empty string: [debugging && outputFile]. *)
Definition truthy (o : option string) : bool :=
  match o with Some s => nonEmptyString s | None => false end.

Section Launch.
Variable platform_ : Platform.
Variable launch : LaunchModule.
Variable testArgs_ : list string.

Definition createLaunchConfigurationForTesting (debugging : bool)
    (outputFile : option string) : Made :=
  let testList := String.concat "," testArgs_ in
  match platform_ with
  | Darwin =>
      let testFilterArg :=
        if nonEmptyString testList then ("-XCTest " ++ testList)%string
        else EmptyString in
      match (if debugging then truthy outputFile else false), outputFile with
      | true, Some file =>
          Returned (createDarwinTestConfiguration launch testFilterArg file)
      | _, _ =>
          match createTestConfiguration launch with
          | None => Returned None
          | Some testBuildConfig =>
              if nonEmptyString testList
              then match args testBuildConfig with
                   | Some rest =>
                       Returned
                         (Some (setStdio [None; None; outputFile]
                                  (setArgs ("-XCTest" :: testList :: rest)
                                     testBuildConfig)))
                   | None => Threw notIterable
                   end
              else Returned (Some (setStdio [None; None; outputFile] testBuildConfig))
          end
      end
  | NonDarwin =>
      match createTestConfiguration launch with
      | None => Returned None
      | Some testBuildConfig =>
          let c :=
            if nonEmptyString testList then setArgs [testList] testBuildConfig
            else testBuildConfig in
          Returned (Some (setStdio [None; outputFile; None] c))
      end
  end.

(** The arguments [runSession] gives the process:
    [testBuildConfig.args ?? []] of
    [createLaunchConfigurationForTesting(false)]. *)
Definition runArguments : option (list string) :=
  match createLaunchConfigurationForTesting false None with
  | Returned (Some c) => Some (match args c with Some a => a | None => [] end)
  | _ => None
  end.
End Launch.

End Launch.

(** ** The run handler *)

(** How the build ended: [getBuildAllTask] or the task queue threw, or the
    queue gave an exit code ([None] is [undefined]). *)
Inductive BuildOutcome : Type :=
| BuildThrew (e : Thrown)
| BuildExit (exitCode : option Z).

(** How [vscode.debug.startDebugging] ended: rejected, resolved with
    [false], or resolved with [true]. *)
Inductive DebugStart : Type :=
| StartRejected (reason : Thrown)
| StartRefused
| StartOk.

(** What the host and the test binary do during one run, of which
    every operation that the handler awaits settles. *)
Record World : Type := {
  build : BuildOutcome;
  launch : Launch.LaunchModule; (* the functions of [../debugger/launch] *)
  testOutputPath : string;      (* [tempFolder.filename("TestOutput", "txt")] *)
  cancelledAtStart : bool;      (* the token, when [runSession] reads it *)
  timestamp : string;           (* [new Date().toLocaleString()] *)
  chunks : list string;         (* what the write stream receives *)
  execOutcome : option Thrown;  (* [execFileStreamOutput] threw *)
  debugStart : DebugStart;
  cancelledAtTerminate : bool;  (* the token, when the session terminates *)
  debugOutput : option string   (* the output file; [None]: reading it threw *)
}.

Module Run.
Section Run.
Variable env : Env.
Variable w : World.

(** A step that may throw: the state it leaves and what it threw. *)
Definition Outcome : Type := Runner * option Thrown.

Definition setTestsEnqueued (r : Runner) : Runner :=
  fold_left (fun r' test => emit (enqueued test) r') (testItems r) r.

Definition banner : string :=
  "> Test run started at " ++ timestamp w ++ " <" ++ JS.CRLF ++ JS.CRLF.

(** The [write] callback of the stream of [runSession]. *)
Definition write (r : Runner) (text : string) : Runner :=
  Parser.parseResult env (emit (appendOutput (JS.crlf text)) r) text.

(** [runSession]: the configuration is that of
    [createLaunchConfigurationForTesting(false)]. *)
Definition runSession (r : Runner) : Outcome :=
  match Launch.createLaunchConfigurationForTesting (platform env) (launch w)
          (testArgs r) false None with
  | Launch.Threw e => (r, Some e)
  | Launch.Returned None => (r, None)
  | Launch.Returned (Some testBuildConfig) =>
      if cancelledAtStart w then (r, None)
      else
        let r1 := emit (appendOutput banner) r in
        (fold_left write (chunks w) r1, execOutcome w)
  end.

(** [debugSession]: the configuration is that of
    [createLaunchConfigurationForTesting(true, testOutputPath)]. *)
Definition debugSession (r : Runner) : Outcome :=
  match Launch.createLaunchConfigurationForTesting (platform env) (launch w)
          (testArgs r) true (Some (testOutputPath w)) with
  | Launch.Threw e => (r, Some e)
  | Launch.Returned None => (r, None)
  | Launch.Returned (Some testBuildConfig) =>
      match debugStart w with
      | StartRejected reason => (r, Some reason)
      | StartRefused => (r, Some Undefined)
      | StartOk =>
          let r1 := emit (appendOutput banner) r in
          (* the session terminates *)
          if cancelledAtTerminate w then (r1, None)
          else
            match debugOutput w with
            | Some out =>
                (Parser.parseResult env (emit (appendOutput (JS.crlf out)) r1) out,
                 None)
            | None => (r1, None)       (* [catch { }]: ignore error *)
            end
      end
  end.

(** [execError && execError.error &&
     execError.error.message.startsWith("Command failed")]: the value of
    the test, or [None] when reading [startsWith] of a message that is
    no string throws. *)
Definition commandFailed (error : Thrown) : option bool :=
  match error with
  | ExecError msg _ _ => Some (JS.startsWith msg "Command failed")
  | ErrorWithoutMessage _ => None
  | Undefined | OtherError _ => Some false
  end.

(** The TypeError of [execError.error.message.startsWith] when the
    message is no string; its text is the engine's. *)
Definition noStartsWith : Thrown :=
  OtherError "TypeError: Cannot read properties of undefined (reading 'startsWith')".

(** How a block of the handler ends: it returns from the handler, it
    falls through to the statement after the [try], or it throws. *)
Inductive Flow : Type :=
| Returns
| FallsThrough
| Throws (e : Thrown).

(** The [catch] block of [runHandler]. *)
Definition catchBlock (error : Thrown) (r : Runner) : Runner * Flow :=
  match commandFailed error with
  | None => (r, Throws noStartsWith)
  | Some true => (emit end_ r, Returns)
  | Some false =>
      let r1 :=
        match currentTestItem r with
        | Some cur =>
            emit (errored cur {| message := getErrorDescription env error;
                                 location := None |}) r
        | None => r
        end in
      (emit (appendOutput (JS.CRLF ++ "Error: " ++ getErrorDescription env error)) r1,
       FallsThrough)
  end.

(** The [try] block; the boolean tells that it has returned from the
    handler. *)
Definition tryBlock (shouldDebug : bool) (r : Runner) : Outcome * bool :=
  match build w with
  | BuildThrew e => ((r, Some e), false)
  | BuildExit exitCode =>
      match exitCode with
      | Some 0%Z =>
          let r1 := setTestsEnqueued r in
          (if shouldDebug then debugSession r1 else runSession r1, false)
      | _ => ((emit end_ r, None), true)
      end
  end.

(** [runHandler]: the state it leaves, and the value it throws (the
    promise it returns is rejected with) when the catch block throws. *)
Definition runHandler (shouldDebug : bool) (r : Runner) : Outcome :=
  let '((r1, thrown), returned) := tryBlock shouldDebug r in
  if returned then (r1, None)
  else
    match thrown with
    | None => (emit end_ r1, None)
    | Some error =>
        match catchBlock error r1 with
        | (r2, Returns) => (r2, None)
        | (r2, FallsThrough) => (emit end_ r2, None)
        | (r2, Throws e) => (r2, Some e)
        end
    end.
End Run.
End Run.

(** [new TestRunner(request, folderContext, controller)] *)
Definition newRunner (s : Store) (controller : TestController)
    (request : TestRunRequest) (fuel : nat) : option Runner :=
  match Plan.createTestLists s controller request fuel with
  | Some lists =>
      Some {| testItems := Plan.testItems lists; testArgs := Plan.testArgs lists;
              currentTestItem := None; testRun := [] |}
  | None => None
  end.

(** ** The task provider *)

Module Tasks.

(** A target of the package as [findTargets] reads it; [type] is the text
    of the package description. *)
Record Target : Type := { name : string; type : string }.

(** [vscode.TaskGroup.Build], [vscode.TaskGroup.Clean] *)
Inductive TaskGroup : Type := Build | Clean.

(** [task.definition], a [vscode.TaskDefinition]: its fields other
    than [type] are of any type, and [resolveTask] reads [command] and
    [args] without a check.  [None] is a field that is absent; a field
    that is present is taken to be a string, or an array of strings. *)
Record TaskDefinition : Type := {
  defType : string;
  command : option string;
  args : option (list string)
}.

(** [new vscode.ShellExecution(command, args)], as the two values the
    constructor is given; what the host makes of them is outside the
    model. *)
Record ShellExecution : Type := {
  shellCommand : option string;
  shellArgs : option (list string)
}.

(** [vscode.Task]; its scope is [vscode.TaskScope.Workspace] in every
    task this provider makes. *)
Record Task : Type := {
  definition : TaskDefinition;
  taskName : string;
  source : string;
  execution : ShellExecution;
  detail : option string;
  group : option TaskGroup
}.

(** [`${command} ${args.join(' ')}`] *)
Definition commandLine (cmd : string) (a : list string) : string :=
  (cmd ++ " " ++ String.concat " " a)%string.

Definition createSwiftTask (cmd : string) (a : list string) (nm : string)
    (g : option TaskGroup) : Task :=
  {| definition := {| defType := "swift"; command := Some cmd; args := Some a |};
     taskName := nm;
     source := "swift";
     execution := {| shellCommand := Some cmd; shellArgs := Some a |};
     detail := Some (commandLine cmd a);
     group := g |}.

Definition createBuildAllTask : Task :=
  createSwiftTask "swift" ["build"] "Build All Targets" (Some Build).

Definition createCleanTask : Task :=
  createSwiftTask "swift" ["package"; "clean"] "Clean Build Artifacts" (Some Clean).

Definition createExecutableTask (target : Target) : Task :=
  createSwiftTask "swift" ["run"; name target] ("Run " ++ name target)%string
    (Some Build).

Definition createResolveTask : Task :=
  createSwiftTask "swift" ["package"; "resolve"] "Resolve Package Dependencies" None.

Definition createUpdateTask : Task :=
  createSwiftTask "swift" ["package"; "update"] "Update Package Dependencies" None.

(** The loop of [provideTasks]: a task pushed for every executable
    target. *)
Fixpoint pushExecutables (targets : list Target) (tasks : list Task) : list Task :=
  match targets with
  | [] => tasks
  | target :: targets' =>
      if String.eqb (type target) "executable"
      then pushExecutables targets' (tasks ++ [createExecutableTask target])
      else pushExecutables targets' tasks
  end.

(** [provideTasks], given the targets that [findTargets] has read from
    [swift package describe]. *)
Definition provideTasks (targets : list Target) : list Task :=
  pushExecutables targets
    [createBuildAllTask; createCleanTask; createResolveTask; createUpdateTask].

(** What [resolveTask] gives: the task it returns, or the value it
    throws. *)
Inductive Result : Type :=
| Returned (t : Task)
| Threw (e : Thrown).

(** The TypeError of [task.definition.args.join] when [args] is absent;
    its text is the engine's. *)
Definition noJoin : Thrown :=
  OtherError "TypeError: Cannot read properties of undefined (reading 'join')".

(** A value in a template literal: an absent one reads [undefined]. *)
Definition show (o : option string) : string :=
  match o with Some v => v | None => "undefined" end.

(** [task.name || 'Custom Task'] *)
Definition nameOrCustom (nm : string) : string :=
  match nm with
  | EmptyString => "Custom Task"
  | _ => nm
  end.

(** The task that [resolveTask] builds, with the detail [d]. *)
Definition newTask (task : Task) (d : string) : Task :=
  {| definition := definition task;
     taskName := nameOrCustom (taskName task);
     source := "swift";
     execution :=
       {| shellCommand := command (definition task);
          shellArgs := args (definition task) |};
     detail := Some d;
     group := group task |}.

(** [resolveTask]: the detail is
    [task.detail ?? `${command} ${args.join(' ')}`], whose right side is
    evaluated, and throws when [args] is absent, only if the task has
    no detail. *)
Definition resolveTask (task : Task) : Result :=
  match detail task with
  | Some d => Returned (newTask task d)
  | None =>
      match args (definition task) with
      | Some a =>
          Returned (newTask task (commandLine (show (command (definition task))) a))
      | None => Threw noJoin
      end
  end.

End Tasks.

(** ** Example data *)

Module Examples.

(** A package with one test target, one test class and two tests. *)
Definition tree1 : Store :=
  [ {| id := "MyTarget"; label := "MyTarget"; parent := None; children := [1] |};
    {| id := "MyTarget/FooTests"; label := "FooTests"; parent := Some 0;
       children := [2; 3] |};
    {| id := "MyTarget/FooTests/testBar"; label := "testBar"; parent := Some 1;
       children := [] |};
    {| id := "MyTarget/FooTests/testBaz"; label := "testBaz"; parent := Some 1;
       children := [] |} ].

Definition controller1 : TestController := {| items := [0] |}.

(** A rank for trees of at most six items whose children have larger
    handles than their parents. *)
Definition rank6 (t : handle) : nat := 6 - t.

(** Two test targets that each have a class [Foo] with a test [bar]. *)
Definition tree2 : Store :=
  [ {| id := "TargetA"; label := "TargetA"; parent := None; children := [1] |};
    {| id := "TargetA/Foo"; label := "Foo"; parent := Some 0; children := [2] |};
    {| id := "TargetA/Foo/bar"; label := "bar"; parent := Some 1; children := [] |};
    {| id := "TargetB"; label := "TargetB"; parent := None; children := [4] |};
    {| id := "TargetB/Foo"; label := "Foo"; parent := Some 3; children := [5] |};
    {| id := "TargetB/Foo/bar"; label := "bar"; parent := Some 4; children := [] |} ].

Definition controller2 : TestController := {| items := [0; 3] |}.

Fixpoint segments (acc : string) (p : string) : list string :=
  match p with
  | EmptyString => match acc with EmptyString => [] | _ => [acc] end
  | String c p' =>
      if (nat_of_ascii c =? 47)%nat
      then match acc with
           | EmptyString => segments EmptyString p'
           | _ => acc :: segments EmptyString p'
           end
      else segments (acc ++ String c EmptyString)%string p'
  end.

Fixpoint dropCommon (a b : list string) : list string * list string :=
  match a, b with
  | x :: a', y :: b' => if String.eqb x y then dropCommon a' b' else (a, b)
  | _, _ => (a, b)
  end.

(** Node's POSIX [path.join] and [path.relative] on absolute paths whose
    segments are plain names (no [.] or [..] segment); [join] leaves the
    separators as they come, [relative] reads a path by its segments. *)
Definition posixPath : PathModule :=
  {| join := fun a b => (a ++ "/" ++ b)%string;
     relative := fun from to =>
       let '(f, t) := dropCommon (segments EmptyString from) (segments EmptyString to) in
       String.concat "/" (map (fun _ => "..") f ++ t) |}.

Definition folder1 : FolderContext :=
  {| fsPath := "/repo";
     targets := [ {| name := "MyTarget"; path := "";
                     sources := ["Tests/FooTests.swift"] |} ] |}.


Definition describe (e : Thrown) : string :=
  match e with
  | Undefined => "undefined"
  | ExecError m _ err => m
  | ErrorWithoutMessage p => p
  | OtherError p => p
  end.

Definition env1 : Env :=
  {| store := tree1; folderContext := folder1; pathModule := posixPath;
     platform := NonDarwin; getErrorDescription := describe |}.

(** The tree of [tree1] with the ids that the Darwin output names. *)
Definition tree1Darwin : Store :=
  [ {| id := "MyTests"; label := "MyTests"; parent := None; children := [1] |};
    {| id := "MyTests.FooTests"; label := "FooTests"; parent := Some 0;
       children := [2; 3] |};
    {| id := "MyTests.FooTests/testBar"; label := "testBar"; parent := Some 1;
       children := [] |};
    {| id := "MyTests.FooTests/testBaz"; label := "testBaz"; parent := Some 1;
       children := [] |} ].

Definition env1Darwin : Env :=
  {| store := tree1Darwin; folderContext := folder1; pathModule := posixPath;
     platform := Darwin; getErrorDescription := describe |}.


Definition runner (l : list handle) (cur : option handle) : Runner :=
  {| testItems := l; testArgs := []; currentTestItem := cur; testRun := [] |}.

(** A configuration as the launch module makes them for a package. *)
Definition config1 : Launch.DebugConfiguration :=
  {| Launch.program := "/repo/.build/debug/MyPackagePackageTests.xctest";
     Launch.args := Some ["--verbose"];
     Launch.cwd := "/repo";
     Launch.stdio := None;
     Launch.preLaunchTask := Some "swift: Build All" |}.

Definition launch1 : Launch.LaunchModule :=
  {| Launch.createTestConfiguration := Some config1;
     Launch.createDarwinTestConfiguration := fun _ _ => None |}.

Definition launch2 : Launch.LaunchModule :=
  {| Launch.createTestConfiguration := Some config1;
     Launch.createDarwinTestConfiguration :=
       fun filter file =>
         Some {| Launch.program := "/usr/bin/arch";
                 Launch.args := Some [filter];
                 Launch.cwd := "/repo";
                 Launch.stdio := Some [None; None; Some file];
                 Launch.preLaunchTask := None |} |}.

(** A run in which the build succeeds, the test binary prints that
    [testBar] has started, and the process call then throws a value
    that is not a failed command. *)
Definition world1 : World :=
  {| build := BuildExit (Some 0%Z);
     launch := launch1;
     testOutputPath := "/tmp/TestOutput.txt";
     cancelledAtStart := false;
     timestamp := "1/1/2022, 10:00:00 AM";
     chunks := ["Test Case 'FooTests.testBar' started at 2022-01-01 10:00:00.000"];
     execOutcome := Some (OtherError "spawn failed");
     debugStart := StartOk;
     cancelledAtTerminate := false;
     debugOutput := None |}.

End Examples.

(** ** Notions used to state the properties of the plan *)

Module PlanSpec.
Section PlanSpec.
Variable s : Store.
Variable request : TestRunRequest.

(** The items the request excludes. *)
Definition excludeList : list handle :=
  match exclude request with Some ex => ex | None => [] end.

(** The condition under which a test case is accepted whole, in the
    words of the specification: it is not in [exclude], and no
    excluded item's id is a prefix of its id. *)
Definition specWholeCase (t : handle) : bool :=
  negb (Plan.includes excludeList t)
  && negb (existsb (fun e => JS.startsWith (id_of s t) (id_of s e)) excludeList).

(** The arrays after a turn of the first loop that has accepted [t]
    whole: [t] is pushed on the list and its children on the second
    queue; [q] is what is left of the queue. *)
Definition acceptedWhole (t : handle) (q : list handle) (st : Plan.Lists)
    : Plan.Lists :=
  {| Plan.queue := q; Plan.list_ := Plan.list_ st ++ [t];
     Plan.queue2 := Plan.queue2 st ++ children_of s t |}.

(** What the first loop adds to [list] and to [queue2] from the moment
    it pops [t] to the moment the queue is back to what was below [t];
    [d] bounds the depth of the tree under [t]. *)
Fixpoint visitL (d : nat) (t : handle) : list handle :=
  match d with
  | O => []
  | S d' =>
      match Plan.verdict s request t with
      | Plan.Excluded => []
      | Plan.WholeCase => [t]
      | Plan.Expanded => flat_map (visitL d') (rev (children_of s t))
      | Plan.Leaf => [t]
      end
  end.

Fixpoint visitQ (d : nat) (t : handle) : list handle :=
  match d with
  | O => []
  | S d' =>
      match Plan.verdict s request t with
      | Plan.Excluded => []
      | Plan.WholeCase => children_of s t
      | Plan.Expanded => flat_map (visitQ d') (rev (children_of s t))
      | Plan.Leaf => []
      end
  end.
End PlanSpec.

(** The tree is finite in depth: [rank] decreases from an item to its
    children. *)
Definition ranked (s : Store) (rank : handle -> nat) : Prop :=
  forall t c, In c (children_of s t) -> rank c < rank t.

(** The children of an item name it as their parent. *)
Definition parentsAgree (s : Store) : Prop :=
  forall t c, In c (children_of s t) -> parent_of s c = Some t.

(** The children of a test case are tests: they have no children. *)
Definition methodsAreLeaves (s : Store) : Prop :=
  forall t c, isTestCase s t = true -> In c (children_of s t) ->
              children_of s c = [].

(** [request'] excludes [m] and what [request] excludes, and includes
    what [request] includes. *)
Definition excludesAlso (request request' : TestRunRequest) (m : handle) : Prop :=
  include request' = include request
  /\ forall x, In x (excludeList request') <-> x = m \/ In x (excludeList request).

(** [x] is in the plan on account of the visit of [t]: it is put on the
    list, or on the second queue and not excluded. *)
Definition planned (s : Store) (request : TestRunRequest) (d : nat)
    (t x : handle) : Prop :=
  In x (visitL s request d t)
  \/ (In x (visitQ s request d t) /\ Plan.excluded request x = false).

(** A depth that bounds the tree under every item of [l]. *)
Definition depthBound (rank : handle -> nat) (l : list handle) : nat :=
  S (list_max (map rank l)).

(** The list and the second queue as the first loop leaves them. *)
Definition listAfterLoop1 (s : Store) (controller : TestController)
    (request : TestRunRequest) (rank : handle -> nat) : list handle :=
  let init := Plan.initialQueue controller request in
  flat_map (visitL s request (depthBound rank init)) (rev init).

Definition queue2AfterLoop1 (s : Store) (controller : TestController)
    (request : TestRunRequest) (rank : handle -> nat) : list handle :=
  let init := Plan.initialQueue controller request in
  flat_map (visitQ s request (depthBound rank init)) (rev init).

(** [include] or [exclude] is [undefined] or has no element. *)
Definition emptyOrUndefined (o : option (list handle)) : Prop :=
  o = None \/ o = Some [].

Definition unfiltered (request : TestRunRequest) : Prop :=
  emptyOrUndefined (include request) /\ emptyOrUndefined (exclude request).
End PlanSpec.

(** ** Notions used to state the properties of the sink *)

Module SinkSpec.

(** The item a terminal outcome (passed, failed, skipped) is about. *)
Definition terminalItem (e : Event) : list handle :=
  match e with
  | passed t _ | failed t _ | skipped t => [t]
  | _ => []
  end.

(** The items that the events of a log give a terminal outcome, in
    order. *)
Definition terminalItems (log : list Event) : list handle :=
  flat_map terminalItem log.

Definition isPassed (e : Event) : Prop :=
  match e with passed _ _ => True | _ => False end.

(** The events the parsers emit: an item started, or a terminal
    outcome. *)
Definition isResult (e : Event) : Prop :=
  match e with
  | started _ | passed _ _ | failed _ _ | skipped _ => True
  | _ => False
  end.

(** A terminal line has been read: the current item is cleared, and if
    the lookup [found] has failed nothing else has changed. *)
Definition cleared (r r' : Runner) (found : option (nat * handle)) : Prop :=
  currentTestItem r' = None /\ (found = None -> r' = setCurrent None r).

(** From [r] to [r'] the log has grown by events that satisfy [P], and
    the items that these events give a terminal outcome are the items
    that have left the list. *)
Definition advances (P : Event -> Prop) (r r' : Runner) : Prop :=
  exists new,
    testRun r' = testRun r ++ new
    /\ Forall P new
    /\ Permutation (terminalItems new ++ testItems r') (testItems r).

(** The number of calls of [end()] in a log. *)
Definition ends (log : list Event) : nat :=
  length (List.filter (fun e => match e with end_ => true | _ => false end) log).

(** From [r] to [r'] the log has grown by events none of which is
    [end()]. *)
Definition quiet (r r' : Runner) : Prop :=
  exists new, testRun r' = testRun r ++ new /\ ends new = 0.

End SinkSpec.

(** ** Notions used to state further properties *)

Module TreeSpec.

(** [x] is [t] or is below [t] in the tree. *)
Inductive reaches (s : Store) : handle -> handle -> Prop :=
| reaches_self (t : handle) : reaches s t t
| reaches_child (t c x : handle) :
    In c (children_of s t) -> reaches s c x -> reaches s t x.

(** No item is twice among the children of an item. *)
Definition childrenDistinct (s : Store) : Prop :=
  forall t, List.NoDup (children_of s t).

(** No item of [l] is below another item of [l]. *)
Definition apart (s : Store) (l : list handle) : Prop :=
  forall a b, In a l -> In b l -> reaches s a b -> a = b.

(** The request excludes nothing. *)
Definition excludesNothing (request : TestRunRequest) : Prop :=
  PlanSpec.excludeList request = [].

End TreeSpec.

Module TaskSpec.

(** A task that is complete: the execution runs the command of the
    definition with its arguments, the source is [swift], and the task
    has a name and a detail. *)
Definition coherent (t : Tasks.Task) : Prop :=
  Tasks.execution t
  = {| Tasks.shellCommand := Tasks.command (Tasks.definition t);
       Tasks.shellArgs := Tasks.args (Tasks.definition t) |}
  /\ Tasks.source t = "swift"
  /\ Tasks.taskName t <> EmptyString
  /\ exists d, Tasks.detail t = Some d.

(** The executable targets, in order. *)
Definition executables (targets : list Tasks.Target) : list Tasks.Target :=
  List.filter (fun t => String.eqb (Tasks.type t) "executable") targets.

End TaskSpec.

Module RunSpec.

(** The build has failed in a way the handler does not report: the exit
    code is undefined or not zero, or the build has thrown a failed
    command. *)
Definition buildFailed (w : World) : Prop :=
  match build w with
  | BuildExit (Some 0%Z) => False
  | BuildExit _ => True
  | BuildThrew e => Run.commandFailed e = Some true
  end.

(** What a session and the catch block may emit: anything but an
    enqueued test and the end of the run. *)
Definition isReport (e : Event) : Prop :=
  match e with
  | enqueued _ | end_ => False
  | _ => True
  end.

(** The text a call appends to the output of the sink. *)
Definition outputOf (e : Event) : string :=
  match e with
  | appendOutput text => text
  | _ => EmptyString
  end.

(** The text that the calls of a log append, in order. *)
Definition outputText (log : list Event) : string :=
  fold_right (fun e acc => (outputOf e ++ acc)%string) EmptyString log.

(** The line feed. *)
Definition LF : string := String (ascii_of_nat 10) EmptyString.


End RunSpec.

Module MoreExamples.

(** A run in which the build succeeds, the test binary prints in two
    chunks that [testBar] has failed and [testBaz] has passed, and the
    process ends well. *)
Definition world2 : World :=
  {| build := BuildExit (Some 0%Z);
     launch := Examples.launch1;
     testOutputPath := "/tmp/TestOutput.txt";
     cancelledAtStart := false;
     timestamp := "1/1/2022, 10:00:00 AM";
     chunks :=
       [ "/repo/Tests/FooTests.swift:12: error: FooTests.testBar : XCTAssertTrue failed";
         "Test Case 'FooTests.testBaz' passed (0.25 seconds)" ];
     execOutcome := None;
     debugStart := StartOk;
     cancelledAtTerminate := false;
     debugOutput :=
       Some "Test Case 'FooTests.testBaz' passed (0.25 seconds)" |}.

(** The same run with the output in one piece, which is also what the
    output file of a debug session holds. *)
Definition output3 : string :=
  "/repo/Tests/FooTests.swift:12: error: FooTests.testBar : XCTAssertTrue failed"
  ++ RunSpec.LF ++ "Test Case 'FooTests.testBaz' passed (0.25 seconds)".

Definition world3 : World :=
  {| build := BuildExit (Some 0%Z);
     launch := Examples.launch1;
     testOutputPath := "/tmp/TestOutput.txt";
     cancelledAtStart := false;
     timestamp := "1/1/2022, 10:00:00 AM";
     chunks := [output3];
     execOutcome := None;
     debugStart := StartOk;
     cancelledAtTerminate := false;
     debugOutput := Some output3 |}.

(** A package in which the target [TargetB] has the classes [SubFoo]
    and [Foo], each with a test [bar], and the target [TargetA] a class
    [Foo] with a test [bar]. *)
Definition tree3 : Store :=
  [ {| id := "TargetA"; label := "TargetA"; parent := None; children := [1] |};
    {| id := "TargetA/Foo"; label := "Foo"; parent := Some 0; children := [2] |};
    {| id := "TargetA/Foo/bar"; label := "bar"; parent := Some 1; children := [] |};
    {| id := "TargetB"; label := "TargetB"; parent := None; children := [4; 6] |};
    {| id := "TargetB/SubFoo"; label := "SubFoo"; parent := Some 3;
       children := [5] |};
    {| id := "TargetB/SubFoo/bar"; label := "bar"; parent := Some 4;
       children := [] |};
    {| id := "TargetB/Foo"; label := "Foo"; parent := Some 3; children := [7] |};
    {| id := "TargetB/Foo/bar"; label := "bar"; parent := Some 6; children := [] |} ].

Definition controller3 : TestController := {| items := [0; 3] |}.

Definition folder3 : FolderContext :=
  {| fsPath := "/repo";
     targets := [ {| name := "TargetA"; path := "Tests/TargetA";
                     sources := ["Foo.swift"] |};
                  {| name := "TargetB"; path := "Tests/TargetB";
                     sources := ["Foo.swift"; "SubFoo.swift"] |} ] |}.

Definition env3 : Env :=
  {| store := tree3; folderContext := folder3; pathModule := Examples.posixPath;
     platform := NonDarwin; getErrorDescription := Examples.describe |}.

(** A run in which the build succeeds and the process call then throws
    a value that has an [error] field without a message. *)
Definition world4 : World :=
  {| build := BuildExit (Some 0%Z);
     launch := Examples.launch1;
     testOutputPath := "/tmp/TestOutput.txt";
     cancelledAtStart := false;
     timestamp := "1/1/2022, 10:00:00 AM";
     chunks := ["Test Case 'FooTests.testBar' started at 2022-01-01 10:00:00.000"];
     execOutcome := Some (ErrorWithoutMessage "{ error: {} }");
     debugStart := StartOk;
     cancelledAtTerminate := false;
     debugOutput := None |}.

End MoreExamples.

(** * Properties *)

(** ** Arrays and strings *)

Lemma pop_snoc {A} (q : list A) (t : A) : Arr.pop (q ++ [t]) = Some (t, q).
Proof.
  induction q as [|x q IH]; simpl; [reflexivity|].
  now rewrite IH.
Qed.

Lemma pop_nil_inv {A} (q : list A) : Arr.pop q = None -> q = [].
Proof.
  destruct q as [|x q]; [reflexivity|].
  simpl. destruct (Arr.pop q) as [[y b]|]; discriminate.
Qed.

Lemma pop_some_inv {A} (q q' : list A) (t : A) :
  Arr.pop q = Some (t, q') -> q = q' ++ [t].
Proof.
  revert q' t. induction q as [|x q IH]; intros q' t; simpl; [discriminate|].
  destruct (Arr.pop q) as [[y b]|] eqn:E.
  - intros [= <- <-]. simpl. f_equal. now apply IH.
  - intros [= <- <-]. apply pop_nil_inv in E. now subst.
Qed.

Lemma includes_In (l : list handle) (t : handle) :
  Plan.includes l t = true <-> In t l.
Proof.
  unfold Plan.includes. rewrite existsb_exists. split.
  - intros (x & Hx & E). apply Nat.eqb_eq in E. now subst.
  - intros H. exists t. split; [assumption|apply Nat.eqb_refl].
Qed.

Lemma excluded_In (request : TestRunRequest) (t : handle) :
  Plan.excluded request t = true <-> In t (PlanSpec.excludeList request).
Proof.
  unfold Plan.excluded, PlanSpec.excludeList.
  destruct (exclude request) as [ex|].
  - apply includes_In.
  - split; [discriminate|intros []].
Qed.

Lemma excluded_false (request : TestRunRequest) (t : handle) :
  Plan.excluded request t = false <-> ~ In t (PlanSpec.excludeList request).
Proof.
  rewrite <- excluded_In. destruct (Plan.excluded request t); split; congruence.
Qed.

Lemma includesExcluded_false (s : Store) (request : TestRunRequest) (t : handle) :
  Plan.includesExcluded s request t = false <->
  forall e, In e (PlanSpec.excludeList request) ->
            JS.startsWith (id_of s e) (id_of s t) = false.
Proof.
  unfold Plan.includesExcluded, PlanSpec.excludeList.
  destruct (exclude request) as [ex|].
  - split.
    + intros H e He.
      destruct (JS.startsWith (id_of s e) (id_of s t)) eqn:E; [|reflexivity].
      assert (existsb (fun item => JS.startsWith (id_of s item) (id_of s t)) ex = true)
        as H' by (apply existsb_exists; eauto).
      congruence.
    + intros H.
      destruct (existsb _ ex) eqn:E; [|reflexivity].
      apply existsb_exists in E as (e & He & E). rewrite (H e He) in E. discriminate.
  - split; [intros _ e []|reflexivity].
Qed.

(** ** The plan: one turn of the first loop *)

Lemma loop1_pop (s : Store) (request : TestRunRequest) (fuel : nat)
    (q l q2 : list handle) (t : handle) :
  Plan.loop1 s request (S fuel)
    {| Plan.queue := q ++ [t]; Plan.list_ := l; Plan.queue2 := q2 |}
  = Plan.loop1 s request fuel
      (Plan.body s request t q
         {| Plan.queue := q ++ [t]; Plan.list_ := l; Plan.queue2 := q2 |}).
Proof. simpl. now rewrite pop_snoc. Qed.

Lemma verdict_whole_case (s : Store) (request : TestRunRequest) (t : handle) :
  Plan.verdict s request t = Plan.WholeCase <->
  Plan.excluded request t = false /\ isTestCase s t = true
  /\ Plan.includesExcluded s request t = false.
Proof.
  unfold Plan.verdict.
  destruct (Plan.excluded request t); [split; [discriminate|intros [? _]; discriminate]|].
  destruct (isTestCase s t); simpl.
  - destruct (Plan.includesExcluded s request t); simpl.
    + destruct (children_of s t); split; try discriminate; intros (_ & _ & ?); discriminate.
    + tauto.
  - destruct (children_of s t); split; try discriminate; intros (_ & ? & _); discriminate.
Qed.

Lemma snoc_neq {A} (l : list A) (x : A) : l <> l ++ [x].
Proof.
  intros E. apply (f_equal (@length A)) in E. rewrite length_app in E. simpl in E. lia.
Qed.

Lemma app_neq {A} (l k : list A) : k <> [] -> l <> l ++ k.
Proof.
  intros Hk E. apply (f_equal (@length A)) in E. rewrite length_app in E.
  destruct k; [contradiction|]. simpl in E. lia.
Qed.

(** What a turn of the first loop does with a test case, by the effect
    it has on the three arrays. *)
Lemma body_accepted_whole (s : Store) (request : TestRunRequest) (t : handle)
    (q : list handle) (st : Plan.Lists) :
  isTestCase s t = true ->
  (Plan.body s request t q st = PlanSpec.acceptedWhole s t q st <->
   Plan.excluded request t = false
   /\ (Plan.includesExcluded s request t = false \/ children_of s t = [])).
Proof.
  intros Hcase. unfold Plan.body, Plan.verdict, PlanSpec.acceptedWhole.
  rewrite Hcase. cbn [andb].
  destruct (Plan.excluded request t).
  - split; [|intros [? _]; discriminate].
    intros [= E _]. now apply snoc_neq in E.
  - destruct (Plan.includesExcluded s request t); cbn [negb].
    + destruct (children_of s t) as [|c cs] eqn:Hch.
      * rewrite app_nil_r. split; [auto|reflexivity].
      * split; [|intros [_ [?|?]]; discriminate].
        intros [= E _]. symmetry in E. apply app_neq in E; [destruct E|discriminate].
    + split; [auto|reflexivity].
Qed.

(** C1, as amended.  A test case popped from the first queue is accepted
    whole (it is pushed on the list and its children are pushed on the
    second queue, nothing else changes) if and only if it is not in
    [exclude] and either its id is a prefix of no excluded item's id or
    it has no children.  The test of the code is
    [item.id.startsWith(test.id)], the excluded item inside the case, not
    the case inside the excluded item; and a case without children that
    fails this test is pushed on the list by the last statement of the
    loop, which is the same effect. *)
Theorem createTestLists_whole_case (s : Store) (request : TestRunRequest)
    (t : handle) (q l q2 : list handle) (fuel : nat) :
  isTestCase s t = true ->
  let st := {| Plan.queue := q ++ [t]; Plan.list_ := l; Plan.queue2 := q2 |} in
  Plan.loop1 s request (S fuel) st
  = Plan.loop1 s request fuel (Plan.body s request t q st)
  /\ (Plan.body s request t q st
      = {| Plan.queue := q; Plan.list_ := l ++ [t];
           Plan.queue2 := q2 ++ children_of s t |}
      <-> ~ In t (PlanSpec.excludeList request)
          /\ ((forall e, In e (PlanSpec.excludeList request) ->
                         JS.startsWith (id_of s e) (id_of s t) = false)
              \/ children_of s t = [])).
Proof.
  intros Hcase st. split; [apply loop1_pop|].
  rewrite <- excluded_false, <- includesExcluded_false.
  apply (body_accepted_whole s request t q st Hcase).
Qed.

Lemma createTestLists_whole_case_witness :
  let request := {| include := None; exclude := Some [0] |} in
  let st := {| Plan.queue := [3; 1]; Plan.list_ := []; Plan.queue2 := [] |} in
  Plan.loop1 Examples.tree1 request 3 st
  = Plan.loop1 Examples.tree1 request 2 (Plan.body Examples.tree1 request 1 [3] st)
  /\ Plan.body Examples.tree1 request 1 [3] st
     = {| Plan.queue := [3]; Plan.list_ := [1]; Plan.queue2 := [2; 3] |}.
Proof.
  intros request st.
  destruct (createTestLists_whole_case Examples.tree1 request 1 [3] [] [] 2 eq_refl)
    as [Hstep Hiff].
  split; [exact Hstep|]. apply Hiff. split.
  - simpl. intros [H|[]]. discriminate.
  - left. simpl. intros e [<-|[]]. reflexivity.
Defined.

(** C1, as the specification states it, does not hold: with the test
    [testBar] excluded, no excluded id is a prefix of the id of the case
    [FooTests], yet the case is not accepted whole: its children are
    pushed back on the first queue and the list is left as it was. *)
Lemma createTestLists_whole_case_spec_fails :
  ~ (forall (s : Store) (request : TestRunRequest) (t : handle)
            (q : list handle) (st : Plan.Lists),
        isTestCase s t = true ->
        (Plan.body s request t q st = PlanSpec.acceptedWhole s t q st <->
         PlanSpec.specWholeCase s request t = true)).
Proof.
  intros H.
  specialize (H Examples.tree1 {| include := None; exclude := Some [2] |} 1 []
                {| Plan.queue := [1]; Plan.list_ := []; Plan.queue2 := [] |} eq_refl).
  destruct H as [_ H]. specialize (H eq_refl). discriminate.
Qed.

(** A case without children whose id is a prefix of an excluded id is
    pushed on the list all the same. *)
Example createTestLists_childless_case :
  Plan.createTestLists
    [ {| id := "T"; label := "T"; parent := None; children := [1; 2] |};
      {| id := "T/Foo"; label := "Foo"; parent := Some 0; children := [] |};
      {| id := "T/FooBar"; label := "FooBar"; parent := Some 0; children := [] |} ]
    {| items := [0] |} {| include := None; exclude := Some [2] |} 5
  = Some {| Plan.testItems := [1]; Plan.testArgs := ["T/Foo"] |}.
Proof. reflexivity. Qed.

(** ** The plan: the first loop as a traversal *)

Lemma visitL_S (s : Store) (request : TestRunRequest) (d : nat) (t : handle) :
  PlanSpec.visitL s request (S d) t
  = match Plan.verdict s request t with
    | Plan.Excluded => []
    | Plan.WholeCase => [t]
    | Plan.Expanded => flat_map (PlanSpec.visitL s request d) (rev (children_of s t))
    | Plan.Leaf => [t]
    end.
Proof. reflexivity. Qed.

Lemma visitQ_S (s : Store) (request : TestRunRequest) (d : nat) (t : handle) :
  PlanSpec.visitQ s request (S d) t
  = match Plan.verdict s request t with
    | Plan.Excluded => []
    | Plan.WholeCase => children_of s t
    | Plan.Expanded => flat_map (PlanSpec.visitQ s request d) (rev (children_of s t))
    | Plan.Leaf => []
    end.
Proof. reflexivity. Qed.

Lemma flat_map_cons_eq {A B} (f : A -> list B) (x : A) (l : list A) :
  flat_map f (x :: l) = f x ++ flat_map f l.
Proof. reflexivity. Qed.

Section Traversal.
Variable s : Store.
Variable request : TestRunRequest.
Variable rank : handle -> nat.
Hypothesis Hrank : PlanSpec.ranked s rank.

(** The loop works off the top of the queue without touching what is
    below it, and what it adds is given by [visitL] and [visitQ]. *)
Lemma loop1_segment (d : nat) :
  forall top, (forall t, In t top -> rank t < d) ->
  forall q l q2, exists k, forall fuel,
    Plan.loop1 s request (k + fuel)
      {| Plan.queue := q ++ top; Plan.list_ := l; Plan.queue2 := q2 |}
    = Plan.loop1 s request fuel
        {| Plan.queue := q;
           Plan.list_ := l ++ flat_map (PlanSpec.visitL s request d) (rev top);
           Plan.queue2 := q2 ++ flat_map (PlanSpec.visitQ s request d) (rev top) |}.
Proof.
  induction d as [|d IHd].
  - intros [|t top] Htop q l q2.
    + exists 0. intros fuel. simpl. now rewrite !app_nil_r.
    + specialize (Htop t (or_introl eq_refl)). lia.
  - intros top. induction top as [|t top IHtop] using rev_ind; intros Htop q l q2.
    + exists 0. intros fuel. simpl. now rewrite !app_nil_r.
    + assert (forall t', In t' top -> rank t' < S d) as Htop'
        by (intros t' Ht'; apply Htop, in_or_app; now left).
      assert (rank t < S d) as Ht
        by (apply Htop, in_or_app; right; now left).
      pose proof (visitL_S s request d t) as EL.
      pose proof (visitQ_S s request d t) as EQ.
      rewrite rev_app_distr.
      change (rev [t] ++ rev top) with (t :: rev top).
      rewrite !flat_map_cons_eq, EL, EQ, (app_assoc q top [t]).
      destruct (Plan.verdict s request t) eqn:Hv.
      * destruct (IHtop Htop' q l q2) as [k Hk].
        exists (S k). intros fuel.
        change (S k + fuel) with (S (k + fuel)).
        rewrite loop1_pop. unfold Plan.body. rewrite Hv.
        cbn [Plan.queue Plan.list_ Plan.queue2 app].
        apply Hk.
      * destruct (IHtop Htop' q (l ++ [t]) (q2 ++ children_of s t)) as [k Hk].
        exists (S k). intros fuel.
        change (S k + fuel) with (S (k + fuel)).
        rewrite loop1_pop. unfold Plan.body. rewrite Hv.
        cbn [Plan.queue Plan.list_ Plan.queue2].
        rewrite !app_assoc. apply Hk.
      * assert (forall c, In c (children_of s t) -> rank c < d) as Hch
          by (intros c Hc; specialize (Hrank t c Hc); lia).
        destruct (IHd (children_of s t) Hch (q ++ top) l q2) as [k1 Hk1].
        destruct (IHtop Htop' q
                    (l ++ flat_map (PlanSpec.visitL s request d) (rev (children_of s t)))
                    (q2 ++ flat_map (PlanSpec.visitQ s request d) (rev (children_of s t))))
          as [k2 Hk2].
        exists (S (k1 + k2)). intros fuel.
        change (S (k1 + k2) + fuel) with (S (k1 + k2 + fuel)).
        rewrite loop1_pop. unfold Plan.body. rewrite Hv.
        cbn [Plan.queue Plan.list_ Plan.queue2].
        rewrite <- Nat.add_assoc. rewrite Hk1.
        rewrite !app_assoc. apply Hk2.
      * destruct (IHtop Htop' q (l ++ [t]) q2) as [k Hk].
        exists (S k). intros fuel.
        change (S k + fuel) with (S (k + fuel)).
        rewrite loop1_pop. unfold Plan.body. rewrite Hv.
        cbn [Plan.queue Plan.list_ Plan.queue2].
        rewrite !app_assoc, app_nil_r. apply Hk.
Qed.
End Traversal.

(** ** The plan: what createTestLists returns *)

Lemma loop2_filter (request : TestRunRequest) (stack l : list handle) :
  Plan.loop2 request stack l
  = l ++ List.filter (fun t => negb (Plan.excluded request t)) stack.
Proof.
  revert l. induction stack as [|t stack IH]; intros l; simpl.
  - now rewrite app_nil_r.
  - destruct (Plan.excluded request t); simpl; rewrite IH; [reflexivity|].
    now rewrite <- app_assoc.
Qed.

Lemma depthBound_lt (rank : handle -> nat) (l : list handle) (t : handle) :
  In t l -> rank t < PlanSpec.depthBound rank l.
Proof.
  unfold PlanSpec.depthBound. induction l as [|x l IH]; simpl; [intros []|].
  intros [->|H]; [lia|]. specialize (IH H). lia.
Qed.

Lemma filtered_false (request : TestRunRequest) :
  Plan.filtered request = false <-> PlanSpec.unfiltered request.
Proof.
  unfold Plan.filtered, PlanSpec.unfiltered, PlanSpec.emptyOrUndefined, Plan.nonEmpty.
  destruct (include request) as [[|? ?]|], (exclude request) as [[|? ?]|]; simpl;
    split; try discriminate; try (intros _; auto; fail);
    intros [[?|?] [?|?]]; congruence.
Qed.

Section Returned.
Variable s : Store.
Variable controller : TestController.
Variable request : TestRunRequest.
Variable rank : handle -> nat.
Hypothesis Hrank : PlanSpec.ranked s rank.

(** On a tree of finite depth the first loop ends, and its result is
    the traversal of the initial queue from its end. *)
Lemma loop1_returns :
  exists k, forall fuel,
    Plan.loop1 s request (k + fuel)
      {| Plan.queue := Plan.initialQueue controller request;
         Plan.list_ := []; Plan.queue2 := [] |}
    = Some {| Plan.queue := [];
              Plan.list_ := PlanSpec.listAfterLoop1 s controller request rank;
              Plan.queue2 := PlanSpec.queue2AfterLoop1 s controller request rank |}.
Proof.
  destruct (loop1_segment s request rank Hrank
              (PlanSpec.depthBound rank (Plan.initialQueue controller request))
              (Plan.initialQueue controller request)
              (fun t => depthBound_lt rank _ t) [] [] []) as [k Hk].
  exists k. intros fuel. simpl in Hk. rewrite Hk.
  destruct fuel; reflexivity.
Qed.

Lemma createTestLists_returns :
  exists k, forall fuel,
    Plan.createTestLists s controller request (k + fuel)
    = Some {| Plan.testItems :=
                PlanSpec.listAfterLoop1 s controller request rank
                ++ List.filter (fun t => negb (Plan.excluded request t))
                     (rev (PlanSpec.queue2AfterLoop1 s controller request rank));
              Plan.testArgs :=
                if Plan.filtered request
                then map (id_of s) (PlanSpec.listAfterLoop1 s controller request rank)
                else [] |}.
Proof.
  destruct loop1_returns as [k Hk]. exists k. intros fuel.
  unfold Plan.createTestLists. rewrite Hk.
  cbn [Plan.queue Plan.list_ Plan.queue2]. now rewrite loop2_filter.
Qed.
End Returned.

(** C8, as amended.  On every tree of finite depth createTestLists
    returns; if both [include] and [exclude] are empty the arguments are
    empty; if the request is filtered they are the ids of the list as it
    is after the first loop, before the second queue is drained; so they
    are empty exactly when the request is unfiltered or that list is
    empty. *)
Theorem createTestLists_testArgs (s : Store) (controller : TestController)
    (request : TestRunRequest) (rank : handle -> nat) :
  PlanSpec.ranked s rank ->
  exists k, forall fuel, exists lists st,
    Plan.createTestLists s controller request (k + fuel) = Some lists
    /\ Plan.loop1 s request (k + fuel)
         {| Plan.queue := Plan.initialQueue controller request;
            Plan.list_ := []; Plan.queue2 := [] |} = Some st
    /\ (PlanSpec.unfiltered request -> Plan.testArgs lists = [])
    /\ (~ PlanSpec.unfiltered request ->
        Plan.testArgs lists = map (id_of s) (Plan.list_ st))
    /\ (Plan.testArgs lists = [] <->
        PlanSpec.unfiltered request \/ Plan.list_ st = []).
Proof.
  intros Hrank.
  destruct (loop1_returns s controller request rank Hrank) as [k Hk].
  exists k. intros fuel. specialize (Hk fuel).
  unfold Plan.createTestLists. rewrite Hk.
  eexists. eexists. split; [reflexivity|]. split; [reflexivity|].
  cbn [Plan.testArgs Plan.list_].
  destruct (Plan.filtered request) eqn:Hf.
  - assert (~ PlanSpec.unfiltered request) as Hn
      by (rewrite <- filtered_false; congruence).
    split; [tauto|]. split; [reflexivity|].
    split.
    + intros H. right. now apply map_eq_nil in H.
    + intros [H|H]; [tauto|]. now rewrite H.
  - apply filtered_false in Hf. tauto.
Qed.

Lemma tree1_ranked : PlanSpec.ranked Examples.tree1 Examples.rank6.
Proof.
  intros t c H. unfold children_of in H.
  destruct t as [|[|[|[|t]]]]; simpl in H;
    repeat (destruct H as [<-|H]; [unfold Examples.rank6; simpl; lia|]);
    destruct H.
Qed.

Lemma createTestLists_testArgs_witness :
  exists k, forall fuel, exists lists st,
    Plan.createTestLists Examples.tree1 Examples.controller1
      {| include := None; exclude := Some [2] |} (k + fuel) = Some lists
    /\ Plan.loop1 Examples.tree1 {| include := None; exclude := Some [2] |} (k + fuel)
         {| Plan.queue := [0]; Plan.list_ := []; Plan.queue2 := [] |} = Some st
    /\ (PlanSpec.unfiltered {| include := None; exclude := Some [2] |} ->
        Plan.testArgs lists = [])
    /\ (~ PlanSpec.unfiltered {| include := None; exclude := Some [2] |} ->
        Plan.testArgs lists = map (id_of Examples.tree1) (Plan.list_ st))
    /\ (Plan.testArgs lists = [] <->
        PlanSpec.unfiltered {| include := None; exclude := Some [2] |}
        \/ Plan.list_ st = []).
Proof.
  exact (createTestLists_testArgs Examples.tree1 Examples.controller1
           {| include := None; exclude := Some [2] |} Examples.rank6 tree1_ranked).
Defined.

(** C8, as the specification states it, does not hold: when the one test
    that is included is also excluded, the request is filtered and yet
    the arguments are empty. *)
Lemma createTestLists_testArgs_spec_fails :
  ~ (forall (s : Store) (controller : TestController) (request : TestRunRequest)
            (fuel : nat) (lists : Plan.TestLists),
        Plan.createTestLists s controller request fuel = Some lists ->
        (Plan.testArgs lists = [] <-> PlanSpec.unfiltered request)).
Proof.
  intros H.
  specialize (H Examples.tree1 Examples.controller1
                {| include := Some [2]; exclude := Some [2] |} 1 _ eq_refl).
  destruct H as [H _]. specialize (H eq_refl).
  destruct H as [[H|H] _]; discriminate.
Qed.

(** ** The plan: which items are in it *)

Lemma includesExcluded_true (s : Store) (request : TestRunRequest) (t : handle) :
  Plan.includesExcluded s request t = true <->
  exists e, In e (PlanSpec.excludeList request)
            /\ JS.startsWith (id_of s e) (id_of s t) = true.
Proof.
  unfold Plan.includesExcluded, PlanSpec.excludeList.
  destruct (exclude request) as [ex|].
  - apply existsb_exists.
  - split; [discriminate|intros (e & [] & _)].
Qed.

Lemma verdict_excluded (s : Store) (request : TestRunRequest) (t : handle) :
  Plan.verdict s request t = Plan.Excluded <-> Plan.excluded request t = true.
Proof.
  unfold Plan.verdict. destruct (Plan.excluded request t); [tauto|].
  destruct (isTestCase s t && negb (Plan.includesExcluded s request t));
    [|destruct (children_of s t)]; split; discriminate.
Qed.

Lemma verdict_leaf (s : Store) (request : TestRunRequest) (t : handle) :
  Plan.verdict s request t = Plan.Leaf <->
  Plan.excluded request t = false
  /\ isTestCase s t && negb (Plan.includesExcluded s request t) = false
  /\ children_of s t = [].
Proof.
  unfold Plan.verdict. destruct (Plan.excluded request t).
  - split; [discriminate|intros [? _]; discriminate].
  - destruct (isTestCase s t && negb (Plan.includesExcluded s request t)).
    + split; [discriminate|intros (_ & ? & _); discriminate].
    + destruct (children_of s t); split; try discriminate; try tauto.
      intros (_ & _ & ?). discriminate.
Qed.

Lemma verdict_expanded (s : Store) (request : TestRunRequest) (t : handle) :
  Plan.verdict s request t = Plan.Expanded <->
  Plan.excluded request t = false
  /\ isTestCase s t && negb (Plan.includesExcluded s request t) = false
  /\ children_of s t <> [].
Proof.
  unfold Plan.verdict. destruct (Plan.excluded request t).
  - split; [discriminate|intros [? _]; discriminate].
  - destruct (isTestCase s t && negb (Plan.includesExcluded s request t)).
    + split; [discriminate|intros (_ & ? & _); discriminate].
    + destruct (children_of s t); split; try discriminate; try tauto.
      intros _. repeat split; discriminate.
Qed.

Section Members.
Variable s : Store.
Variable request : TestRunRequest.

(** Whatever the traversal puts on the list is not excluded, and was
    judged a whole case or a leaf. *)
Lemma visitL_verdict (d : nat) :
  forall t x, In x (PlanSpec.visitL s request d t) ->
    Plan.verdict s request x = Plan.WholeCase
    \/ Plan.verdict s request x = Plan.Leaf.
Proof.
  induction d as [|d IH]; intros t x; [intros []|].
  rewrite visitL_S. destruct (Plan.verdict s request t) eqn:Hv.
  - intros [].
  - intros [<-|[]]. now left.
  - rewrite in_flat_map. intros (c & _ & Hc). eauto.
  - intros [<-|[]]. now right.
Qed.

Lemma visitL_not_excluded (d : nat) (t x : handle) :
  In x (PlanSpec.visitL s request d t) -> Plan.excluded request x = false.
Proof.
  intros H. apply visitL_verdict in H as [H|H].
  - now apply verdict_whole_case in H.
  - now apply verdict_leaf in H.
Qed.

(** Whatever the traversal puts on the second queue is a child of an
    item that was accepted as a whole case. *)
Lemma visitQ_parent (d : nat) :
  forall t x, In x (PlanSpec.visitQ s request d t) ->
    exists p, Plan.verdict s request p = Plan.WholeCase
              /\ In x (children_of s p).
Proof.
  induction d as [|d IH]; intros t x; [intros []|].
  rewrite visitQ_S. destruct (Plan.verdict s request t) eqn:Hv.
  - intros [].
  - intros H. eauto.
  - rewrite in_flat_map. intros (c & _ & Hc). eauto.
  - intros [].
Qed.

(** An item of the list is the item visited or the child of an item
    that is not excluded. *)
Lemma visitL_origin (d : nat) :
  forall t x, In x (PlanSpec.visitL s request d t) ->
    x = t \/ exists p, Plan.excluded request p = false /\ In x (children_of s p).
Proof.
  induction d as [|d IH]; intros t x; [intros []|].
  rewrite visitL_S. destruct (Plan.verdict s request t) eqn:Hv.
  - intros [].
  - intros [<-|[]]. now left.
  - rewrite in_flat_map. intros (c & Hc & Hx). rewrite <- in_rev in Hc.
    apply verdict_expanded in Hv as (He & _).
    destruct (IH c x Hx) as [->|H]; [right; eauto|now right].
  - intros [<-|[]]. now left.
Qed.
End Members.

(** ** The plan: excluding one more test *)

Section Exclusion.
Variable s : Store.
Variable request request' : TestRunRequest.
Variable m : handle.
Variable rank : handle -> nat.
Hypothesis Hrank : PlanSpec.ranked s rank.
Hypothesis Hparents : PlanSpec.parentsAgree s.
Hypothesis Hleaves : PlanSpec.methodsAreLeaves s.
Hypothesis Halso : PlanSpec.excludesAlso request request' m.
Hypothesis Hm_leaf : children_of s m = [].
Hypothesis Hm_case : isTestCase s m = false.

Lemma excluded_also (x : handle) :
  Plan.excluded request' x = true <-> x = m \/ Plan.excluded request x = true.
Proof. rewrite !excluded_In. apply Halso. Qed.

Lemma excluded_also_false (x : handle) :
  Plan.excluded request' x = false <-> x <> m /\ Plan.excluded request x = false.
Proof.
  rewrite !excluded_false. destruct Halso as [_ H]. specialize (H x). tauto.
Qed.

Lemma includesExcluded_also (t : handle) :
  Plan.includesExcluded s request' t = true <->
  JS.startsWith (id_of s m) (id_of s t) = true
  \/ Plan.includesExcluded s request t = true.
Proof.
  rewrite !includesExcluded_true. destruct Halso as [_ H]. split.
  - intros (e & He & Hs). apply H in He as [->|He]; [now left|right; eauto].
  - intros [Hs|(e & He & Hs)].
    + exists m. split; [apply H; now left|assumption].
    + exists e. split; [apply H; now right|assumption].
Qed.

(** A child of a test case is not a test case. *)
Lemma child_of_case_not_case (t c : handle) :
  isTestCase s t = true -> In c (children_of s t) -> isTestCase s c = false.
Proof.
  intros Ht Hc. unfold isTestCase in *. rewrite (Hparents t c Hc).
  destruct (parent_of s t); [reflexivity|discriminate].
Qed.

Lemma not_whole_also (t : handle) :
  isTestCase s t && negb (Plan.includesExcluded s request t) = false ->
  isTestCase s t && negb (Plan.includesExcluded s request' t) = false.
Proof.
  destruct (isTestCase s t); [|reflexivity]. simpl.
  destruct (Plan.includesExcluded s request t) eqn:E; [|discriminate].
  intros _. now rewrite (proj2 (includesExcluded_also t) (or_intror E)).
Qed.

(** Every item that is planned under [request], other than [m] and the
    test cases with children whose id is a prefix of the id of [m], is
    planned under [request']. *)
Lemma planned_also (d : nat) :
  forall t x, rank t < d -> x <> m ->
    ~ (isTestCase s x = true /\ JS.startsWith (id_of s m) (id_of s x) = true
       /\ children_of s x <> []) ->
    PlanSpec.planned s request d t x -> PlanSpec.planned s request' d t x.
Proof.
  induction d as [|d IH]; intros t x Ht Hxm Hx; [lia|].
  unfold PlanSpec.planned. rewrite !visitL_S, !visitQ_S.
  destruct (Plan.verdict s request t) eqn:Hv.
  - intros [[]|[[] _]].
  - apply verdict_whole_case in Hv as (Hex & Hcase & Hinc).
    assert (t <> m) as Htm by (intros ->; congruence).
    assert (Plan.excluded request' t = false) as Hex'
      by (apply excluded_also_false; tauto).
    destruct (Plan.includesExcluded s request' t) eqn:Hinc'.
    + apply includesExcluded_also in Hinc' as [Hpre|Hinc']; [|congruence].
      destruct (children_of s t) as [|c0 cs] eqn:Hch.
      { (* a case without children is pushed as a leaf *)
        assert (Plan.verdict s request' t = Plan.Leaf) as ->.
        { apply verdict_leaf. rewrite Hex', Hcase. simpl.
          rewrite (proj2 (includesExcluded_also t) (or_introl Hpre)).
          repeat split; try reflexivity. exact Hch. }
        intros [H|[[] _]]. now left. }
      intros [[<-|[]]|[Hc Hxe]];
        [exfalso; apply Hx; rewrite Hch; repeat split; try assumption; discriminate|].
      rewrite <- Hch in Hc.
      assert (Plan.verdict s request' t = Plan.Expanded) as ->.
      { apply verdict_expanded. rewrite Hex', Hcase. simpl.
        rewrite (proj2 (includesExcluded_also t) (or_introl Hpre)).
        repeat split; try reflexivity. rewrite Hch. discriminate. }
      rewrite <- Hch.
      left. apply in_flat_map. exists x.
      split; [rewrite <- in_rev; assumption|].
      pose proof (Hrank t x Hc) as Hr.
      destruct d as [|d]; [lia|]. rewrite visitL_S.
      assert (Plan.verdict s request' x = Plan.Leaf) as ->.
      { apply verdict_leaf. split; [apply excluded_also_false; tauto|].
        split; [|apply (Hleaves t x Hcase Hc)].
        now rewrite (child_of_case_not_case t x Hcase Hc). }
      now left.
    + assert (Plan.verdict s request' t = Plan.WholeCase) as ->
        by (apply verdict_whole_case; tauto).
      intros [H|[Hc Hxe]]; [now left|].
      right. split; [assumption|apply excluded_also_false; tauto].
  - apply verdict_expanded in Hv as (Hex & Hwc & Hch).
    assert (t <> m) as Htm by (intros ->; congruence).
    assert (Plan.verdict s request' t = Plan.Expanded) as ->.
    { apply verdict_expanded. split; [apply excluded_also_false; tauto|].
      split; [now apply not_whole_also|assumption]. }
    intros H.
    assert (exists c, In c (children_of s t) /\ PlanSpec.planned s request d c x)
      as (c & Hc & Hp).
    { destruct H as [H|[H He]]; apply in_flat_map in H as (c & Hc & H);
        rewrite <- in_rev in Hc; exists c; (split; [assumption|]);
        [now left|right; now split]. }
    pose proof (Hrank t c Hc) as Hr.
    assert (rank c < d) as Hcd by lia.
    destruct (IH c x Hcd Hxm Hx Hp) as [H'|[H' He']].
    + left. apply in_flat_map. exists c. split; [rewrite <- in_rev|]; assumption.
    + right. split; [|assumption].
      apply in_flat_map. exists c. split; [rewrite <- in_rev|]; assumption.
  - apply verdict_leaf in Hv as (Hex & Hwc & Hch).
    intros [[<-|[]]|[[] _]].
    assert (Plan.verdict s request' t = Plan.Leaf) as ->.
    { apply verdict_leaf. split; [apply excluded_also_false; tauto|].
      split; [now apply not_whole_also|assumption]. }
    left. now left.
Qed.

(** A test case with children whose id is a prefix of the id of [m] is
    not planned under [request']: it is expanded into its tests. *)
Lemma case_around_not_planned (d : nat) (t x : handle) :
  isTestCase s x = true ->
  JS.startsWith (id_of s m) (id_of s x) = true ->
  children_of s x <> [] ->
  ~ PlanSpec.planned s request' d t x.
Proof.
  intros Hcase Hpre Hch [H|[H _]].
  - apply visitL_verdict in H as [H|H].
    + apply verdict_whole_case in H as (_ & _ & H).
      rewrite (proj2 (includesExcluded_also x) (or_introl Hpre)) in H. discriminate.
    + apply verdict_leaf in H as (_ & _ & H). contradiction.
  - apply visitQ_parent in H as (p & Hp & Hx).
    apply verdict_whole_case in Hp as (_ & Hp & _).
    rewrite (child_of_case_not_case p x Hp Hx) in Hcase. discriminate.
Qed.
End Exclusion.

Lemma testItems_planned (s : Store) (request : TestRunRequest) (d : nat)
    (init : list handle) (x : handle) :
  In x (flat_map (PlanSpec.visitL s request d) (rev init)
        ++ List.filter (fun t => negb (Plan.excluded request t))
             (rev (flat_map (PlanSpec.visitQ s request d) (rev init))))
  <-> exists t, In t init /\ PlanSpec.planned s request d t x.
Proof.
  rewrite in_app_iff, filter_In, <- in_rev, !in_flat_map, negb_true_iff.
  unfold PlanSpec.planned. split.
  - intros [(t & Ht & H)|[(t & Ht & H) He]]; rewrite <- in_rev in Ht; eauto.
  - intros (t & Ht & [H|[H He]]); rewrite in_rev in Ht; eauto.
Qed.

Lemma planned_not_excluded (s : Store) (request : TestRunRequest) (d : nat)
    (t x : handle) :
  PlanSpec.planned s request d t x -> Plan.excluded request x = false.
Proof.
  intros [H|[_ H]]; [now apply visitL_not_excluded in H|assumption].
Qed.

Lemma planned_origin (s : Store) (request : TestRunRequest) (d : nat)
    (t x : handle) :
  PlanSpec.planned s request d t x ->
  x = t \/ exists p, Plan.excluded request p = false /\ In x (children_of s p).
Proof.
  intros [H|[H _]]; [now apply visitL_origin in H|].
  apply visitQ_parent in H as (p & Hp & Hx).
  apply verdict_whole_case in Hp as (Hp & _). right. eauto.
Qed.

Lemma initialQueue_also (controller : TestController)
    (request request' : TestRunRequest) (m : handle) :
  PlanSpec.excludesAlso request request' m ->
  Plan.initialQueue controller request' = Plan.initialQueue controller request.
Proof. intros [H _]. unfold Plan.initialQueue. now rewrite H. Qed.

(** C7, as amended.  On a tree of finite depth whose test cases have
    tests (leaves) as children, createTestLists returns, and
    - no excluded item is in the list of test items, nor is any child of
      an excluded item unless the request starts from that child itself
      (it is in [include], or a root);
    - excluding one more test [m] removes [m], and removes every test
      case with children whose id is a prefix of the id of [m] (the case
      of [m] is expanded into its tests rather than kept whole); every
      other item that was in the list is still in it, a test case
      without children whose id is such a prefix included. *)
Theorem createTestLists_exclusion (s : Store) (controller : TestController)
    (request : TestRunRequest) (rank : handle -> nat) :
  PlanSpec.ranked s rank -> PlanSpec.parentsAgree s -> PlanSpec.methodsAreLeaves s ->
  exists k, forall fuel, exists lists,
    Plan.createTestLists s controller request (k + fuel) = Some lists
    /\ (forall c, In c (PlanSpec.excludeList request) ->
                  ~ In c (Plan.testItems lists))
    /\ (forall c x, In c (PlanSpec.excludeList request) ->
                    In x (children_of s c) ->
                    ~ In x (Plan.initialQueue controller request) ->
                    ~ In x (Plan.testItems lists))
    /\ (forall request' m,
          PlanSpec.excludesAlso request request' m ->
          children_of s m = [] -> isTestCase s m = false ->
          exists k', forall fuel', exists lists',
            Plan.createTestLists s controller request' (k' + fuel') = Some lists'
            /\ ~ In m (Plan.testItems lists')
            /\ (forall x, In x (Plan.testItems lists) -> x <> m ->
                  ~ (isTestCase s x = true
                     /\ JS.startsWith (id_of s m) (id_of s x) = true
                     /\ children_of s x <> []) ->
                  In x (Plan.testItems lists'))
            /\ (forall x, isTestCase s x = true ->
                  JS.startsWith (id_of s m) (id_of s x) = true ->
                  children_of s x <> [] ->
                  ~ In x (Plan.testItems lists'))).
Proof.
  intros Hrank Hparents Hleaves.
  destruct (createTestLists_returns s controller request rank Hrank) as [k Hk].
  exists k. intros fuel. eexists. split; [apply Hk|].
  cbn [Plan.testItems].
  unfold PlanSpec.listAfterLoop1, PlanSpec.queue2AfterLoop1. cbv zeta.
  split; [|split].
  - intros c Hc Hin. apply testItems_planned in Hin as (t & _ & Hp).
    apply planned_not_excluded in Hp. apply excluded_In in Hc. congruence.
  - intros c x Hc Hx Hinit Hin.
    apply testItems_planned in Hin as (t & Ht & Hp).
    apply planned_origin in Hp as [->|(p & Hp & Hxp)]; [contradiction|].
    pose proof (Hparents c x Hx) as E1. pose proof (Hparents p x Hxp) as E2.
    assert (p = c) as -> by congruence.
    apply excluded_In in Hc. congruence.
  - intros request' m Halso Hm_leaf Hm_case.
    destruct (createTestLists_returns s controller request' rank Hrank) as [k' Hk'].
    exists k'. intros fuel'. eexists. split; [apply Hk'|].
    cbn [Plan.testItems].
    unfold PlanSpec.listAfterLoop1, PlanSpec.queue2AfterLoop1. cbv zeta.
    rewrite (initialQueue_also controller request request' m Halso).
    split; [|split].
    + intros Hin. apply testItems_planned in Hin as (t & _ & Hp).
      apply planned_not_excluded in Hp.
      assert (Plan.excluded request' m = true) as E
        by (apply (excluded_also request request' m Halso); now left).
      congruence.
    + intros x Hin Hxm Hx. apply testItems_planned in Hin as (t & Ht & Hp).
      apply testItems_planned. exists t. split; [assumption|].
      apply (planned_also s request request' m rank Hrank Hparents Hleaves
               Halso Hm_leaf Hm_case); try assumption.
      now apply depthBound_lt.
    + intros x Hcase Hpre Hch Hin.
      apply testItems_planned in Hin as (t & _ & Hp).
      revert Hp.
      now apply (case_around_not_planned s request request' m Hparents Halso).
Qed.

Lemma tree1_parentsAgree : PlanSpec.parentsAgree Examples.tree1.
Proof.
  intros t c H. unfold children_of in H. unfold parent_of.
  destruct t as [|[|[|[|t]]]]; simpl in H;
    repeat (destruct H as [<-|H]; [reflexivity|]); destruct H.
Qed.

Lemma tree1_methodsAreLeaves : PlanSpec.methodsAreLeaves Examples.tree1.
Proof.
  intros t c Ht H. unfold children_of in *. unfold isTestCase, parent_of in Ht.
  destruct t as [|[|[|[|t]]]]; simpl in H, Ht; try discriminate;
    repeat (destruct H as [<-|H]; [reflexivity|]); destruct H.
Qed.

Lemma excludesAlso_example :
  PlanSpec.excludesAlso {| include := None; exclude := None |}
    {| include := None; exclude := Some [2] |} 2.
Proof.
  split; [reflexivity|]. intros x. simpl. split.
  - intros [<-|[]]. now left.
  - intros [->|[]]. now left.
Qed.

Lemma createTestLists_exclusion_witness :
  exists k, forall fuel, exists lists,
    Plan.createTestLists Examples.tree1 Examples.controller1
      {| include := None; exclude := None |} (k + fuel) = Some lists
    /\ exists k', forall fuel', exists lists',
         Plan.createTestLists Examples.tree1 Examples.controller1
           {| include := None; exclude := Some [2] |} (k' + fuel') = Some lists'
         /\ ~ In 2 (Plan.testItems lists')
         /\ (In 3 (Plan.testItems lists) -> In 3 (Plan.testItems lists'))
         /\ ~ In 1 (Plan.testItems lists').
Proof.
  destruct (createTestLists_exclusion Examples.tree1 Examples.controller1
              {| include := None; exclude := None |} Examples.rank6
              tree1_ranked tree1_parentsAgree tree1_methodsAreLeaves) as [k Hk].
  exists k. intros fuel. destruct (Hk fuel) as (lists & Hl & _ & _ & Hm).
  exists lists. split; [exact Hl|].
  destruct (Hm {| include := None; exclude := Some [2] |} 2
              excludesAlso_example eq_refl eq_refl) as [k' Hk'].
  exists k'. intros fuel'. destruct (Hk' fuel') as (lists' & Hl' & H1 & H2 & H3).
  exists lists'. split; [exact Hl'|]. split; [exact H1|]. split.
  - intros H. apply (H2 3 H); [discriminate|]. intros [E _]. discriminate.
  - apply H3; [reflexivity|reflexivity|discriminate].
Defined.

(** C7, as the specification states it, does not hold.  Excluding the
    test [testBar] removes not only that test from the list of test items
    but also its case [FooTests], which was in the list before; and with
    the case [FooTests] excluded, its test [testBar] is still in the list
    when the request includes that test itself. *)
Lemma createTestLists_exclusion_spec_fails :
  ~ (forall (s : Store) (controller : TestController)
            (request request' : TestRunRequest) (m : handle) (fuel : nat)
            (lists lists' : Plan.TestLists),
        PlanSpec.excludesAlso request request' m ->
        children_of s m = [] -> isTestCase s m = false ->
        Plan.createTestLists s controller request fuel = Some lists ->
        Plan.createTestLists s controller request' fuel = Some lists' ->
        forall x, In x (Plan.testItems lists) -> x <> m ->
                  In x (Plan.testItems lists'))
  /\ ~ (forall (s : Store) (controller : TestController)
               (request : TestRunRequest) (c m : handle) (fuel : nat)
               (lists : Plan.TestLists),
           In c (PlanSpec.excludeList request) -> isTestCase s c = true ->
           In m (children_of s c) ->
           Plan.createTestLists s controller request fuel = Some lists ->
           ~ In m (Plan.testItems lists)).
Proof.
  split.
  - intros H.
    specialize (H Examples.tree1 Examples.controller1
                  {| include := None; exclude := None |}
                  {| include := None; exclude := Some [2] |} 2 5 _ _
                  excludesAlso_example eq_refl eq_refl eq_refl eq_refl 1).
    simpl in H.
    destruct H as [H|[]]; [now left|discriminate|discriminate].
  - intros H.
    apply (H Examples.tree1 Examples.controller1
             {| include := Some [2]; exclude := Some [1] |} 1 2 5 _
             (or_introl eq_refl) eq_refl (or_introl eq_refl) eq_refl).
    now left.
Qed.

(** ** The matcher *)

Lemma length_snoc {A} (pre : list A) (c : A) : length (pre ++ [c]) = S (length pre).
Proof. rewrite length_app. simpl. lia. Qed.

Lemma run_Chr (c : ascii) (r : Regex.Pattern) (st : option nat)
    (caps : list (nat * nat)) (pre s : list ascii) (res : list (nat * nat)) :
  Regex.run (Regex.Chr c :: r) st caps (length pre) s = Some res ->
  exists s', s = c :: s'
             /\ Regex.run r st caps (length (pre ++ [c])) s' = Some res.
Proof.
  simpl. destruct s as [|c' s']; [discriminate|].
  destruct (Ascii.eqb c c') eqn:E; [|discriminate].
  apply Ascii.eqb_eq in E as <-. intros H. exists s'. split; [reflexivity|].
  now rewrite length_snoc.
Qed.

Lemma run_Cls (p : ascii -> bool) (r : Regex.Pattern) (st : option nat)
    (caps : list (nat * nat)) (pre s : list ascii) (res : list (nat * nat)) :
  Regex.run (Regex.Cls p :: r) st caps (length pre) s = Some res ->
  exists c s', s = c :: s' /\ p c = true
               /\ Regex.run r st caps (length (pre ++ [c])) s' = Some res.
Proof.
  simpl. destruct s as [|c s']; [discriminate|].
  destruct (p c) eqn:E; [|discriminate].
  intros H. exists c, s'. split; [reflexivity|]. split; [assumption|].
  now rewrite length_snoc.
Qed.

(** A greedy repetition that fails: the continuation fails after every
    run of the class. *)
Lemma greedy_none {R} (p : ascii -> bool) (k : nat -> list ascii -> option R)
    (s : list ascii) :
  forall pre : list ascii,
    Regex.greedy p k (length pre) s = None ->
    forall a' s'', s = a' ++ s'' -> forallb p a' = true ->
                   k (length (pre ++ a')) s'' = None.
Proof.
  induction s as [|c s IH]; intros pre H a' s'' E Ha'.
  - destruct a'; [|discriminate]. simpl in E. subst s''.
    rewrite app_nil_r. exact H.
  - simpl in H. destruct a' as [|c' a'].
    + simpl in E. subst s''. rewrite app_nil_r.
      destruct (p c); [|exact H].
      destruct (Regex.greedy p k (S (length pre)) s); [discriminate|exact H].
    + simpl in E. injection E as <- E. simpl in Ha'.
      apply andb_prop in Ha' as [Hc Ha']. rewrite Hc in H.
      destruct (Regex.greedy p k (S (length pre)) s) eqn:Hg; [discriminate|].
      rewrite <- length_snoc with (c := c) in Hg.
      specialize (IH _ Hg a' s'' E Ha'). now rewrite <- app_assoc in IH.
Qed.

(** A greedy repetition that succeeds has taken a run [a] of the class
    after which the continuation succeeds, and the continuation fails
    after every longer run of the class. *)
Lemma greedy_inv {R} (p : ascii -> bool) (k : nat -> list ascii -> option R)
    (s : list ascii) :
  forall (pre : list ascii) (res : R),
    Regex.greedy p k (length pre) s = Some res ->
    exists a s', s = a ++ s' /\ forallb p a = true
      /\ k (length (pre ++ a)) s' = Some res
      /\ forall a' s'', s = a' ++ s'' -> forallb p a' = true ->
           length a < length a' -> k (length (pre ++ a')) s'' = None.
Proof.
  induction s as [|c s IH]; intros pre res; simpl.
  - intros H. exists [], []. rewrite ?app_nil_r.
    split; [reflexivity|]. split; [reflexivity|]. split; [assumption|].
    intros a' s'' E _ Hlen. destruct a'; [simpl in Hlen; lia|discriminate].
  - destruct (p c) eqn:Hc.
    + destruct (Regex.greedy p k (S (length pre)) s) as [res'|] eqn:Hg.
      * intros [= <-]. rewrite <- length_snoc with (c := c) in Hg.
        destruct (IH _ _ Hg) as (a & s' & -> & Ha & Hk & Hmax).
        exists (c :: a), s'. simpl. rewrite Hc, Ha.
        split; [reflexivity|]. split; [reflexivity|]. split.
        -- now rewrite <- app_assoc in Hk.
        -- intros a' s'' E Ha' Hlen.
           destruct a' as [|c' a']; [simpl in Hlen; lia|].
           simpl in E. injection E as <- E. simpl in Ha'.
           apply andb_prop in Ha' as [_ Ha']. simpl in Hlen.
           assert (length a < length a') as Hlen' by lia.
           specialize (Hmax a' s'' E Ha' Hlen').
           now rewrite <- app_assoc in Hmax.
      * intros H. exists [], (c :: s). rewrite ?app_nil_r.
        split; [reflexivity|]. split; [reflexivity|]. split; [assumption|].
        intros a' s'' E Ha' Hlen.
        destruct a' as [|c' a']; [simpl in Hlen; lia|].
        simpl in E. injection E as <- E. simpl in Ha'.
        apply andb_prop in Ha' as [_ Ha'].
        rewrite <- length_snoc with (c := c) in Hg.
        pose proof (greedy_none p k s _ Hg a' s'' E Ha') as Hn.
        now rewrite <- app_assoc in Hn.
    + intros H. exists [], (c :: s). rewrite ?app_nil_r.
      split; [reflexivity|]. split; [reflexivity|]. split; [assumption|].
      intros a' s'' E Ha' Hlen.
      destruct a' as [|c' a']; [simpl in Hlen; lia|].
      simpl in E. injection E as <- E. simpl in Ha'. rewrite Hc in Ha'. discriminate.
Qed.

Lemma run_Star (p : ascii -> bool) (r : Regex.Pattern) (st : option nat)
    (caps : list (nat * nat)) (pre s : list ascii) (res : list (nat * nat)) :
  Regex.run (Regex.Star p :: r) st caps (length pre) s = Some res ->
  exists a s', s = a ++ s' /\ forallb p a = true
    /\ Regex.run r st caps (length (pre ++ a)) s' = Some res
    /\ forall a' s'', s = a' ++ s'' -> forallb p a' = true ->
         length a < length a' ->
         Regex.run r st caps (length (pre ++ a')) s'' = None.
Proof. simpl. apply greedy_inv. Qed.

Lemma run_Open (r : Regex.Pattern) (st : option nat) (caps : list (nat * nat))
    (pos : nat) (s : list ascii) :
  Regex.run (Regex.Open :: r) st caps pos s = Regex.run r (Some pos) caps pos s.
Proof. reflexivity. Qed.

Lemma run_Close (r : Regex.Pattern) (b : nat) (caps : list (nat * nat))
    (pos : nat) (s : list ascii) :
  Regex.run (Regex.Close :: r) (Some b) caps pos s
  = Regex.run r None ((b, pos) :: caps) pos s.
Proof. reflexivity. Qed.

(** ** Strings and their lists of characters *)

Lemma list_of_string_app (s1 s2 : string) :
  list_ascii_of_string (s1 ++ s2)
  = list_ascii_of_string s1 ++ list_ascii_of_string s2.
Proof. induction s1 as [|c s1 IH]; simpl; [reflexivity|now rewrite IH]. Qed.

Lemma string_of_list_app (l1 l2 : list ascii) :
  string_of_list_ascii (l1 ++ l2)
  = (string_of_list_ascii l1 ++ string_of_list_ascii l2)%string.
Proof. induction l1 as [|c l1 IH]; simpl; [reflexivity|now rewrite IH]. Qed.

Lemma string_eq_of_lists (s1 s2 : string) :
  list_ascii_of_string s1 = list_ascii_of_string s2 -> s1 = s2.
Proof.
  intros H. rewrite <- (string_of_list_ascii_of_string s1),
    <- (string_of_list_ascii_of_string s2). now rewrite H.
Qed.

Lemma substring_prefix (y z : list ascii) :
  String.substring 0 (length y) (string_of_list_ascii (y ++ z))
  = string_of_list_ascii y.
Proof.
  induction y as [|c y IH]; simpl.
  - now destruct (string_of_list_ascii z).
  - now rewrite IH.
Qed.

(** The text of a group: the piece of the line between its offsets. *)
Lemma substring_piece (x y z : list ascii) (ln : string) (b e : nat) :
  list_ascii_of_string ln = x ++ y ++ z ->
  b = length x -> e - b = length y ->
  String.substring b (e - b) ln = string_of_list_ascii y.
Proof.
  intros H -> ->. rewrite <- (string_of_list_ascii_of_string ln), H. clear H.
  induction x as [|c x IH]; simpl; [apply substring_prefix|exact IH].
Qed.

Lemma greedy_some {R} (p : ascii -> bool) (k : nat -> list ascii -> option R)
    (s : list ascii) :
  (forall pos s', exists res, k pos s' = Some res) ->
  forall pos, exists res, Regex.greedy p k pos s = Some res.
Proof.
  intros Hk. induction s as [|c s IH]; intros pos; simpl; [apply Hk|].
  destruct (p c); [|apply Hk].
  destruct (IH (S pos)) as [res ->]. eauto.
Qed.

Lemma leadingDigits_all (l : list ascii) :
  forallb JS.isDigit l = true -> JS.leadingDigits l = l.
Proof.
  induction l as [|c l IH]; simpl; [reflexivity|].
  intros H. apply andb_prop in H as [-> H]. now rewrite IH.
Qed.

(** ** The pattern of a failure in grammar B *)

(** What a match of the failed pattern of grammar B says of the line: it
    is a file, a colon, a number, a colon, a white space, [error:], white
    space, a class, a dot, a method, the separator [ : ] and a message,
    followed by nothing or by a line terminator; the groups are the file,
    the number, the class, the method and the message; the number is a
    run of digits and the message holds no separator, so that it is the
    text after the last separator of the line. *)
Lemma nonDarwinFailed_groups (ln : string) (m : Regex.Match) :
  Regex.exec Patterns.nonDarwinFailed ln = Some m ->
  exists file number sp ws cls method msg rest : string,
    m = [file; number; cls; method; msg]
    /\ ln = (file ++ ":" ++ number ++ ":" ++ sp ++ "error:" ++ ws ++ cls
             ++ "." ++ method ++ " : " ++ msg ++ rest)%string
    /\ number <> EmptyString
    /\ forallb JS.isDigit (list_ascii_of_string number) = true
    /\ (forall x y : string, msg <> (x ++ " : " ++ y)%string)
    /\ (rest = EmptyString
        \/ exists c rest', rest = String c rest' /\ JS.isLineTerminator c = true).
Proof.
  unfold Regex.exec.
  remember (list_ascii_of_string ln) as inp eqn:Hinp.
  destruct (Regex.run Patterns.nonDarwinFailed None [] 0 inp) as [res|] eqn:Hrun;
    [|discriminate].
  intros [= <-].
  change 0 with (length (@nil ascii)) in Hrun.
  cbv [Patterns.nonDarwinFailed Regex.lit Regex.group Regex.plus app map
       list_ascii_of_string] in Hrun.
  rewrite run_Open in Hrun.
  apply run_Cls in Hrun as (c1 & s1 & -> & Hc1 & Hrun).
  apply run_Star in Hrun as (a1 & s2 & -> & Ha1 & Hrun & _).
  rewrite run_Close in Hrun.
  apply run_Chr in Hrun as (s3 & -> & Hrun).
  rewrite run_Open in Hrun.
  apply run_Cls in Hrun as (d & s4 & -> & Hd & Hrun).
  apply run_Star in Hrun as (a2 & s5 & -> & Ha2 & Hrun & _).
  rewrite run_Close in Hrun.
  apply run_Chr in Hrun as (s6 & -> & Hrun).
  apply run_Cls in Hrun as (sp & s7 & -> & Hsp & Hrun).
  do 6 (apply run_Chr in Hrun as (? & -> & Hrun)).
  apply run_Star in Hrun as (ws & s8 & -> & Hws & Hrun & _).
  rewrite run_Open in Hrun.
  apply run_Star in Hrun as (a3 & s9 & -> & Ha3 & Hrun & _).
  rewrite run_Close in Hrun.
  apply run_Chr in Hrun as (s10 & -> & Hrun).
  rewrite run_Open in Hrun.
  apply run_Star in Hrun as (a4 & s11 & -> & Ha4 & Hrun & Hmax4).
  rewrite run_Close in Hrun.
  do 3 (apply run_Chr in Hrun as (? & -> & Hrun)).
  rewrite run_Open in Hrun.
  apply run_Star in Hrun as (a5 & rest & -> & Ha5 & Hrun & Hmax5).
  rewrite run_Close in Hrun.
  cbn [Regex.run] in Hrun. injection Hrun as <-.
  symmetry in Hinp.
  exists (string_of_list_ascii (c1 :: a1)), (string_of_list_ascii (d :: a2)),
    (string_of_list_ascii [sp]), (string_of_list_ascii ws),
    (string_of_list_ascii a3), (string_of_list_ascii a4),
    (string_of_list_ascii a5), (string_of_list_ascii rest).
  split; [|split; [|split; [|split; [|split]]]].
  - cbn [rev app map fst snd].
    repeat f_equal.
    + apply (substring_piece [] (c1 :: a1)
               (list_ascii_of_string ":" ++ d :: a2 ++ list_ascii_of_string ":"
                ++ sp :: list_ascii_of_string "error:" ++ ws ++ a3
                ++ list_ascii_of_string "." ++ a4 ++ list_ascii_of_string " : "
                ++ a5 ++ rest)).
      * rewrite Hinp. simpl. repeat (rewrite <- app_assoc; simpl). reflexivity.
      * reflexivity.
      * repeat first [rewrite length_app | progress cbn [length list_ascii_of_string]]. lia.
    + apply (substring_piece (c1 :: a1 ++ list_ascii_of_string ":") (d :: a2)
               (list_ascii_of_string ":"
                ++ sp :: list_ascii_of_string "error:" ++ ws ++ a3
                ++ list_ascii_of_string "." ++ a4 ++ list_ascii_of_string " : "
                ++ a5 ++ rest)).
      * rewrite Hinp. simpl. repeat (rewrite <- app_assoc; simpl). reflexivity.
      * repeat first [rewrite length_app | progress cbn [length list_ascii_of_string]]. lia.
      * repeat first [rewrite length_app | progress cbn [length list_ascii_of_string]]. lia.
    + apply (substring_piece
               (c1 :: a1 ++ list_ascii_of_string ":" ++ d :: a2
                ++ list_ascii_of_string ":" ++ sp :: list_ascii_of_string "error:"
                ++ ws)
               a3
               (list_ascii_of_string "." ++ a4 ++ list_ascii_of_string " : "
                ++ a5 ++ rest)).
      * rewrite Hinp. simpl. repeat (rewrite <- app_assoc; simpl). reflexivity.
      * repeat first [rewrite length_app | progress cbn [length list_ascii_of_string]]. lia.
      * repeat first [rewrite length_app | progress cbn [length list_ascii_of_string]]. lia.
    + apply (substring_piece
               (c1 :: a1 ++ list_ascii_of_string ":" ++ d :: a2
                ++ list_ascii_of_string ":" ++ sp :: list_ascii_of_string "error:"
                ++ ws ++ a3 ++ list_ascii_of_string ".")
               a4
               (list_ascii_of_string " : " ++ a5 ++ rest)).
      * rewrite Hinp. simpl. repeat (rewrite <- app_assoc; simpl). reflexivity.
      * repeat first [rewrite length_app | progress cbn [length list_ascii_of_string]]. lia.
      * repeat first [rewrite length_app | progress cbn [length list_ascii_of_string]]. lia.
    + apply (substring_piece
               (c1 :: a1 ++ list_ascii_of_string ":" ++ d :: a2
                ++ list_ascii_of_string ":" ++ sp :: list_ascii_of_string "error:"
                ++ ws ++ a3 ++ list_ascii_of_string "." ++ a4
                ++ list_ascii_of_string " : ")
               a5 rest).
      * rewrite Hinp. simpl. repeat (rewrite <- app_assoc; simpl). reflexivity.
      * repeat first [rewrite length_app | progress cbn [length list_ascii_of_string]]. lia.
      * repeat first [rewrite length_app | progress cbn [length list_ascii_of_string]]. lia.
  - apply string_eq_of_lists. rewrite Hinp.
    rewrite !list_of_string_app, !list_ascii_of_string_of_list_ascii.
    simpl. repeat (rewrite <- app_assoc; simpl). reflexivity.
  - discriminate.
  - rewrite list_ascii_of_string_of_list_ascii. simpl.
    unfold Regex.digit in Hd, Ha2. now rewrite Hd, Ha2.
  - intros x y E.
    apply (f_equal list_ascii_of_string) in E.
    rewrite !list_of_string_app, list_ascii_of_string_of_list_ascii in E.
    cbn [list_ascii_of_string app] in E.
    remember (list_ascii_of_string x) as lx eqn:Hlx.
    remember (list_ascii_of_string y) as ly eqn:Hly.
    subst a5. rewrite forallb_app in Ha5. apply andb_prop in Ha5 as [Hx _].
    assert (forallb Regex.dot (a4 ++ " "%char :: ":"%char :: " "%char :: lx) = true)
      as Hdot by (rewrite forallb_app, Ha4; simpl; exact Hx).
    assert (length a4 < length (a4 ++ " "%char :: ":"%char :: " "%char :: lx))
      as Hlen by (rewrite length_app; simpl; lia).
    match type of Hmax4 with
    | forall a' s'', ?L = _ -> _ =>
        assert (L = (a4 ++ " "%char :: ":"%char :: " "%char :: lx)
                    ++ " "%char :: ":"%char :: " "%char :: ly ++ rest) as Heq
          by (repeat (rewrite <- app_assoc; cbn [app]); reflexivity)
    end.
    specialize (Hmax4 _ _ Heq Hdot Hlen).
    cbn [Regex.run] in Hmax4. rewrite !Ascii.eqb_refl in Hmax4.
    match type of Hmax4 with
    | Regex.greedy ?p ?k ?pos ?s = None =>
        destruct (greedy_some p k s (fun pos' s' => ex_intro _ _ eq_refl) pos)
          as [r Hr]
    end.
    rewrite Hr in Hmax4. discriminate.
  - destruct rest as [|c rest']; [now left|right].
    exists c, (string_of_list_ascii rest'). split; [reflexivity|].
    destruct (JS.isLineTerminator c) eqn:Hlt; [reflexivity|exfalso].
    assert (forallb Regex.dot (a5 ++ [c]) = true) as Hdot
      by (rewrite forallb_app, Ha5; simpl; unfold Regex.dot; now rewrite Hlt).
    assert (length a5 < length (a5 ++ [c])) as Hlen
      by (rewrite length_app; simpl; lia).
    assert (a5 ++ c :: rest' = (a5 ++ [c]) ++ rest') as Heq
      by now rewrite <- app_assoc.
    specialize (Hmax5 _ _ Heq Hdot Hlen).
    discriminate.
Qed.

(** ** The parsers: one line *)

Lemma findIndex_lookup {A} (f : A -> bool) (l : list A) (i : nat) (x : A) :
  Arr.findIndex f l = Some (i, x) -> l !! i = Some x /\ f x = true.
Proof.
  revert i. induction l as [|y l IH]; intros i; simpl; [discriminate|].
  destruct (f y) eqn:E.
  - intros [= <- <-]. now split.
  - destruct (Arr.findIndex f l) as [[j z]|]; [|discriminate].
    intros [= <- <-]. now apply IH.
Qed.

Lemma findIndex_none {A} (f : A -> bool) (l : list A) :
  Arr.findIndex f l = None <-> forall x, In x l -> f x = false.
Proof.
  induction l as [|y l IH]; simpl.
  - split; [intros _ x []|reflexivity].
  - destruct (f y) eqn:E.
    + split; [discriminate|]. intros H. specialize (H y (or_introl eq_refl)). congruence.
    + destruct (Arr.findIndex f l) as [[j z]|].
      * split; [discriminate|]. intros H.
        assert (Some (j, z) = None) as H'; [|discriminate].
        apply IH. intros x Hx. apply H. now right.
      * split; [|reflexivity]. intros _ x [<-|Hx]; [assumption|].
        now apply (proj1 IH).
Qed.



Section Lines.
Variable env : Env.

Lemma darwinLine_started (r : Runner) (ln : string) (m : Regex.Match) :
  Regex.exec Patterns.darwinStarted ln = Some m ->
  Arr.findIndex (Parser.idIs env (Parser.slash (Regex.grp m 1) (Regex.grp m 2)))
    (testItems r) = None ->
  Parser.darwinLine env r ln = r.
Proof. intros Hm Hf. unfold Parser.darwinLine. now rewrite Hm, Hf. Qed.

Lemma darwinLine_passed (r : Runner) (ln : string) (m : Regex.Match) :
  Regex.exec Patterns.darwinStarted ln = None ->
  Regex.exec Patterns.darwinPassed ln = Some m ->
  SinkSpec.cleared r (Parser.darwinLine env r ln)
    (Arr.findIndex (Parser.idIs env (Parser.slash (Regex.grp m 1) (Regex.grp m 2)))
       (testItems r)).
Proof.
  intros H1 H2. unfold Parser.darwinLine. rewrite H1, H2.
  split; [reflexivity|]. now intros ->.
Qed.

Lemma darwinLine_failed (r : Runner) (ln : string) (m : Regex.Match) :
  Regex.exec Patterns.darwinStarted ln = None ->
  Regex.exec Patterns.darwinPassed ln = None ->
  Regex.exec Patterns.darwinFailed ln = Some m ->
  SinkSpec.cleared r (Parser.darwinLine env r ln)
    (Arr.findIndex (Parser.idIs env (Parser.slash (Regex.grp m 3) (Regex.grp m 4)))
       (testItems r)).
Proof.
  intros H1 H2 H3. unfold Parser.darwinLine. rewrite H1, H2, H3.
  split; [reflexivity|]. now intros ->.
Qed.

Lemma darwinLine_skipped (r : Runner) (ln : string) (m : Regex.Match) :
  Regex.exec Patterns.darwinStarted ln = None ->
  Regex.exec Patterns.darwinPassed ln = None ->
  Regex.exec Patterns.darwinFailed ln = None ->
  Regex.exec Patterns.darwinSkipped ln = Some m ->
  SinkSpec.cleared r (Parser.darwinLine env r ln)
    (Arr.findIndex (Parser.idIs env (Parser.slash (Regex.grp m 3) (Regex.grp m 4)))
       (testItems r)).
Proof.
  intros H1 H2 H3 H4. unfold Parser.darwinLine. rewrite H1, H2, H3, H4.
  split; [reflexivity|]. now intros ->.
Qed.

Lemma nonDarwinLine1_started (r : Runner) (ln : string) (m : Regex.Match) :
  Regex.exec Patterns.nonDarwinStarted ln = Some m ->
  Arr.findIndex
    (Parser.idEndsWith env (Parser.slash (Regex.grp m 1) (Regex.grp m 2)))
    (testItems r) = None ->
  Parser.nonDarwinLine1 env r ln = r.
Proof. intros Hm Hf. unfold Parser.nonDarwinLine1. now rewrite Hm, Hf. Qed.

Lemma nonDarwinLine1_failed (r : Runner) (ln : string) (m : Regex.Match) :
  Regex.exec Patterns.nonDarwinStarted ln = None ->
  Regex.exec Patterns.nonDarwinFailed ln = Some m ->
  SinkSpec.cleared r (Parser.nonDarwinLine1 env r ln)
    (Parser.findByFileThenName env
       (Parser.slash (Regex.grp m 3) (Regex.grp m 4)) (Regex.grp m 1) (testItems r)).
Proof.
  intros H1 H2. unfold Parser.nonDarwinLine1. rewrite H1, H2.
  split; [reflexivity|]. now intros ->.
Qed.

Lemma nonDarwinLine1_skipped (r : Runner) (ln : string) (m : Regex.Match) :
  Regex.exec Patterns.nonDarwinStarted ln = None ->
  Regex.exec Patterns.nonDarwinFailed ln = None ->
  Regex.exec Patterns.nonDarwinSkipped ln = Some m ->
  SinkSpec.cleared r (Parser.nonDarwinLine1 env r ln)
    (Parser.findByFileThenName env
       (Parser.slash (Regex.grp m 3) (Regex.grp m 4)) (Regex.grp m 1) (testItems r)).
Proof.
  intros H1 H2 H3. unfold Parser.nonDarwinLine1. rewrite H1, H2, H3.
  split; [reflexivity|]. now intros ->.
Qed.

Lemma nonDarwinLine2_passed (r : Runner) (ln : string) (m : Regex.Match) :
  Regex.exec Patterns.nonDarwinPassed ln = Some m ->
  SinkSpec.cleared r (Parser.nonDarwinLine2 env r ln)
    (Arr.findIndex
       (Parser.idEndsWith env (Parser.slash (Regex.grp m 1) (Regex.grp m 2)))
       (testItems r)).
Proof.
  intros H1. unfold Parser.nonDarwinLine2. rewrite H1.
  split; [reflexivity|]. now intros ->.
Qed.

(** A line on which no name is found in the list by either search: the
    search by name fails, and so does the search by file and name. *)
Lemma findByFileThenName_none (testName filename : string) (l : list handle) :
  Arr.findIndex (Parser.idEndsWith env testName) l = None ->
  Parser.findByFileThenName env testName filename l = None.
Proof.
  intros H. unfold Parser.findByFileThenName. rewrite H.
  assert (Arr.findIndex (Parser.isTestWithFilenameInTarget env testName filename) l
          = None) as ->; [|reflexivity].
  apply findIndex_none. intros x Hx.
  rewrite findIndex_none in H. specialize (H x Hx).
  unfold Parser.isTestWithFilenameInTarget. now rewrite H.
Qed.
End Lines.

(** C10.  In both grammars a line that is handled as a terminal outcome
    (passed, failed or skipped: the pattern matches and no pattern tried
    before it does) clears the current item, and when the test it names
    is not found in the list nothing else changes: no event is emitted
    and no item is removed.  A started line whose test is not found
    leaves the whole state, the current item included, as it was. *)
Theorem terminal_line_clears_current (env : Env) (r : Runner) (ln : string) :
  (* Grammar A: passed, failed, skipped, started *)
  (forall m,
      Regex.exec Patterns.darwinStarted ln = None ->
      Regex.exec Patterns.darwinPassed ln = Some m ->
      SinkSpec.cleared r (Parser.darwinLine env r ln)
        (Arr.findIndex (Parser.idIs env (Parser.slash (Regex.grp m 1) (Regex.grp m 2)))
           (testItems r)))
  /\ (forall m,
      Regex.exec Patterns.darwinStarted ln = None ->
      Regex.exec Patterns.darwinPassed ln = None ->
      Regex.exec Patterns.darwinFailed ln = Some m ->
      SinkSpec.cleared r (Parser.darwinLine env r ln)
        (Arr.findIndex (Parser.idIs env (Parser.slash (Regex.grp m 3) (Regex.grp m 4)))
           (testItems r)))
  /\ (forall m,
      Regex.exec Patterns.darwinStarted ln = None ->
      Regex.exec Patterns.darwinPassed ln = None ->
      Regex.exec Patterns.darwinFailed ln = None ->
      Regex.exec Patterns.darwinSkipped ln = Some m ->
      SinkSpec.cleared r (Parser.darwinLine env r ln)
        (Arr.findIndex (Parser.idIs env (Parser.slash (Regex.grp m 3) (Regex.grp m 4)))
           (testItems r)))
  /\ (forall m,
      Regex.exec Patterns.darwinStarted ln = Some m ->
      Arr.findIndex (Parser.idIs env (Parser.slash (Regex.grp m 1) (Regex.grp m 2)))
        (testItems r) = None ->
      Parser.darwinLine env r ln = r)
  (* Grammar B: failed and skipped in the first loop, passed in the
     second, started *)
  /\ (forall m,
      Regex.exec Patterns.nonDarwinStarted ln = None ->
      Regex.exec Patterns.nonDarwinFailed ln = Some m ->
      SinkSpec.cleared r (Parser.nonDarwinLine1 env r ln)
        (Parser.findByFileThenName env
           (Parser.slash (Regex.grp m 3) (Regex.grp m 4)) (Regex.grp m 1)
           (testItems r)))
  /\ (forall m,
      Regex.exec Patterns.nonDarwinStarted ln = None ->
      Regex.exec Patterns.nonDarwinFailed ln = None ->
      Regex.exec Patterns.nonDarwinSkipped ln = Some m ->
      SinkSpec.cleared r (Parser.nonDarwinLine1 env r ln)
        (Parser.findByFileThenName env
           (Parser.slash (Regex.grp m 3) (Regex.grp m 4)) (Regex.grp m 1)
           (testItems r)))
  /\ (forall m,
      Regex.exec Patterns.nonDarwinPassed ln = Some m ->
      SinkSpec.cleared r (Parser.nonDarwinLine2 env r ln)
        (Arr.findIndex
           (Parser.idEndsWith env (Parser.slash (Regex.grp m 1) (Regex.grp m 2)))
           (testItems r)))
  /\ (forall m,
      Regex.exec Patterns.nonDarwinStarted ln = Some m ->
      Arr.findIndex
        (Parser.idEndsWith env (Parser.slash (Regex.grp m 1) (Regex.grp m 2)))
        (testItems r) = None ->
      Parser.nonDarwinLine1 env r ln = r).
Proof.
  repeat apply conj; intros m.
  - apply darwinLine_passed.
  - apply darwinLine_failed.
  - apply darwinLine_skipped.
  - apply darwinLine_started.
  - apply nonDarwinLine1_failed.
  - apply nonDarwinLine1_skipped.
  - apply nonDarwinLine2_passed.
  - apply nonDarwinLine1_started.
Qed.

Lemma terminal_line_clears_current_witness :
  Parser.darwinLine Examples.env1Darwin (Examples.runner [1; 3; 2] (Some 3))
    "Test Case '-[MyTests.Other testX]' passed (0.1 seconds)."
  = Examples.runner [1; 3; 2] None
  /\ Parser.nonDarwinLine1 Examples.env1 (Examples.runner [1; 3; 2] (Some 3))
       "/repo/Tests/Other.swift:7: error: Other.testX : expected true"
     = Examples.runner [1; 3; 2] None
  /\ Parser.nonDarwinLine1 Examples.env1 (Examples.runner [1; 3; 2] (Some 3))
       "Test Case 'Other.testX' started at 2022-01-01 10:00:00.000"
     = Examples.runner [1; 3; 2] (Some 3).
Proof.
  split; [|split].
  - destruct (terminal_line_clears_current Examples.env1Darwin
                (Examples.runner [1; 3; 2] (Some 3))
                "Test Case '-[MyTests.Other testX]' passed (0.1 seconds).")
      as (H & _).
    destruct (H ["MyTests.Other"; "testX"; "0.1"] eq_refl eq_refl) as [_ H'].
    exact (H' eq_refl).
  - destruct (terminal_line_clears_current Examples.env1
                (Examples.runner [1; 3; 2] (Some 3))
                "/repo/Tests/Other.swift:7: error: Other.testX : expected true")
      as (_ & _ & _ & _ & H & _).
    destruct (H ["/repo/Tests/Other.swift"; "7"; "Other"; "testX";
                 "expected true"] eq_refl eq_refl) as [_ H'].
    exact (H' eq_refl).
  - destruct (terminal_line_clears_current Examples.env1
                (Examples.runner [1; 3; 2] (Some 3))
                "Test Case 'Other.testX' started at 2022-01-01 10:00:00.000")
      as (_ & _ & _ & _ & _ & _ & _ & H).
    exact (H ["Other"; "testX"] eq_refl eq_refl).
Defined.

(** ** The parsers: a line whose test is found *)

Section Found.
Variable env : Env.

Lemma nonDarwinLine1_failed_found (r : Runner) (ln : string) (m : Regex.Match)
    (i : nat) (item : handle) :
  Regex.exec Patterns.nonDarwinStarted ln = None ->
  Regex.exec Patterns.nonDarwinFailed ln = Some m ->
  Parser.findByFileThenName env
    (Parser.slash (Regex.grp m 3) (Regex.grp m 4)) (Regex.grp m 1) (testItems r)
  = Some (i, item) ->
  Parser.nonDarwinLine1 env r ln
  = setCurrent None
      (spliceItem i
         (emit (failed item
                  {| message := Regex.grp m 5;
                     location :=
                       Some {| uri := Regex.grp m 1;
                               position :=
                                 {| line := JS.parseInt (Regex.grp m 2);
                                    character := 0 |} |} |}) r)).
Proof.
  intros H1 H2 H3. unfold Parser.nonDarwinLine1. now rewrite H1, H2, H3.
Qed.

Lemma nonDarwinLine2_passed_found (r : Runner) (ln : string) (m : Regex.Match)
    (i : nat) (item : handle) :
  Regex.exec Patterns.nonDarwinPassed ln = Some m ->
  Arr.findIndex
    (Parser.idEndsWith env (Parser.slash (Regex.grp m 1) (Regex.grp m 2)))
    (testItems r) = Some (i, item) ->
  Parser.nonDarwinLine2 env r ln
  = setCurrent None
      (spliceItem i (emit (passed item (JS.toNumber (Regex.grp m 3))) r)).
Proof.
  intros H1 H2. unfold Parser.nonDarwinLine2. now rewrite H1, H2.
Qed.

End Found.

(** C9.  In grammar B a line that is handled as a failure (the failed
    pattern matches, the started pattern does not) reads
    [file:N: error: class.method : message], and when its test is found in
    the list the failed event of that test has the message as it stands
    after the last separator [ : ] of the line, and the location of the
    file at row N, the number printed on the line as it is (not N - 1),
    and column 0; the test is removed from the list and the current item
    is cleared. *)
Theorem nonDarwin_failed_location (env : Env) (r : Runner) (ln : string)
    (m : Regex.Match) (i : nat) (item : handle) :
  Regex.exec Patterns.nonDarwinStarted ln = None ->
  Regex.exec Patterns.nonDarwinFailed ln = Some m ->
  Parser.findByFileThenName env
    (Parser.slash (Regex.grp m 3) (Regex.grp m 4)) (Regex.grp m 1) (testItems r)
  = Some (i, item) ->
  exists file number sp ws cls method msg rest : string,
    ln = (file ++ ":" ++ number ++ ":" ++ sp ++ "error:" ++ ws ++ cls
          ++ "." ++ method ++ " : " ++ msg ++ rest)%string
    /\ m = [file; number; cls; method; msg]
    /\ number <> EmptyString
    /\ forallb JS.isDigit (list_ascii_of_string number) = true
    /\ JS.parseInt number = JS.digitsValue (list_ascii_of_string number)
    /\ (forall x y : string, msg <> (x ++ " : " ++ y)%string)
    /\ (rest = EmptyString
        \/ exists c rest', rest = String c rest' /\ JS.isLineTerminator c = true)
    /\ let r' := Parser.nonDarwinLine1 env r ln in
       testRun r'
       = testRun r
         ++ [failed item
               {| message := msg;
                  location :=
                    Some {| uri := file;
                            position := {| line := JS.parseInt number;
                                           character := 0 |} |} |}]
       /\ testItems r' = Arr.splice1 i (testItems r)
       /\ currentTestItem r' = None.
Proof.
  intros H1 H2 H3.
  destruct (nonDarwinFailed_groups ln m H2)
    as (file & number & sp & ws & cls & method & msg & rest
        & Hm & Hln & Hne & Hdigits & Hmsg & Hrest).
  exists file, number, sp, ws, cls, method, msg, rest.
  split; [exact Hln|]. split; [exact Hm|]. split; [exact Hne|].
  split; [exact Hdigits|].
  split; [unfold JS.parseInt; now rewrite leadingDigits_all|].
  split; [exact Hmsg|]. split; [exact Hrest|].
  intros r'. subst r'.
  rewrite (nonDarwinLine1_failed_found env r ln m i item H1 H2 H3).
  subst m. repeat split.
Qed.

Lemma nonDarwin_failed_location_witness :
  exists file number sp ws cls method msg rest : string,
    "/repo/Tests/FooTests.swift:10: error: FooTests.testBar : expected true"
    = (file ++ ":" ++ number ++ ":" ++ sp ++ "error:" ++ ws ++ cls
       ++ "." ++ method ++ " : " ++ msg ++ rest)%string
    /\ ["/repo/Tests/FooTests.swift"; "10"; "FooTests"; "testBar"; "expected true"]
       = [file; number; cls; method; msg]
    /\ number <> EmptyString
    /\ forallb JS.isDigit (list_ascii_of_string number) = true
    /\ JS.parseInt number = JS.digitsValue (list_ascii_of_string number)
    /\ (forall x y : string, msg <> (x ++ " : " ++ y)%string)
    /\ (rest = EmptyString
        \/ exists c rest', rest = String c rest' /\ JS.isLineTerminator c = true)
    /\ let r' :=
         Parser.nonDarwinLine1 Examples.env1 (Examples.runner [1; 3; 2] (Some 2))
           "/repo/Tests/FooTests.swift:10: error: FooTests.testBar : expected true" in
       testRun r'
       = [failed 2
            {| message := msg;
               location :=
                 Some {| uri := file;
                         position := {| line := JS.parseInt number;
                                        character := 0 |} |} |}]
       /\ testItems r' = [1; 3]
       /\ currentTestItem r' = None.
Proof.
  exact (nonDarwin_failed_location Examples.env1 (Examples.runner [1; 3; 2] (Some 2))
           "/repo/Tests/FooTests.swift:10: error: FooTests.testBar : expected true"
           ["/repo/Tests/FooTests.swift"; "10"; "FooTests"; "testBar";
            "expected true"]
           2 2 eq_refl eq_refl eq_refl).
Defined.

(** The example of the specification: line 10 of the output gives row
    10, and the test is found through the sources of its target. *)
Example nonDarwin_failed_example :
  Parser.parseResultNonDarwin Examples.env1 (Examples.runner [2] None)
    "/repo/Tests/FooTests.swift:10: error: FooTests.testBar : expected true"
  = {| testItems := []; testArgs := []; currentTestItem := None;
       testRun :=
         [failed 2
            {| message := "expected true";
               location :=
                 Some {| uri := "/repo/Tests/FooTests.swift";
                         position := {| line := 10; character := 0 |} |} |}] |}
  /\ Parser.isTestWithFilenameInTarget Examples.env1 "FooTests/testBar"
       "/repo/Tests/FooTests.swift" 2 = true.
Proof. split; vm_compute; reflexivity. Qed.




(** The line of the counterexample marks [TargetB/SubFoo/bar] failed. *)
Example nonDarwin_failed_wrong_class :
  Plan.createTestLists MoreExamples.tree3 MoreExamples.controller3
    {| include := None; exclude := None |} 6
  = Some {| Plan.testItems := [6; 4; 1; 2; 5; 7]; Plan.testArgs := [] |}
  /\ Parser.parseResultNonDarwin MoreExamples.env3
       (Examples.runner [6; 4; 1; 2; 5; 7] None)
       "/repo/Tests/TargetB/Foo.swift:10: error: Foo.bar : expected true"
     = {| testItems := [6; 4; 1; 2; 7]; testArgs := []; currentTestItem := None;
          testRun :=
            [failed 5
               {| message := "expected true";
                  location :=
                    Some {| uri := "/repo/Tests/TargetB/Foo.swift";
                            position := {| line := 10; character := 0 |} |} |}] |}.
Proof. split; vm_compute; reflexivity. Qed.

(** The lists of the witnesses are the lists that createTestLists gives
    for the whole of the example trees. *)
Example createTestLists_examples :
  Plan.createTestLists Examples.tree1 Examples.controller1
    {| include := None; exclude := None |} 3
  = Some {| Plan.testItems := [1; 3; 2]; Plan.testArgs := [] |}
  /\ Plan.createTestLists Examples.tree2 Examples.controller2
       {| include := None; exclude := None |} 4
     = Some {| Plan.testItems := [4; 1; 2; 5]; Plan.testArgs := [] |}.
Proof. split; reflexivity. Qed.

(** ** The parsers: what a chunk does to the list and to the log *)

Lemma advances_refl (P : Event -> Prop) (r : Runner) : SinkSpec.advances P r r.
Proof.
  exists []. rewrite app_nil_r. repeat split; [constructor|reflexivity].
Qed.

Lemma advances_trans (P : Event -> Prop) (r1 r2 r3 : Runner) :
  SinkSpec.advances P r1 r2 -> SinkSpec.advances P r2 r3 ->
  SinkSpec.advances P r1 r3.
Proof.
  intros (n1 & E1 & F1 & P1) (n2 & E2 & F2 & P2).
  exists (n1 ++ n2). split; [|split].
  - now rewrite E2, E1, app_assoc.
  - apply Forall_app. now split.
  - unfold SinkSpec.terminalItems in *. rewrite flat_map_app, <- app_assoc.
    rewrite <- P1. apply Permutation_app_head. exact P2.
Qed.

Lemma advances_weaken (P Q : Event -> Prop) (r r' : Runner) :
  (forall e, P e -> Q e) -> SinkSpec.advances P r r' -> SinkSpec.advances Q r r'.
Proof.
  intros H (n & E & F & HP). exists n. repeat split; try assumption.
  eapply Forall_impl; eassumption.
Qed.

Lemma advances_setCurrent (P : Event -> Prop) (c : option handle) (r r' : Runner) :
  SinkSpec.advances P r r' -> SinkSpec.advances P r (setCurrent c r').
Proof. intros H. exact H. Qed.

(** A terminal outcome for the item found at index [i], followed by its
    removal from the list. *)
Lemma advances_outcome (P : Event -> Prop) (f : handle -> bool) (r : Runner)
    (i : nat) (item : handle) (e : Event) :
  Arr.findIndex f (testItems r) = Some (i, item) ->
  SinkSpec.terminalItem e = [item] -> P e ->
  SinkSpec.advances P r (spliceItem i (emit e r)).
Proof.
  intros Hf He HP. apply findIndex_lookup in Hf as [Hl _].
  exists [e]. split; [reflexivity|]. split; [now constructor|].
  simpl. rewrite He, app_nil_r. simpl. symmetry.
  now apply delete_Permutation.
Qed.

Lemma advances_started (P : Event -> Prop) (r : Runner) (item : handle) :
  P (started item) -> SinkSpec.advances P r (emit (started item) r).
Proof.
  intros HP. exists [started item]. split; [reflexivity|].
  split; [now constructor|reflexivity].
Qed.

Lemma advances_fold (P : Event -> Prop) (step : Runner -> string -> Runner) :
  (forall r ln, SinkSpec.advances P r (step r ln)) ->
  forall lines r, SinkSpec.advances P r (fold_left step lines r).
Proof.
  intros Hstep lines. induction lines as [|ln lines IH]; intros r; simpl.
  - apply advances_refl.
  - eapply advances_trans; [apply Hstep|apply IH].
Qed.

Section Chunks.
Variable env : Env.

Lemma darwinLine_advances (r : Runner) (ln : string) :
  SinkSpec.advances SinkSpec.isResult r (Parser.darwinLine env r ln).
Proof.
  unfold Parser.darwinLine.
  destruct (Regex.exec Patterns.darwinStarted ln) as [m|].
  { destruct (Arr.findIndex _ (testItems r)) as [[i item]|];
      [|apply advances_refl].
    apply advances_setCurrent, advances_started. exact I. }
  destruct (Regex.exec Patterns.darwinPassed ln) as [m|].
  { apply advances_setCurrent.
    destruct (Arr.findIndex _ (testItems r)) as [[i item]|] eqn:Hf;
      [|apply advances_refl].
    eapply advances_outcome; [exact Hf|reflexivity|exact I]. }
  destruct (Regex.exec Patterns.darwinFailed ln) as [m|].
  { apply advances_setCurrent.
    destruct (Arr.findIndex _ (testItems r)) as [[i item]|] eqn:Hf;
      [|apply advances_refl].
    eapply advances_outcome; [exact Hf|reflexivity|exact I]. }
  destruct (Regex.exec Patterns.darwinSkipped ln) as [m|]; [|apply advances_refl].
  apply advances_setCurrent.
  destruct (Arr.findIndex _ (testItems r)) as [[i item]|] eqn:Hf;
    [|apply advances_refl].
  eapply advances_outcome; [exact Hf|reflexivity|exact I].
Qed.

Lemma findByFileThenName_findIndex (testName filename : string)
    (l : list handle) (i : nat) (item : handle) :
  Parser.findByFileThenName env testName filename l = Some (i, item) ->
  exists f, Arr.findIndex f l = Some (i, item).
Proof.
  unfold Parser.findByFileThenName.
  destruct (Arr.findIndex (Parser.isTestWithFilenameInTarget env testName filename) l)
    as [found|] eqn:E.
  - intros [= ->]. eauto.
  - eauto.
Qed.

(** The first loop of grammar B emits no passed event. *)
Lemma nonDarwinLine1_advances (r : Runner) (ln : string) :
  SinkSpec.advances (fun e => SinkSpec.isResult e /\ ~ SinkSpec.isPassed e)
    r (Parser.nonDarwinLine1 env r ln).
Proof.
  unfold Parser.nonDarwinLine1.
  destruct (Regex.exec Patterns.nonDarwinStarted ln) as [m|].
  { destruct (Arr.findIndex _ (testItems r)) as [[i item]|];
      [|apply advances_refl].
    apply advances_setCurrent, advances_started. simpl. tauto. }
  destruct (Regex.exec Patterns.nonDarwinFailed ln) as [m|].
  { apply advances_setCurrent.
    destruct (Parser.findByFileThenName _ _ _ (testItems r)) as [[i item]|] eqn:Hf;
      [|apply advances_refl].
    apply findByFileThenName_findIndex in Hf as [f Hf].
    eapply advances_outcome; [exact Hf|reflexivity|simpl; tauto]. }
  destruct (Regex.exec Patterns.nonDarwinSkipped ln) as [m|]; [|apply advances_refl].
  apply advances_setCurrent.
  destruct (Parser.findByFileThenName _ _ _ (testItems r)) as [[i item]|] eqn:Hf;
    [|apply advances_refl].
  apply findByFileThenName_findIndex in Hf as [f Hf].
  eapply advances_outcome; [exact Hf|reflexivity|simpl; tauto].
Qed.

(** The second loop of grammar B emits passed events only. *)
Lemma nonDarwinLine2_advances (r : Runner) (ln : string) :
  SinkSpec.advances SinkSpec.isPassed r (Parser.nonDarwinLine2 env r ln).
Proof.
  unfold Parser.nonDarwinLine2.
  destruct (Regex.exec Patterns.nonDarwinPassed ln) as [m|]; [|apply advances_refl].
  apply advances_setCurrent.
  destruct (Arr.findIndex _ (testItems r)) as [[i item]|] eqn:Hf;
    [|apply advances_refl].
  eapply advances_outcome; [exact Hf|reflexivity|exact I].
Qed.

Lemma parseResult_advances (r : Runner) (output : string) :
  SinkSpec.advances SinkSpec.isResult r (Parser.parseResult env r output).
Proof.
  unfold Parser.parseResult. destruct (platform env).
  - apply advances_fold. apply darwinLine_advances.
  - unfold Parser.parseResultNonDarwin.
    eapply advances_trans.
    + apply (advances_weaken (fun e => SinkSpec.isResult e /\ ~ SinkSpec.isPassed e));
        [tauto|].
      apply advances_fold. apply nonDarwinLine1_advances.
    + apply (advances_weaken SinkSpec.isPassed);
        [intros []; simpl; tauto|].
      apply advances_fold. apply nonDarwinLine2_advances.
Qed.
End Chunks.

Lemma failed_terminal (t : handle) (msg : TestMessage) (log : list Event) :
  In (failed t msg) log -> In t (SinkSpec.terminalItems log).
Proof.
  intros H. unfold SinkSpec.terminalItems. apply in_flat_map.
  exists (failed t msg). split; [assumption|now left].
Qed.







(** Nor does it hold of a test that is in the list twice, as it is when
    the request includes a test case and one of its tests: the failure
    line removes one entry, the passed line finds the other, and the
    test is given both outcomes, passed last. *)
Example nonDarwin_tracked_twice :
  Plan.createTestLists Examples.tree1 Examples.controller1
    {| include := Some [1; 2]; exclude := None |} 3
  = Some {| Plan.testItems := [2; 1; 3; 2];
            Plan.testArgs := ["MyTarget/FooTests/testBar"; "MyTarget/FooTests"] |}
  /\ testRun
       (Parser.parseResultNonDarwin Examples.env1 (Examples.runner [2; 1; 3; 2] None)
          (String.concat RunSpec.LF
             ["/repo/Tests/FooTests.swift:10: error: FooTests.testBar : expected true";
              "Test Case 'FooTests.testBar' passed (0.012 seconds)"]))
     = [failed 2
          {| message := "expected true";
             location :=
               Some {| uri := "/repo/Tests/FooTests.swift";
                       position := {| line := 10; character := 0 |} |} |};
        passed 2 (Some (12 # 1000)%Q)].
Proof. split; vm_compute; reflexivity. Qed.

(** The chunk of the witness above: the failure is recorded, the later
    passed line of the same name finds no test and records nothing. *)
Example nonDarwin_fail_then_pass :
  testRun
    (Parser.parseResultNonDarwin Examples.env1 (Examples.runner [1; 3; 2] None)
       (String.concat (String (ascii_of_nat 10) EmptyString)
          ["Test Case 'FooTests.testBar' started at 2022-01-01 10:00:00.000";
           "/repo/Tests/FooTests.swift:10: error: FooTests.testBar : expected true";
           "Test Case 'FooTests.testBar' passed (0.012 seconds)"]))
  = [started 2;
     failed 2
       {| message := "expected true";
          location :=
            Some {| uri := "/repo/Tests/FooTests.swift";
                    position := {| line := 10; character := 0 |} |} |}].
Proof. vm_compute. reflexivity. Qed.

(** C2: what the code does.  In grammar B a passed line whose test is
    found emits a passed event, removes the test and clears the current
    item, but the duration of the event is the number printed on the
    line, in seconds: it is not multiplied by 1000 as in grammar A.  For
    the line [passed (0.012 seconds)] the event carries 0.012, not 12. *)
Theorem nonDarwin_passed_duration_in_seconds :
  Parser.parseResultNonDarwin Examples.env1 (Examples.runner [1; 3; 2] (Some 2))
    "Test Case 'FooTests.testBar' passed (0.012 seconds)"
  = {| testItems := [1; 3]; testArgs := []; currentTestItem := None;
       testRun := [passed 2 (Some (12 # 1000)%Q)] |}
  /\ ~ (12 # 1000 == 12)%Q
  /\ Parser.parseResultDarwin Examples.env1Darwin (Examples.runner [1; 3; 2] (Some 2))
       "Test Case '-[MyTests.FooTests testBar]' passed (0.012 seconds)"
     = {| testItems := [1; 3]; testArgs := []; currentTestItem := None;
          testRun := [passed 2 (Some ((12 # 1000) * 1000)%Q)] |}
  /\ ((12 # 1000) * 1000 == 12)%Q.
Proof.
  split; [vm_compute; reflexivity|]. split; [intros H; discriminate H|].
  split; [vm_compute; reflexivity|]. reflexivity.
Qed.

(** ** The run handler *)

Lemma ends_app (a b : list Event) :
  SinkSpec.ends (a ++ b) = SinkSpec.ends a + SinkSpec.ends b.
Proof. unfold SinkSpec.ends. now rewrite List.filter_app, length_app. Qed.

Lemma quiet_refl (r : Runner) : SinkSpec.quiet r r.
Proof. exists []. now rewrite app_nil_r. Qed.

Lemma quiet_trans (r1 r2 r3 : Runner) :
  SinkSpec.quiet r1 r2 -> SinkSpec.quiet r2 r3 -> SinkSpec.quiet r1 r3.
Proof.
  intros (n1 & E1 & Z1) (n2 & E2 & Z2). exists (n1 ++ n2).
  split; [now rewrite E2, E1, app_assoc|]. rewrite ends_app. lia.
Qed.

Lemma quiet_emit (e : Event) (r : Runner) :
  e <> end_ -> SinkSpec.quiet r (emit e r).
Proof.
  intros He. exists [e]. split; [reflexivity|]. now destruct e.
Qed.

Lemma quiet_advances (r r' : Runner) :
  SinkSpec.advances SinkSpec.isResult r r' -> SinkSpec.quiet r r'.
Proof.
  intros (new & E & F & _). exists new. split; [assumption|].
  clear E. induction F as [|e new He F IH]; [reflexivity|].
  change (e :: new) with ([e] ++ new). rewrite ends_app, IH.
  now destruct e.
Qed.

Section Handler.
Variable env : Env.
Variable w : World.

Lemma setTestsEnqueued_quiet (r : Runner) :
  SinkSpec.quiet r (Run.setTestsEnqueued r).
Proof.
  unfold Run.setTestsEnqueued. generalize (testItems r) as l. intros l.
  revert r. induction l as [|t l IH]; intros r; simpl.
  - apply quiet_refl.
  - eapply quiet_trans; [|apply IH]. now apply quiet_emit.
Qed.

Lemma write_quiet (r : Runner) (text : string) :
  SinkSpec.quiet r (Run.write env r text).
Proof.
  unfold Run.write.
  eapply quiet_trans; [|apply quiet_advances, parseResult_advances].
  apply quiet_emit. discriminate.
Qed.

Lemma runSession_quiet (r : Runner) : SinkSpec.quiet r (fst (Run.runSession env w r)).
Proof.
  unfold Run.runSession.
  destruct (Launch.createLaunchConfigurationForTesting _ _ _ _ _) as [[c|]|e];
    simpl; try apply quiet_refl.
  destruct (cancelledAtStart w); simpl; [apply quiet_refl|].
  apply (quiet_trans _ (emit (appendOutput (Run.banner w)) r));
    [apply quiet_emit; discriminate|].
  generalize (emit (appendOutput (Run.banner w)) r) as r1.
  induction (chunks w) as [|ch cs IH]; intros r1; simpl.
  - apply quiet_refl.
  - eapply quiet_trans; [apply write_quiet|apply IH].
Qed.

Lemma debugSession_quiet (r : Runner) :
  SinkSpec.quiet r (fst (Run.debugSession env w r)).
Proof.
  unfold Run.debugSession.
  destruct (Launch.createLaunchConfigurationForTesting _ _ _ _ _) as [[c|]|e];
    simpl; try apply quiet_refl.
  destruct (debugStart w); simpl; try apply quiet_refl.
  destruct (cancelledAtTerminate w); simpl; [apply quiet_emit; discriminate|].
  destruct (debugOutput w); simpl; [|apply quiet_emit; discriminate].
  apply (quiet_trans _ (emit (appendOutput (Run.banner w)) r));
    [apply quiet_emit; discriminate|].
  eapply quiet_trans; [|apply quiet_advances, parseResult_advances].
  apply quiet_emit. discriminate.
Qed.

(** The [try] block either returns from the handler after one [end()],
    with nothing thrown, or goes on without having called [end()]. *)
Lemma tryBlock_ends (shouldDebug : bool) (r : Runner) :
  match Run.tryBlock env w shouldDebug r with
  | ((r1, thrown), true) => r1 = emit end_ r /\ thrown = None
  | ((r1, _), false) => SinkSpec.quiet r r1
  end.
Proof.
  unfold Run.tryBlock. destruct (build w) as [e|[[| |]|]]; simpl; auto using quiet_refl.
  destruct shouldDebug.
  - destruct (Run.debugSession env w (Run.setTestsEnqueued r)) as [r1 t] eqn:E.
    eapply quiet_trans; [apply setTestsEnqueued_quiet|].
    change r1 with (fst (r1, t)). rewrite <- E. apply debugSession_quiet.
  - destruct (Run.runSession env w (Run.setTestsEnqueued r)) as [r1 t] eqn:E.
    eapply quiet_trans; [apply setTestsEnqueued_quiet|].
    change r1 with (fst (r1, t)). rewrite <- E. apply runSession_quiet.
Qed.

(** The [catch] block returns from the handler after one [end()], or
    goes on without having called [end()], or throws before it has
    called anything. *)
Lemma catchBlock_ends (error : Thrown) (r : Runner) :
  match Run.catchBlock env error r with
  | (r', Run.Returns) => r' = emit end_ r /\ Run.commandFailed error = Some true
  | (r', Run.FallsThrough) =>
      SinkSpec.quiet r r' /\ Run.commandFailed error = Some false
  | (r', Run.Throws e) =>
      r' = r /\ e = Run.noStartsWith /\ Run.commandFailed error = None
  end.
Proof.
  unfold Run.catchBlock. destruct (Run.commandFailed error) as [[|]|]; auto.
  split; [|reflexivity].
  destruct (currentTestItem r).
  - eapply quiet_trans; [|apply quiet_emit; discriminate].
    apply quiet_emit. discriminate.
  - apply quiet_emit. discriminate.
Qed.

(** The handler throws exactly when a value whose test throws reaches
    the catch block. *)
Lemma runHandler_throws (shouldDebug : bool) (r : Runner) (e : Thrown) :
  snd (Run.runHandler env w shouldDebug r) = Some e <->
  e = Run.noStartsWith
  /\ exists r1 error,
       Run.tryBlock env w shouldDebug r = ((r1, Some error), false)
       /\ Run.commandFailed error = None.
Proof.
  unfold Run.runHandler.
  pose proof (tryBlock_ends shouldDebug r) as Ht.
  destruct (Run.tryBlock env w shouldDebug r) as [[r1 thrown] [|]].
  - destruct Ht as [_ ->]. split; [discriminate|].
    intros (_ & r1' & error & E & _). discriminate E.
  - destruct thrown as [error|].
    + pose proof (catchBlock_ends error r1) as Hc.
      destruct (Run.catchBlock env error r1) as [r2 [| |e']]; cbn [snd].
      * destruct Hc as [_ Hc]. split; [discriminate|].
        intros (_ & r1' & error' & [= _ <-] & Hf). congruence.
      * destruct Hc as [_ Hc]. split; [discriminate|].
        intros (_ & r1' & error' & [= _ <-] & Hf). congruence.
      * destruct Hc as (_ & -> & Hc). split.
        -- intros [= <-]. split; [reflexivity|]. eauto.
        -- now intros [-> _].
    + split; [discriminate|]. intros (_ & r1' & error & E & _). discriminate E.
Qed.

(** What the handler has called on the sink when it is done. *)
Lemma runHandler_log (shouldDebug : bool) (r : Runner) :
  match Run.runHandler env w shouldDebug r with
  | (r', None) =>
      exists new, testRun r' = testRun r ++ new ++ [end_] /\ SinkSpec.ends new = 0
  | (r', Some _) =>
      exists new, testRun r' = testRun r ++ new /\ SinkSpec.ends new = 0
  end.
Proof.
  assert (forall r0 r1 : Runner, SinkSpec.quiet r0 r1 ->
            exists new, testRun (emit end_ r1) = testRun r0 ++ new ++ [end_]
                        /\ SinkSpec.ends new = 0) as Hend.
  { intros r0 r1 (new & E & Z). exists new. simpl. rewrite E, <- app_assoc. now split. }
  unfold Run.runHandler.
  pose proof (tryBlock_ends shouldDebug r) as Ht.
  destruct (Run.tryBlock env w shouldDebug r) as [[r1 thrown] [|]].
  - destruct Ht as [-> _]. apply Hend, quiet_refl.
  - destruct thrown as [error|]; [|now apply Hend].
    pose proof (catchBlock_ends error r1) as Hc.
    destruct (Run.catchBlock env error r1) as [r2 [| |e']].
    + destruct Hc as [-> _]. now apply Hend.
    + destruct Hc as [Hc _]. apply Hend. eapply quiet_trans; eassumption.
    + destruct Hc as (-> & _ & _). exact Ht.
Qed.
End Handler.

(** C5: what the code does.  Whatever the build gives, whenever
    cancellation is seen and whatever the streamed run or the debug
    session throws, the handler that returns has called [end()] exactly
    once, as the last call it makes on the sink.  But the handler does
    not always return: when the value that reaches the catch block has
    an [error] field without a string as message, the test of the catch
    block throws, the handler throws with it, and [end()] has not been
    called.  In the run of the example the process call throws such a
    value after the test [testBar] has started: the test is left
    started, and the run is never ended. *)
Theorem runHandler_ends_once :
  (forall (env : Env) (w : World) (shouldDebug : bool) (r : Runner),
      match Run.runHandler env w shouldDebug r with
      | (r', None) =>
          exists new,
            testRun r' = testRun r ++ new ++ [end_]
            /\ SinkSpec.ends new = 0
            /\ SinkSpec.ends (testRun r') = SinkSpec.ends (testRun r) + 1
      | (r', Some e) =>
          (exists new,
             testRun r' = testRun r ++ new
             /\ SinkSpec.ends new = 0
             /\ SinkSpec.ends (testRun r') = SinkSpec.ends (testRun r))
          /\ e = Run.noStartsWith
          /\ exists r1 error,
               Run.tryBlock env w shouldDebug r = ((r1, Some error), false)
               /\ Run.commandFailed error = None
      end)
  /\ Run.runHandler Examples.env1 MoreExamples.world4 false (Examples.runner [2] None)
     = ({| testItems := [2]; testArgs := []; currentTestItem := Some 2;
           testRun :=
             [enqueued 2;
              appendOutput (Run.banner MoreExamples.world4);
              appendOutput
                "Test Case 'FooTests.testBar' started at 2022-01-01 10:00:00.000";
              started 2] |},
        Some Run.noStartsWith).
Proof.
  split; [|vm_compute; reflexivity].
  intros env w shouldDebug r.
  pose proof (runHandler_log env w shouldDebug r) as Hlog.
  pose proof (runHandler_throws env w shouldDebug r) as Hthrows.
  destruct (Run.runHandler env w shouldDebug r) as [r' [e|]].
  - destruct Hlog as (new & E & Z). split.
    + exists new. split; [exact E|]. split; [exact Z|].
      rewrite E, ends_app, Z. lia.
    + now apply Hthrows.
  - destruct Hlog as (new & E & Z). exists new. split; [exact E|]. split; [exact Z|].
    rewrite E, !ends_app, Z. change (SinkSpec.ends [end_]) with 1. lia.
Qed.

(** C6, as amended.  When the try block ends with a thrown value that
    the test of the catch block finds not to be a failed command, while
    a current item is set, the handler calls [errored] (not [failed]) on
    the current item with the description of the error as message and
    no location, appends a line break, the text [Error: ] and the
    description to the output of the sink, and then ends the run; the
    handler itself returns. *)
Theorem runHandler_reports_error (env : Env) (w : World) (shouldDebug : bool)
    (r r1 : Runner) (error : Thrown) (cur : handle) :
  Run.tryBlock env w shouldDebug r = ((r1, Some error), false) ->
  Run.commandFailed error = Some false ->
  currentTestItem r1 = Some cur ->
  exists r',
    Run.runHandler env w shouldDebug r = (r', None)
    /\ testRun r'
       = testRun r1
         ++ [errored cur {| message := getErrorDescription env error;
                            location := None |};
             appendOutput (JS.CRLF ++ "Error: " ++ getErrorDescription env error);
             end_].
Proof.
  intros Ht Hc Hcur. unfold Run.runHandler. rewrite Ht.
  unfold Run.catchBlock. rewrite Hc, Hcur. eexists. split; [reflexivity|].
  simpl. now rewrite <- !app_assoc.
Qed.

Lemma runHandler_reports_error_witness :
  exists r1 r',
    Run.tryBlock Examples.env1 Examples.world1 false (Examples.runner [2] None)
    = ((r1, Some (OtherError "spawn failed")), false)
    /\ Run.runHandler Examples.env1 Examples.world1 false (Examples.runner [2] None)
       = (r', None)
    /\ testRun r'
       = testRun r1
         ++ [errored 2 {| message := "spawn failed"; location := None |};
             appendOutput (JS.CRLF ++ "Error: " ++ "spawn failed");
             end_].
Proof.
  eexists.
  destruct (runHandler_reports_error Examples.env1 Examples.world1 false
              (Examples.runner [2] None) _ (OtherError "spawn failed") 2
              eq_refl eq_refl eq_refl) as (r' & E & Hlog).
  exists r'. split; [reflexivity|]. split; [exact E|exact Hlog].
Defined.

(** C6, as the specification states it, does not hold: with a current
    item set and a thrown value that is not a failed command, the log of
    the sink holds no [failed] call for the current item; the call is
    [errored]. *)
Lemma runHandler_reports_error_spec_fails :
  ~ (forall (env : Env) (w : World) (shouldDebug : bool) (r r1 : Runner)
            (error : Thrown) (cur : handle),
        Run.tryBlock env w shouldDebug r = ((r1, Some error), false) ->
        Run.commandFailed error = Some false ->
        currentTestItem r1 = Some cur ->
        exists msg,
          message msg = getErrorDescription env error
          /\ In (failed cur msg)
               (testRun (fst (Run.runHandler env w shouldDebug r)))).
Proof.
  intros H.
  destruct (H Examples.env1 Examples.world1 false (Examples.runner [2] None)
              _ (OtherError "spawn failed") 2 eq_refl eq_refl eq_refl)
    as (msg & _ & Hin).
  vm_compute in Hin.
  repeat (destruct Hin as [Hin|Hin]; [discriminate Hin|]).
  exact Hin.
Qed.

(** * Further properties *)

(** ** The plan: running one test, one class, or everything *)

Lemma unexcluded_verdict (s : Store) (request : TestRunRequest) (t : handle) :
  TreeSpec.excludesNothing request ->
  Plan.verdict s request t
  = if isTestCase s t then Plan.WholeCase
    else match children_of s t with
         | _ :: _ => Plan.Expanded
         | [] => Plan.Leaf
         end.
Proof.
  intros H. unfold TreeSpec.excludesNothing, PlanSpec.excludeList in H.
  unfold Plan.verdict, Plan.excluded, Plan.includesExcluded.
  destruct (exclude request) as [ex|]; [subst ex|]; simpl;
    now destruct (isTestCase s t).
Qed.

(** X1.  A request that includes one item without children (one test)
    and does not exclude it tracks exactly that item and passes exactly
    its id as filter argument; if it excludes the item, it tracks nothing
    and passes no argument. *)
Theorem createTestLists_single_test (s : Store) (controller : TestController)
    (request : TestRunRequest) (m : handle) (fuel : nat) :
  include request = Some [m] ->
  children_of s m = [] ->
  Plan.createTestLists s controller request (S fuel)
  = Some (if Plan.excluded request m
          then {| Plan.testItems := []; Plan.testArgs := [] |}
          else {| Plan.testItems := [m]; Plan.testArgs := [id_of s m] |}).
Proof.
  intros Hinc Hch.
  unfold Plan.createTestLists, Plan.initialQueue, Plan.filtered. rewrite Hinc.
  cbn [Plan.loop1 Plan.queue Arr.pop Plan.nonEmpty orb]. unfold Plan.body, Plan.verdict.
  rewrite Hch.
  destruct (Plan.excluded request m);
    [|destruct (isTestCase s m && negb (Plan.includesExcluded s request m))];
    destruct fuel; reflexivity.
Qed.

Lemma createTestLists_single_test_witness :
  Plan.createTestLists Examples.tree1 Examples.controller1
    {| include := Some [2]; exclude := None |} 1
  = Some {| Plan.testItems := [2];
            Plan.testArgs := ["MyTarget/FooTests/testBar"] |}.
Proof.
  exact (createTestLists_single_test Examples.tree1 Examples.controller1
           {| include := Some [2]; exclude := None |} 2 0 eq_refl eq_refl).
Defined.

Lemma filter_unexcluded (request : TestRunRequest) (l : list handle) :
  TreeSpec.excludesNothing request ->
  List.filter (fun t => negb (Plan.excluded request t)) l = l.
Proof.
  intros H. induction l as [|x l IH]; simpl; [reflexivity|].
  assert (Plan.excluded request x = false) as ->.
  { apply excluded_false. rewrite H. intros []. }
  simpl. now rewrite IH.
Qed.

(** X2.  A request that includes one test case and excludes nothing
    tracks the case followed by its children, last child first, and
    passes the id of the case as the only filter argument. *)
Theorem createTestLists_single_case (s : Store) (controller : TestController)
    (request : TestRunRequest) (c : handle) (fuel : nat) :
  include request = Some [c] ->
  isTestCase s c = true ->
  TreeSpec.excludesNothing request ->
  Plan.createTestLists s controller request (S fuel)
  = Some {| Plan.testItems := c :: rev (children_of s c);
            Plan.testArgs := [id_of s c] |}.
Proof.
  intros Hinc Hcase Hex.
  unfold Plan.createTestLists, Plan.initialQueue, Plan.filtered. rewrite Hinc.
  cbn [Plan.loop1 Plan.queue Arr.pop Plan.nonEmpty orb]. unfold Plan.body.
  rewrite (unexcluded_verdict s request c Hex), Hcase.
  assert (forall st, Plan.queue st = [] -> Plan.loop1 s request fuel st = Some st) as Hdone
    by (intros st E; destruct fuel; simpl; now rewrite E).
  rewrite Hdone by reflexivity.
  cbn [Plan.list_ Plan.queue2 app map]. rewrite loop2_filter.
  now rewrite (filter_unexcluded request _ Hex).
Qed.

Lemma createTestLists_single_case_witness :
  Plan.createTestLists Examples.tree1 Examples.controller1
    {| include := Some [1]; exclude := None |} 1
  = Some {| Plan.testItems := [1; 3; 2];
            Plan.testArgs := ["MyTarget/FooTests"] |}.
Proof.
  exact (createTestLists_single_case Examples.tree1 Examples.controller1
           {| include := Some [1]; exclude := None |} 1 0 eq_refl eq_refl eq_refl).
Defined.

(** ** The plan: what is tracked when nothing is excluded *)

Lemma reaches_leaf (s : Store) (c x : handle) :
  children_of s c = [] -> TreeSpec.reaches s c x -> x = c.
Proof.
  intros Hc H. destruct H as [|t c' x Hin _]; [reflexivity|].
  rewrite Hc in Hin. destruct Hin.
Qed.

Lemma planned_complete (s : Store) (request : TestRunRequest)
    (rank : handle -> nat) :
  PlanSpec.ranked s rank -> PlanSpec.methodsAreLeaves s ->
  TreeSpec.excludesNothing request ->
  forall d t x, rank t < d -> TreeSpec.reaches s t x ->
    children_of s x = [] \/ isTestCase s x = true ->
    PlanSpec.planned s request d t x.
Proof.
  intros Hrank Hleaves Hex d.
  induction d as [|d IH]; intros t x Ht Hreach Hx; [lia|].
  unfold PlanSpec.planned. rewrite visitL_S, visitQ_S.
  rewrite (unexcluded_verdict s request t Hex).
  destruct Hreach as [t|t c x Hc Hreach].
  - destruct (isTestCase s t) eqn:Hcase; [left; now left|].
    destruct Hx as [Hx|Hx]; [|discriminate].
    rewrite Hx. left. now left.
  - destruct (isTestCase s t) eqn:Hcase.
    + pose proof (reaches_leaf s c x (Hleaves t c Hcase Hc) Hreach) as ->.
      right. split; [assumption|].
      apply excluded_false. rewrite Hex. intros [].
    + destruct (children_of s t) as [|c0 cs] eqn:Hch; [destruct Hc|].
      pose proof (Hrank t c) as Hr. rewrite Hch in Hr. specialize (Hr Hc).
      assert (rank c < d) as Hcd by lia.
      destruct (IH c x Hcd Hreach Hx) as [H|[H He]].
      * left. apply in_flat_map. exists c. split; [now rewrite <- in_rev|assumption].
      * right. split; [|assumption].
        apply in_flat_map. exists c. split; [now rewrite <- in_rev|assumption].
Qed.

(** X3.  When the request excludes nothing, on a tree of finite depth
    whose test cases have tests (leaves) as children, createTestLists
    returns a list that holds every test case and every item without
    children that is at or below an item the request starts from. *)
Theorem createTestLists_complete (s : Store) (controller : TestController)
    (request : TestRunRequest) (rank : handle -> nat) :
  PlanSpec.ranked s rank -> PlanSpec.methodsAreLeaves s ->
  TreeSpec.excludesNothing request ->
  exists k, forall fuel, exists lists,
    Plan.createTestLists s controller request (k + fuel) = Some lists
    /\ forall t x, In t (Plan.initialQueue controller request) ->
         TreeSpec.reaches s t x ->
         children_of s x = [] \/ isTestCase s x = true ->
         In x (Plan.testItems lists).
Proof.
  intros Hrank Hleaves Hex.
  destruct (createTestLists_returns s controller request rank Hrank) as [k Hk].
  exists k. intros fuel. eexists. split; [apply Hk|].
  cbn [Plan.testItems].
  unfold PlanSpec.listAfterLoop1, PlanSpec.queue2AfterLoop1. cbv zeta.
  intros t x Ht Hreach Hx. apply testItems_planned. exists t. split; [assumption|].
  apply (planned_complete s request rank Hrank Hleaves Hex); try assumption.
  now apply depthBound_lt.
Qed.

Lemma createTestLists_complete_witness :
  exists k, forall fuel, exists lists,
    Plan.createTestLists Examples.tree1 Examples.controller1
      {| include := None; exclude := None |} (k + fuel) = Some lists
    /\ forall t x, In t [0] -> TreeSpec.reaches Examples.tree1 t x ->
         children_of Examples.tree1 x = [] \/ isTestCase Examples.tree1 x = true ->
         In x (Plan.testItems lists).
Proof.
  exact (createTestLists_complete Examples.tree1 Examples.controller1
           {| include := None; exclude := None |} Examples.rank6
           tree1_ranked tree1_methodsAreLeaves eq_refl).
Defined.

(** ** The plan: what is never tracked *)

Lemma visitL_reaches (s : Store) (request : TestRunRequest) (d : nat) :
  forall t x, In x (PlanSpec.visitL s request d t) -> TreeSpec.reaches s t x.
Proof.
  induction d as [|d IH]; intros t x; [intros []|].
  rewrite visitL_S. destruct (Plan.verdict s request t).
  - intros [].
  - intros [<-|[]]. constructor.
  - rewrite in_flat_map. intros (c & Hc & Hx). rewrite <- in_rev in Hc.
    eapply TreeSpec.reaches_child; eauto.
  - intros [<-|[]]. constructor.
Qed.

Lemma visitQ_reaches (s : Store) (request : TestRunRequest) (d : nat) :
  forall t x, In x (PlanSpec.visitQ s request d t) -> TreeSpec.reaches s t x.
Proof.
  induction d as [|d IH]; intros t x; [intros []|].
  rewrite visitQ_S. destruct (Plan.verdict s request t).
  - intros [].
  - intros Hx. eapply TreeSpec.reaches_child; [exact Hx|constructor].
  - rewrite in_flat_map. intros (c & Hc & Hx). rewrite <- in_rev in Hc.
    eapply TreeSpec.reaches_child; eauto.
  - intros [].
Qed.

Lemma planned_reaches (s : Store) (request : TestRunRequest) (d : nat)
    (t x : handle) :
  PlanSpec.planned s request d t x -> TreeSpec.reaches s t x.
Proof.
  intros [H|[H _]]; [now apply visitL_reaches in H|now apply visitQ_reaches in H].
Qed.

Lemma planned_shape (s : Store) (request : TestRunRequest) (d : nat)
    (t x : handle) :
  PlanSpec.planned s request d t x ->
  isTestCase s x = true \/ children_of s x = []
  \/ exists p, isTestCase s p = true /\ In x (children_of s p).
Proof.
  intros [H|[H _]].
  - apply visitL_verdict in H as [H|H].
    + apply verdict_whole_case in H. tauto.
    + apply verdict_leaf in H. tauto.
  - apply visitQ_parent in H as (p & Hp & Hx).
    apply verdict_whole_case in Hp. right. right. exists p. tauto.
Qed.

(** X4.  On a tree of finite depth createTestLists returns a list in
    which every item is at or below an item the request starts from, is
    a test case, an item without children or the child of a test case
    (never a target with children), and has the id of every filter
    argument among its ids: each filter argument is the id of an item
    that is tracked. *)
Theorem createTestLists_sound (s : Store) (controller : TestController)
    (request : TestRunRequest) (rank : handle -> nat) :
  PlanSpec.ranked s rank ->
  exists k, forall fuel, exists lists,
    Plan.createTestLists s controller request (k + fuel) = Some lists
    /\ (forall x, In x (Plan.testItems lists) ->
          (exists t, In t (Plan.initialQueue controller request)
                     /\ TreeSpec.reaches s t x)
          /\ (isTestCase s x = true \/ children_of s x = []
              \/ exists p, isTestCase s p = true /\ In x (children_of s p)))
    /\ (forall a, In a (Plan.testArgs lists) ->
          exists x, In x (Plan.testItems lists) /\ id_of s x = a).
Proof.
  intros Hrank.
  destruct (createTestLists_returns s controller request rank Hrank) as [k Hk].
  exists k. intros fuel. eexists. split; [apply Hk|].
  cbn [Plan.testItems Plan.testArgs]. split.
  - unfold PlanSpec.listAfterLoop1 at 1, PlanSpec.queue2AfterLoop1. cbv zeta.
    intros x Hx. apply testItems_planned in Hx as (t & Ht & Hp). split.
    + exists t. split; [assumption|]. now apply planned_reaches in Hp.
    + now apply planned_shape in Hp.
  - intros a Ha. destruct (Plan.filtered request); [|destruct Ha].
    apply in_map_iff in Ha as (x & <- & Hx).
    exists x. split; [|reflexivity]. apply in_or_app. now left.
Qed.

Lemma createTestLists_sound_witness :
  exists k, forall fuel, exists lists,
    Plan.createTestLists Examples.tree1 Examples.controller1
      {| include := None; exclude := Some [2] |} (k + fuel) = Some lists
    /\ (forall x, In x (Plan.testItems lists) ->
          (exists t, In t [0] /\ TreeSpec.reaches Examples.tree1 t x)
          /\ (isTestCase Examples.tree1 x = true
              \/ children_of Examples.tree1 x = []
              \/ exists p, isTestCase Examples.tree1 p = true
                           /\ In x (children_of Examples.tree1 p)))
    /\ (forall a, In a (Plan.testArgs lists) ->
          exists x, In x (Plan.testItems lists) /\ id_of Examples.tree1 x = a).
Proof.
  exact (createTestLists_sound Examples.tree1 Examples.controller1
           {| include := None; exclude := Some [2] |} Examples.rank6 tree1_ranked).
Defined.

(** ** The plan: no item is tracked twice *)

Lemma reaches_rank (s : Store) (rank : handle -> nat) (t x : handle) :
  PlanSpec.ranked s rank -> TreeSpec.reaches s t x -> rank x <= rank t.
Proof.
  intros Hrank H. induction H as [t|t c x Hc _ IH]; [lia|].
  specialize (Hrank t c Hc). lia.
Qed.

Lemma reaches_trans (s : Store) (a b c : handle) :
  TreeSpec.reaches s a b -> TreeSpec.reaches s b c -> TreeSpec.reaches s a c.
Proof.
  intros H. induction H as [t|t c0 x Hc _ IH]; [auto|].
  intros Hx. eapply TreeSpec.reaches_child; eauto.
Qed.

(** The last step of a path: the item reached is the start or the child
    of an item that the start reaches. *)
Lemma reaches_last (s : Store) (b c : handle) :
  TreeSpec.reaches s b c ->
  b = c \/ exists p, In c (children_of s p) /\ TreeSpec.reaches s b p.
Proof.
  intros H. induction H as [t|t c0 x Hc Hreach IH]; [now left|].
  right. destruct IH as [->|(p & Hp & Hcp)].
  - exists t. split; [assumption|constructor].
  - exists p. split; [assumption|]. eapply TreeSpec.reaches_child; eauto.
Qed.

(** The items above an item are in line. *)
Lemma reaches_linear (s : Store) (a b x : handle) :
  PlanSpec.parentsAgree s ->
  TreeSpec.reaches s a x -> TreeSpec.reaches s b x ->
  TreeSpec.reaches s a b \/ TreeSpec.reaches s b a.
Proof.
  intros Hparents Ha. revert b. induction Ha as [t|t c x Hc Hreach IH]; intros b Hb.
  - now right.
  - destruct (IH b Hb) as [H|H].
    + left. eapply TreeSpec.reaches_child; eauto.
    + apply reaches_last in H as [->|(p & Hp & Hbp)].
      * left. eapply TreeSpec.reaches_child; [exact Hc|constructor].
      * pose proof (Hparents t c Hc) as E1. pose proof (Hparents p c Hp) as E2.
        assert (p = t) as -> by congruence. now right.
Qed.

Lemma siblings_apart (s : Store) (rank : handle -> nat) (t c1 c2 x : handle) :
  PlanSpec.ranked s rank -> PlanSpec.parentsAgree s ->
  In c1 (children_of s t) -> In c2 (children_of s t) ->
  TreeSpec.reaches s c1 x -> TreeSpec.reaches s c2 x -> c1 = c2.
Proof.
  intros Hrank Hparents H1 H2 R1 R2.
  assert (forall a b, In a (children_of s t) -> In b (children_of s t) ->
                      TreeSpec.reaches s a b -> a = b) as Hline.
  { intros a b Ha Hb R. apply reaches_last in R as [->|(p & Hp & Rp)]; [reflexivity|].
    pose proof (Hparents t b Hb) as E1. pose proof (Hparents p b Hp) as E2.
    assert (p = t) as -> by congruence.
    pose proof (reaches_rank s rank a t Hrank Rp).
    pose proof (Hrank t a Ha). lia. }
  destruct (reaches_linear s c1 c2 x Hparents R1 R2) as [R|R].
  - now apply Hline.
  - symmetry. now apply Hline.
Qed.

Lemma NoDup_flat_map_pair {A B} (f g : A -> list B) (l : list A) :
  List.NoDup l ->
  (forall c, In c l -> List.NoDup (f c ++ g c)) ->
  (forall c1 c2 x, In c1 l -> In c2 l ->
     In x (f c1 ++ g c1) -> In x (f c2 ++ g c2) -> c1 = c2) ->
  List.NoDup (flat_map f l ++ flat_map g l).
Proof.
  induction l as [|a l IH]; intros Hl Hone Htwo; [constructor|].
  apply List.NoDup_cons_iff in Hl as [Ha Hl].
  apply (Permutation_NoDup (l := (f a ++ g a) ++ (flat_map f l ++ flat_map g l))).
  - simpl. rewrite <- !app_assoc. apply Permutation_app_head.
    rewrite !app_assoc. apply Permutation_app_tail. apply Permutation_app_comm.
  - apply List.NoDup_app.
    + apply Hone. now left.
    + apply IH; [assumption| |].
      * intros c Hc. apply Hone. now right.
      * intros c1 c2 x H1 H2. apply Htwo; now right.
    + intros x Hx Hx'.
      assert (exists c, In c l /\ In x (f c ++ g c)) as (c & Hc & Hxc).
      { apply in_app_or in Hx' as [H|H]; apply in_flat_map in H as (c & Hc & H);
          exists c; (split; [assumption|]); apply in_or_app; [now left|now right]. }
      assert (a = c) as -> by (apply (Htwo a c x); [now left|now right|assumption..]).
      contradiction.
Qed.

Section Distinct.
Variable s : Store.
Variable request : TestRunRequest.
Variable rank : handle -> nat.
Hypothesis Hrank : PlanSpec.ranked s rank.
Hypothesis Hparents : PlanSpec.parentsAgree s.
Hypothesis Hdistinct : TreeSpec.childrenDistinct s.

Lemma visit_reaches (d : nat) (t x : handle) :
  In x (PlanSpec.visitL s request d t ++ PlanSpec.visitQ s request d t) ->
  TreeSpec.reaches s t x.
Proof.
  intros H. apply in_app_or in H as [H|H];
    [now apply visitL_reaches in H|now apply visitQ_reaches in H].
Qed.

Lemma visit_NoDup (d : nat) :
  forall t, List.NoDup (PlanSpec.visitL s request d t ++ PlanSpec.visitQ s request d t).
Proof.
  induction d as [|d IH]; intros t; [constructor|].
  rewrite visitL_S, visitQ_S. destruct (Plan.verdict s request t) eqn:Hv.
  - constructor.
  - simpl. constructor; [|apply Hdistinct].
    intros Hin. specialize (Hrank t t Hin). lia.
  - apply NoDup_flat_map_pair.
    + apply List.NoDup_rev, Hdistinct.
    + intros c _. apply IH.
    + intros c1 c2 x H1 H2 Hx1 Hx2. rewrite <- in_rev in H1, H2.
      apply (siblings_apart s rank t c1 c2 x Hrank Hparents H1 H2);
        eapply visit_reaches; eassumption.
  - simpl. constructor; [intros []|constructor].
Qed.

Lemma plan_NoDup (d : nat) (init : list handle) :
  List.NoDup init -> TreeSpec.apart s init ->
  List.NoDup
    (flat_map (PlanSpec.visitL s request d) (rev init)
     ++ List.filter (fun t => negb (Plan.excluded request t))
          (rev (flat_map (PlanSpec.visitQ s request d) (rev init)))).
Proof.
  intros Hinit Hapart.
  assert (List.NoDup (flat_map (PlanSpec.visitL s request d) (rev init)
                      ++ flat_map (PlanSpec.visitQ s request d) (rev init))) as H.
  { apply NoDup_flat_map_pair.
    - now apply List.NoDup_rev.
    - intros c _. apply visit_NoDup.
    - intros c1 c2 x H1 H2 Hx1 Hx2. rewrite <- in_rev in H1, H2.
      apply visit_reaches in Hx1, Hx2.
      destruct (reaches_linear s c1 c2 x Hparents Hx1 Hx2) as [R|R].
      + now apply Hapart.
      + symmetry. now apply Hapart. }
  apply List.NoDup_app.
  - eapply List.NoDup_app_remove_r. exact H.
  - apply List.NoDup_filter, List.NoDup_rev.
    eapply List.NoDup_app_remove_l. exact H.
  - intros x Hx Hx'. apply filter_In in Hx' as [Hx' _]. rewrite <- in_rev in Hx'.
    apply NoDup_ListNoDup in H. apply NoDup_app in H as (_ & Hd & _).
    apply (Hd x); now apply list_elem_of_In.
Qed.
End Distinct.

(** Roots, which have no parent, are apart. *)
Lemma roots_apart (s : Store) (l : list handle) :
  PlanSpec.parentsAgree s ->
  (forall t, In t l -> parent_of s t = None) -> TreeSpec.apart s l.
Proof.
  intros Hparents Hroots a b Ha Hb R.
  apply reaches_last in R as [->|(p & Hp & _)]; [reflexivity|].
  specialize (Hroots b Hb). rewrite (Hparents p b Hp) in Hroots. discriminate.
Qed.

(** X5.  On a tree (finite depth, children that name their parent, no
    child listed twice), for a request that starts from distinct items
    none of which is below another (the roots of the tree when nothing is
    included), createTestLists returns a list without duplicates: no item
    is tracked twice. *)
Theorem createTestLists_NoDup (s : Store) (controller : TestController)
    (request : TestRunRequest) (rank : handle -> nat) :
  PlanSpec.ranked s rank -> PlanSpec.parentsAgree s -> TreeSpec.childrenDistinct s ->
  List.NoDup (Plan.initialQueue controller request) ->
  TreeSpec.apart s (Plan.initialQueue controller request) ->
  exists k, forall fuel, exists lists,
    Plan.createTestLists s controller request (k + fuel) = Some lists
    /\ NoDup (Plan.testItems lists).
Proof.
  intros Hrank Hparents Hdistinct Hinit Hapart.
  destruct (createTestLists_returns s controller request rank Hrank) as [k Hk].
  exists k. intros fuel. eexists. split; [apply Hk|].
  cbn [Plan.testItems]. apply NoDup_ListNoDup.
  now apply (plan_NoDup s request rank Hrank Hparents Hdistinct).
Qed.

Lemma tree1_childrenDistinct : TreeSpec.childrenDistinct Examples.tree1.
Proof.
  intros t. unfold children_of.
  destruct t as [|[|[|[|t]]]]; simpl; repeat constructor; simpl; intuition discriminate.
Qed.

Lemma createTestLists_NoDup_witness :
  exists k, forall fuel, exists lists,
    Plan.createTestLists Examples.tree1 Examples.controller1
      {| include := None; exclude := None |} (k + fuel) = Some lists
    /\ NoDup (Plan.testItems lists).
Proof.
  refine (createTestLists_NoDup Examples.tree1 Examples.controller1
            {| include := None; exclude := None |} Examples.rank6
            tree1_ranked tree1_parentsAgree tree1_childrenDistinct _ _).
  - simpl. repeat constructor. intros [].
  - apply roots_apart; [exact tree1_parentsAgree|].
    simpl. intros t [<-|[]]. reflexivity.
Defined.

(** ** The launch configuration of a run *)

(** X6.  createLaunchConfigurationForTesting throws in one case only: on
    Darwin, when it is not debugging into an output file, when there is a
    filter to pass, and when the configuration it has been given has no
    list of arguments to spread behind the filter.  On the other
    platforms it always returns. *)
Theorem createLaunchConfiguration_throws (p : Platform)
    (launch : Launch.LaunchModule) (testArgs_ : list string) (debugging : bool)
    (outputFile : option string) (e : Thrown) :
  Launch.createLaunchConfigurationForTesting p launch testArgs_ debugging outputFile
  = Launch.Threw e
  <-> p = Darwin
      /\ (debugging && Launch.truthy outputFile) = false
      /\ Launch.nonEmptyString (String.concat "," testArgs_) = true
      /\ (exists base, Launch.createTestConfiguration launch = Some base
                       /\ Launch.args base = None)
      /\ e = Launch.notIterable.
Proof.
  unfold Launch.createLaunchConfigurationForTesting. split.
  - destruct p.
    + destruct debugging, outputFile as [file|]; cbn [andb Launch.truthy];
        try destruct (Launch.nonEmptyString file) eqn:Hfile; try discriminate;
        (destruct (Launch.createTestConfiguration launch) as [base|];
           [|discriminate]);
        (destruct (Launch.nonEmptyString (String.concat "," testArgs_));
           [|discriminate]);
        (destruct (Launch.args base) eqn:Hargs; [discriminate|]);
        intros [= <-]; repeat apply conj; eauto.
    + destruct (Launch.createTestConfiguration launch); discriminate.
  - intros (-> & Hd & Hne & (base & Hbase & Hargs) & ->).
    rewrite Hbase, Hne, Hargs.
    destruct debugging, outputFile as [file|]; cbn [andb Launch.truthy] in Hd |- *;
      try rewrite Hd; reflexivity.
Qed.

(** X7.  When it is not debugging, which is how runSession calls it,
    createLaunchConfigurationForTesting never asks for the Darwin debug
    configuration: what it gives depends on createTestConfiguration
    alone, on every platform. *)
Theorem createLaunchConfiguration_not_debugging (p : Platform)
    (launch launch' : Launch.LaunchModule) (testArgs_ : list string)
    (outputFile : option string) :
  Launch.createTestConfiguration launch = Launch.createTestConfiguration launch' ->
  Launch.createLaunchConfigurationForTesting p launch testArgs_ false outputFile
  = Launch.createLaunchConfigurationForTesting p launch' testArgs_ false outputFile.
Proof.
  intros H. unfold Launch.createLaunchConfigurationForTesting. rewrite H.
  destruct p, outputFile; reflexivity.
Qed.

(** ** The plan and the launch configuration together *)

Lemma nonEmptyString_spec (s : string) :
  Launch.nonEmptyString s = true <-> s <> EmptyString.
Proof. destruct s; simpl; split; congruence. Qed.

Lemma runArguments_nil (p : Platform) (launch : Launch.LaunchModule) :
  Launch.runArguments p launch []
  = match Launch.createTestConfiguration launch with
    | Some base => Some (match Launch.args base with Some a => a | None => [] end)
    | None => None
    end.
Proof.
  unfold Launch.runArguments, Launch.createLaunchConfigurationForTesting.
  destruct p, (Launch.createTestConfiguration launch); reflexivity.
Qed.

(** X8.  Running one test: for a request that includes one item without
    children and does not exclude it, the constructor tracks that item
    alone, and runSession starts the test binary with the id of the item
    as its only argument on the platforms other than Darwin, and with
    [-XCTest] and the id in front of the arguments of the configuration
    on Darwin. *)
Theorem single_test_arguments (s : Store) (controller : TestController)
    (request : TestRunRequest) (m : handle) (fuel : nat)
    (launch : Launch.LaunchModule) (base : Launch.DebugConfiguration)
    (rest : list string) :
  include request = Some [m] ->
  children_of s m = [] ->
  Plan.excluded request m = false ->
  id_of s m <> EmptyString ->
  Launch.createTestConfiguration launch = Some base ->
  Launch.args base = Some rest ->
  exists r,
    newRunner s controller request (S fuel) = Some r
    /\ testItems r = [m]
    /\ Launch.runArguments NonDarwin launch (testArgs r) = Some [id_of s m]
    /\ Launch.runArguments Darwin launch (testArgs r)
       = Some ("-XCTest" :: id_of s m :: rest).
Proof.
  intros Hinc Hch Hex Hid Hbase Hargs.
  assert (Plan.createTestLists s controller request (S fuel)
          = Some {| Plan.testItems := [m]; Plan.testArgs := [id_of s m] |}) as E.
  { unfold Plan.createTestLists, Plan.initialQueue, Plan.filtered. rewrite Hinc.
    cbn [Plan.loop1 Plan.queue Arr.pop Plan.nonEmpty orb].
    unfold Plan.body, Plan.verdict. rewrite Hch, Hex.
    destruct (isTestCase s m && negb (Plan.includesExcluded s request m));
      destruct fuel; reflexivity. }
  unfold newRunner. rewrite E. eexists. split; [reflexivity|].
  cbn [testItems testArgs Plan.testItems Plan.testArgs].
  apply nonEmptyString_spec in Hid.
  unfold Launch.runArguments, Launch.createLaunchConfigurationForTesting.
  cbn [String.concat]. rewrite Hbase, Hid, Hargs. repeat apply conj; reflexivity.
Qed.

Lemma single_test_arguments_witness :
  exists r,
    newRunner Examples.tree1 Examples.controller1
      {| include := Some [2]; exclude := None |} 1 = Some r
    /\ testItems r = [2]
    /\ Launch.runArguments NonDarwin Examples.launch1 (testArgs r)
       = Some ["MyTarget/FooTests/testBar"]
    /\ Launch.runArguments Darwin Examples.launch1 (testArgs r)
       = Some ["-XCTest"; "MyTarget/FooTests/testBar"; "--verbose"].
Proof.
  refine (single_test_arguments Examples.tree1 Examples.controller1
            {| include := Some [2]; exclude := None |} 2 0
            Examples.launch1 Examples.config1 ["--verbose"]
            eq_refl eq_refl eq_refl _ eq_refl eq_refl).
  simpl. discriminate.
Defined.

(** X9.  Running everything: on a tree of finite depth, for a request
    that neither includes nor excludes anything, the constructor
    returns a runner that keeps no filter argument, and runSession
    starts the test binary with the arguments of the configuration as
    they are, on every platform. *)
Theorem unfiltered_arguments (s : Store) (controller : TestController)
    (request : TestRunRequest) (rank : handle -> nat) (p : Platform)
    (launch : Launch.LaunchModule) :
  PlanSpec.ranked s rank ->
  Plan.filtered request = false ->
  exists k, forall fuel, exists r,
    newRunner s controller request (k + fuel) = Some r
    /\ testArgs r = []
    /\ Launch.runArguments p launch (testArgs r)
       = match Launch.createTestConfiguration launch with
         | Some base =>
             Some (match Launch.args base with Some a => a | None => [] end)
         | None => None
         end.
Proof.
  intros Hrank Hf.
  destruct (createTestLists_returns s controller request rank Hrank) as [k Hk].
  exists k. intros fuel. unfold newRunner. rewrite Hk, Hf.
  eexists. split; [reflexivity|]. cbn [testArgs]. split; [reflexivity|].
  apply runArguments_nil.
Qed.

Lemma unfiltered_arguments_witness :
  exists k, forall fuel, exists r,
    newRunner Examples.tree1 Examples.controller1
      {| include := None; exclude := None |} (k + fuel) = Some r
    /\ testArgs r = []
    /\ Launch.runArguments Darwin Examples.launch1 (testArgs r)
       = Some ["--verbose"].
Proof.
  exact (unfiltered_arguments Examples.tree1 Examples.controller1
           {| include := None; exclude := None |} Examples.rank6 Darwin
           Examples.launch1 tree1_ranked eq_refl).
Defined.

Lemma createLaunchConfiguration_not_debugging_witness :
  Launch.createLaunchConfigurationForTesting Darwin Examples.launch1
    ["MyTarget/FooTests"] false (Some "/tmp/TestOutput.txt")
  = Launch.createLaunchConfigurationForTesting Darwin Examples.launch2
      ["MyTarget/FooTests"] false (Some "/tmp/TestOutput.txt").
Proof.
  exact (createLaunchConfiguration_not_debugging Darwin Examples.launch1
           Examples.launch2 ["MyTarget/FooTests"] (Some "/tmp/TestOutput.txt")
           eq_refl).
Defined.

(** ** The run handler: what a whole run reports *)

Lemma advances_emit (P : Event -> Prop) (r : Runner) (e : Event) :
  SinkSpec.terminalItem e = [] -> P e -> SinkSpec.advances P r (emit e r).
Proof.
  intros He HP. exists [e]. split; [reflexivity|]. split; [now constructor|].
  simpl. now rewrite He.
Qed.

Lemma isResult_isReport (e : Event) : SinkSpec.isResult e -> RunSpec.isReport e.
Proof. now destruct e. Qed.

Lemma setTestsEnqueued_eq (r : Runner) :
  Run.setTestsEnqueued r
  = {| testItems := testItems r; testArgs := testArgs r;
       currentTestItem := currentTestItem r;
       testRun := testRun r ++ map enqueued (testItems r) |}.
Proof.
  unfold Run.setTestsEnqueued.
  assert (forall l r0,
             fold_left (fun r' test => emit (enqueued test) r') l r0
             = {| testItems := testItems r0; testArgs := testArgs r0;
                  currentTestItem := currentTestItem r0;
                  testRun := testRun r0 ++ map enqueued l |}) as H.
  { induction l as [|t l IH]; intros r0; simpl.
    - rewrite app_nil_r. now destruct r0.
    - rewrite IH. simpl. now rewrite <- app_assoc. }
  apply H.
Qed.

Section WholeRun.
Variable env : Env.
Variable w : World.

Lemma write_advances (r : Runner) (text : string) :
  SinkSpec.advances RunSpec.isReport r (Run.write env r text).
Proof.
  unfold Run.write.
  apply (advances_trans _ _ (emit (appendOutput (JS.crlf text)) r)).
  - apply advances_emit; [reflexivity|exact I].
  - eapply advances_weaken; [exact isResult_isReport|apply parseResult_advances].
Qed.

Lemma runSession_advances (r : Runner) :
  SinkSpec.advances RunSpec.isReport r (fst (Run.runSession env w r)).
Proof.
  unfold Run.runSession.
  destruct (Launch.createLaunchConfigurationForTesting _ _ _ _ _) as [[c|]|e];
    simpl; try apply advances_refl.
  destruct (cancelledAtStart w); simpl; [apply advances_refl|].
  apply (advances_trans _ _ (emit (appendOutput (Run.banner w)) r)).
  - apply advances_emit; [reflexivity|exact I].
  - apply advances_fold. apply write_advances.
Qed.

Lemma debugSession_advances (r : Runner) :
  SinkSpec.advances RunSpec.isReport r (fst (Run.debugSession env w r)).
Proof.
  assert (forall r0 text, SinkSpec.advances RunSpec.isReport r0
                            (emit (appendOutput text) r0)) as Hout
    by (intros r0 text; apply advances_emit; [reflexivity|exact I]).
  unfold Run.debugSession.
  destruct (Launch.createLaunchConfigurationForTesting _ _ _ _ _) as [[c|]|e];
    simpl; try apply advances_refl.
  destruct (debugStart w); simpl; try apply advances_refl.
  destruct (cancelledAtTerminate w); simpl; [apply Hout|].
  destruct (debugOutput w) as [out|]; simpl; [|apply Hout].
  apply (advances_trans _ _ (emit (appendOutput (Run.banner w)) r));
    [apply Hout|].
  apply (write_advances _ out).
Qed.

Lemma catchBlock_advances (error : Thrown) (r : Runner) :
  match Run.catchBlock env error r with
  | (r', Run.Returns) => r' = emit end_ r
  | (r', Run.FallsThrough) => SinkSpec.advances RunSpec.isReport r r'
  | (r', Run.Throws _) => r' = r
  end.
Proof.
  unfold Run.catchBlock. destruct (Run.commandFailed error) as [[|]|];
    [reflexivity| |reflexivity].
  destruct (currentTestItem r).
  - eapply advances_trans; [|apply advances_emit; [reflexivity|exact I]].
    apply advances_emit; [reflexivity|exact I].
  - apply advances_emit; [reflexivity|exact I].
Qed.

(** After a build that has succeeded the handler enqueues the tests, lets
    the session and the catch block report, and ends the run unless the
    catch block throws. *)
Lemma runHandler_after_build (shouldDebug : bool) (r : Runner) :
  build w = BuildExit (Some 0%Z) ->
  exists r2,
    SinkSpec.advances RunSpec.isReport (Run.setTestsEnqueued r) r2
    /\ (Run.runHandler env w shouldDebug r = (emit end_ r2, None)
        \/ exists e, Run.runHandler env w shouldDebug r = (r2, Some e)).
Proof.
  intros Hb. unfold Run.runHandler, Run.tryBlock. rewrite Hb.
  assert (exists r1 thrown,
             (if shouldDebug then Run.debugSession env w (Run.setTestsEnqueued r)
              else Run.runSession env w (Run.setTestsEnqueued r)) = (r1, thrown)
             /\ SinkSpec.advances RunSpec.isReport (Run.setTestsEnqueued r) r1)
    as (r1 & thrown & -> & Hs).
  { destruct shouldDebug.
    - pose proof (debugSession_advances (Run.setTestsEnqueued r)) as H.
      destruct (Run.debugSession env w (Run.setTestsEnqueued r)) as [r1 t]. eauto.
    - pose proof (runSession_advances (Run.setTestsEnqueued r)) as H.
      destruct (Run.runSession env w (Run.setTestsEnqueued r)) as [r1 t]. eauto. }
  destruct thrown as [error|]; [|exists r1; split; [exact Hs|now left]].
  pose proof (catchBlock_advances error r1) as Hc.
  destruct (Run.catchBlock env error r1) as [r2 [| |e]].
  - subst r2. exists r1. split; [exact Hs|now left].
  - exists r2. split; [eapply advances_trans; eassumption|now left].
  - subst r2. exists r1. split; [exact Hs|right; eauto].
Qed.

(** The handler as a whole: the terminal outcomes it reports are for the
    items that have left the list. *)
Lemma runHandler_advances (shouldDebug : bool) (r : Runner) :
  SinkSpec.advances (fun _ => True) r (fst (Run.runHandler env w shouldDebug r)).
Proof.
  assert (forall r0, SinkSpec.advances (fun _ => True) r0 (emit end_ r0)) as Hend
    by (intros r0; apply advances_emit; [reflexivity|exact I]).
  destruct (build w) as [e|code] eqn:Hb.
  - unfold Run.runHandler, Run.tryBlock. rewrite Hb.
    pose proof (catchBlock_advances e r) as Hc.
    destruct (Run.catchBlock env e r) as [r2 [| |e']]; cbn [fst].
    + subst r2. apply Hend.
    + eapply advances_trans; [|apply Hend].
      eapply advances_weaken; [|exact Hc]. auto.
    + subst r2. apply advances_refl.
  - assert (code = Some 0%Z
            \/ Run.runHandler env w shouldDebug r = (emit end_ r, None))
      as [-> | ->].
    { unfold Run.runHandler, Run.tryBlock. rewrite Hb.
      destruct code as [[| |]|]; auto. }
    + assert (SinkSpec.advances (fun _ => True) r (Run.setTestsEnqueued r)) as Hq.
      { rewrite setTestsEnqueued_eq.
        exists (map enqueued (testItems r)). split; [reflexivity|].
        split; [apply List.Forall_forall; auto|].
        simpl. unfold SinkSpec.terminalItems.
        assert (flat_map SinkSpec.terminalItem (map enqueued (testItems r)) = []) as ->
          by (induction (testItems r); simpl; auto).
        reflexivity. }
      destruct (runHandler_after_build shouldDebug r Hb) as (r2 & Ha & [-> |[e ->]]);
        cbn [fst].
      * eapply advances_trans; [|apply Hend].
        eapply advances_trans; [exact Hq|].
        eapply advances_weaken; [|exact Ha]. auto.
      * eapply advances_trans; [exact Hq|].
        eapply advances_weaken; [|exact Ha]. auto.
    + apply Hend.
Qed.
End WholeRun.

(** X10.  When the build fails (its exit code is undefined or not zero)
    or throws a failed command, the handler ends the run and does
    nothing else: no test is enqueued, no output is appended, no error is
    reported, and no session is started; the handler returns. *)
Theorem runHandler_build_failed (env : Env) (w : World) (shouldDebug : bool)
    (r : Runner) :
  RunSpec.buildFailed w ->
  Run.runHandler env w shouldDebug r = (emit end_ r, None).
Proof.
  unfold RunSpec.buildFailed, Run.runHandler, Run.tryBlock, Run.catchBlock.
  destruct (build w) as [e|[[| |]|]]; try reflexivity.
  - now intros ->.
  - intros [].
Qed.

Lemma runHandler_build_failed_witness :
  Run.runHandler Examples.env1
    {| build := BuildExit (Some 1%Z); launch := Examples.launch1;
       testOutputPath := EmptyString;
       cancelledAtStart := false; timestamp := EmptyString; chunks := [];
       execOutcome := None; debugStart := StartOk; cancelledAtTerminate := false;
       debugOutput := None |} false (Examples.runner [2] None)
  = (emit end_ (Examples.runner [2] None), None).
Proof.
  exact (runHandler_build_failed Examples.env1
           {| build := BuildExit (Some 1%Z); launch := Examples.launch1;
              testOutputPath := EmptyString;
              cancelledAtStart := false; timestamp := EmptyString; chunks := [];
              execOutcome := None; debugStart := StartOk;
              cancelledAtTerminate := false; debugOutput := None |}
           false (Examples.runner [2] None) I).
Defined.

(** X11.  After a build that has succeeded the handler first enqueues
    every tracked test, once and in the order of the list; what it
    reports after that holds no enqueued test and no end of the run.
    When the handler returns, the end of the run comes last; when the
    catch block throws, the run is not ended and nothing more is
    called. *)
Theorem runHandler_enqueues_first (env : Env) (w : World) (shouldDebug : bool)
    (r : Runner) :
  build w = BuildExit (Some 0%Z) ->
  exists rest,
    Forall RunSpec.isReport rest
    /\ match Run.runHandler env w shouldDebug r with
       | (r', None) =>
           testRun r' = testRun r ++ map enqueued (testItems r) ++ rest ++ [end_]
       | (r', Some _) =>
           testRun r' = testRun r ++ map enqueued (testItems r) ++ rest
       end.
Proof.
  intros Hb.
  destruct (runHandler_after_build env w shouldDebug r Hb)
    as (r2 & (rest & E & F & _) & [-> |[e ->]]);
    exists rest; (split; [exact F|]).
  - simpl. rewrite E, setTestsEnqueued_eq. simpl. now rewrite <- !app_assoc.
  - rewrite E, setTestsEnqueued_eq. simpl. now rewrite <- !app_assoc.
Qed.

Lemma runHandler_enqueues_first_witness :
  exists rest,
    Forall RunSpec.isReport rest
    /\ match Run.runHandler Examples.env1 MoreExamples.world4 false
               (Examples.runner [1; 3; 2] None) with
       | (r', None) => testRun r' = [] ++ map enqueued [1; 3; 2] ++ rest ++ [end_]
       | (r', Some _) => testRun r' = [] ++ map enqueued [1; 3; 2] ++ rest
       end.
Proof.
  exact (runHandler_enqueues_first Examples.env1 MoreExamples.world4 false
           (Examples.runner [1; 3; 2] None) eq_refl).
Defined.

Lemma accounts (l l' out : list handle) :
  Permutation (out ++ l') l -> NoDup l ->
  NoDup out
  /\ (forall t, In t l <-> In t out \/ In t l')
  /\ (forall t, In t out -> ~ In t l').
Proof.
  intros HP Hnd. rewrite <- HP in Hnd.
  apply NoDup_app in Hnd as (Hout & Hdisj & _).
  split; [exact Hout|]. split.
  - intros t. rewrite <- in_app_iff. split; apply Permutation_in; [symmetry|]; exact HP.
  - intros t Ht. specialize (Hdisj t). rewrite !list_elem_of_In in Hdisj. auto.
Qed.

(** X12.  Over a whole run, whatever the build, the session and the test
    binary do: when the list of the runner holds no test twice, no test
    is given two terminal outcomes (passed, failed, skipped), a test is
    given one only if it was in the list, and the tests that are left in
    the list at the end are the tests that were given none. *)
Theorem runHandler_accounts (env : Env) (w : World) (shouldDebug : bool)
    (r : Runner) :
  NoDup (testItems r) ->
  exists new,
    testRun (fst (Run.runHandler env w shouldDebug r)) = testRun r ++ new
    /\ NoDup (SinkSpec.terminalItems new)
    /\ (forall t, In t (testItems r)
                  <-> In t (SinkSpec.terminalItems new)
                      \/ In t (testItems (fst (Run.runHandler env w shouldDebug r))))
    /\ (forall t, In t (SinkSpec.terminalItems new) ->
                  ~ In t (testItems (fst (Run.runHandler env w shouldDebug r)))).
Proof.
  intros Hnd.
  destruct (runHandler_advances env w shouldDebug r) as (new & E & _ & HP).
  exists new. split; [exact E|]. now apply accounts.
Qed.

Lemma runHandler_accounts_witness :
  exists new,
    testRun (fst (Run.runHandler Examples.env1 MoreExamples.world2 false
                    (Examples.runner [1; 3; 2] None))) = [] ++ new
    /\ NoDup (SinkSpec.terminalItems new)
    /\ (forall t, In t [1; 3; 2]
                  <-> In t (SinkSpec.terminalItems new)
                      \/ In t (testItems (fst (Run.runHandler Examples.env1
                                                 MoreExamples.world2 false
                                                 (Examples.runner [1; 3; 2] None)))))
    /\ (forall t, In t (SinkSpec.terminalItems new) ->
                  ~ In t (testItems (fst (Run.runHandler Examples.env1
                                            MoreExamples.world2 false
                                            (Examples.runner [1; 3; 2] None))))).
Proof.
  refine (runHandler_accounts Examples.env1 MoreExamples.world2 false
            (Examples.runner [1; 3; 2] None) _).
  simpl. apply NoDup_ListNoDup.
  repeat constructor; simpl; intuition discriminate.
Defined.

(** The run of the examples: [testBar] fails, [testBaz] passes, and the
    class, which no line names, is left without an outcome. *)
Example runHandler_example :
  Run.runHandler Examples.env1 MoreExamples.world2 false
    (Examples.runner [1; 3; 2] None)
  = ({| testItems := [1]; testArgs := []; currentTestItem := None;
        testRun :=
          [enqueued 1; enqueued 3; enqueued 2;
           appendOutput (Run.banner MoreExamples.world2);
           appendOutput
             "/repo/Tests/FooTests.swift:12: error: FooTests.testBar : XCTAssertTrue failed";
           failed 2
             {| message := "XCTAssertTrue failed";
                location :=
                  Some {| uri := "/repo/Tests/FooTests.swift";
                          position := {| line := 12; character := 0 |} |} |};
           appendOutput "Test Case 'FooTests.testBaz' passed (0.25 seconds)";
           passed 3 (Some (25 # 100)%Q);
           end_] |},
     None).
Proof. vm_compute. reflexivity. Qed.

(** X13.  A test run from the constructor to the end: on a tree (finite
    depth, children that name their parent, no child listed twice), for
    a request that starts from distinct items none of which is below
    another, the runner that the constructor makes and the handler runs
    gives no test two terminal outcomes, and gives one to tracked tests
    only. *)
Theorem run_reports_once (env : Env) (w : World) (shouldDebug : bool)
    (controller : TestController) (request : TestRunRequest)
    (rank : handle -> nat) :
  PlanSpec.ranked (store env) rank -> PlanSpec.parentsAgree (store env) ->
  TreeSpec.childrenDistinct (store env) ->
  List.NoDup (Plan.initialQueue controller request) ->
  TreeSpec.apart (store env) (Plan.initialQueue controller request) ->
  exists k, forall fuel, exists r new,
    newRunner (store env) controller request (k + fuel) = Some r
    /\ testRun (fst (Run.runHandler env w shouldDebug r)) = new
    /\ NoDup (SinkSpec.terminalItems new)
    /\ forall t, In t (SinkSpec.terminalItems new) -> In t (testItems r).
Proof.
  intros Hrank Hparents Hdistinct Hinit Hapart.
  destruct (createTestLists_returns (store env) controller request rank Hrank)
    as [k Hk].
  exists k. intros fuel. unfold newRunner. rewrite Hk.
  eexists. eexists. split; [reflexivity|]. split; [reflexivity|].
  match goal with
  | |- context [Run.runHandler env w shouldDebug ?r0] => set (r := r0)
  end.
  assert (List.NoDup (testItems r)) as Hnd
    by (apply (plan_NoDup (store env) request rank Hrank Hparents Hdistinct);
        assumption).
  apply NoDup_ListNoDup in Hnd.
  destruct (runHandler_advances env w shouldDebug r) as (new & E & _ & HP).
  change (testRun r) with (@nil Event) in E. simpl in E. rewrite E.
  destruct (accounts _ _ _ HP Hnd) as (H1 & H2 & _).
  split; [exact H1|]. intros t Ht. apply H2. now left.
Qed.

Lemma run_reports_once_witness :
  exists k, forall fuel, exists r new,
    newRunner Examples.tree1 Examples.controller1
      {| include := None; exclude := None |} (k + fuel) = Some r
    /\ testRun (fst (Run.runHandler Examples.env1 MoreExamples.world2 false r)) = new
    /\ NoDup (SinkSpec.terminalItems new)
    /\ forall t, In t (SinkSpec.terminalItems new) -> In t (testItems r).
Proof.
  refine (run_reports_once Examples.env1 MoreExamples.world2 false
            Examples.controller1 {| include := None; exclude := None |}
            Examples.rank6 tree1_ranked tree1_parentsAgree
            tree1_childrenDistinct _ _).
  - simpl. repeat constructor. intros [].
  - apply roots_apart; [exact tree1_parentsAgree|].
    simpl. intros t [<-|[]]. reflexivity.
Defined.

(** X14.  The debug session reads the output file as the streamed run
    reads one chunk.  The two sessions ask for their launch
    configurations in different ways (without and with debugging and an
    output file), which may end differently; when both are given a
    configuration, the debug session starts and terminates without
    cancellation, and the file holds what the test binary would have
    streamed in one piece, the handler gives the same in both modes. *)
Theorem runHandler_debug_as_run (env : Env) (w : World) (r : Runner)
    (out : string) (c1 c2 : Launch.DebugConfiguration) :
  Launch.createLaunchConfigurationForTesting (platform env) (launch w)
    (testArgs r) false None = Launch.Returned (Some c1) ->
  Launch.createLaunchConfigurationForTesting (platform env) (launch w)
    (testArgs r) true (Some (testOutputPath w)) = Launch.Returned (Some c2) ->
  cancelledAtStart w = false -> chunks w = [out] -> execOutcome w = None ->
  debugStart w = StartOk -> cancelledAtTerminate w = false ->
  debugOutput w = Some out ->
  Run.runHandler env w true r = Run.runHandler env w false r.
Proof.
  intros Hc1 Hc2 H1 H2 H3 H4 H5 H6.
  unfold Run.runHandler, Run.tryBlock, Run.debugSession, Run.runSession, Run.write.
  rewrite setTestsEnqueued_eq. cbn [testArgs].
  rewrite Hc1, Hc2, H1, H2, H3, H4, H5, H6.
  destruct (build w) as [e|[[| |]|]]; reflexivity.
Qed.

Lemma runHandler_debug_as_run_witness :
  Run.runHandler Examples.env1 MoreExamples.world3 true
    (Examples.runner [1; 3; 2] None)
  = Run.runHandler Examples.env1 MoreExamples.world3 false
      (Examples.runner [1; 3; 2] None).
Proof.
  exact (runHandler_debug_as_run Examples.env1 MoreExamples.world3
           (Examples.runner [1; 3; 2] None) MoreExamples.output3 _ _
           eq_refl eq_refl eq_refl eq_refl eq_refl eq_refl eq_refl eq_refl).
Defined.

(** On Darwin the two configurations come from different functions of
    the launch module: here the debug session is given none and does
    nothing, while the streamed run reports the results. *)
Example runHandler_debug_differs :
  Run.runHandler Examples.env1Darwin MoreExamples.world3 true
    (Examples.runner [1; 3; 2] None)
  = ({| testItems := [1; 3; 2]; testArgs := []; currentTestItem := None;
        testRun := [enqueued 1; enqueued 3; enqueued 2; end_] |}, None)
  /\ snd (Run.runHandler Examples.env1Darwin MoreExamples.world3 false
            (Examples.runner [1; 3; 2] None)) = None
  /\ Run.runHandler Examples.env1Darwin MoreExamples.world3 true
       (Examples.runner [1; 3; 2] None)
     <> Run.runHandler Examples.env1Darwin MoreExamples.world3 false
          (Examples.runner [1; 3; 2] None).
Proof.
  split; [vm_compute; reflexivity|]. split; [vm_compute; reflexivity|].
  vm_compute. discriminate.
Qed.

(** ** The parsers: chunks, lookups and the text of the output *)

Lemma splitLines_nonempty (s : string) : JS.splitLines s <> [].
Proof.
  destruct s as [|c s]; simpl; [discriminate|].
  destruct (nat_of_ascii c =? 10)%nat; [discriminate|].
  destruct (JS.splitLines s); discriminate.
Qed.

(** Splitting at line feeds a text that has a line feed in it. *)
Lemma splitLines_app (a b : string) :
  JS.splitLines (a ++ RunSpec.LF ++ b) = JS.splitLines a ++ JS.splitLines b.
Proof.
  induction a as [|c a IH]; [reflexivity|].
  cbn [String.append JS.splitLines].
  destruct (nat_of_ascii c =? 10)%nat; [now rewrite IH|].
  rewrite IH. pose proof (splitLines_nonempty a) as Hne.
  destruct (JS.splitLines a); [contradiction|reflexivity].
Qed.

(** X15.  In grammar A the parser reads a text line by line and keeps
    nothing from one line to the next but the state of the runner: a
    text that is cut at a line feed gives the same whether it is given
    in one chunk or in two. *)
Theorem parseResultDarwin_chunks (env : Env) (r : Runner) (a b : string) :
  Parser.parseResultDarwin env r (a ++ RunSpec.LF ++ b)
  = Parser.parseResultDarwin env (Parser.parseResultDarwin env r a) b.
Proof.
  unfold Parser.parseResultDarwin, Parser.linesOf.
  now rewrite splitLines_app, map_app, fold_left_app.
Qed.

(** X16.  The lookup of a failed or skipped line in grammar B: what it
    finds is in the list at the index it gives and has an id that ends
    with the name of the line; it is the first item whose file is a
    source of its target, if there is one, and otherwise the first item
    with such an id; it finds nothing only when no id in the list ends
    with the name. *)
Theorem findByFileThenName_spec (env : Env) (testName filename : string)
    (l : list handle) :
  match Parser.findByFileThenName env testName filename l with
  | Some (i, item) =>
      l !! i = Some item
      /\ Parser.idEndsWith env testName item = true
      /\ (Arr.findIndex (Parser.isTestWithFilenameInTarget env testName filename) l
          = Some (i, item)
          \/ (forall x, In x l ->
                Parser.isTestWithFilenameInTarget env testName filename x = false)
             /\ Arr.findIndex (Parser.idEndsWith env testName) l = Some (i, item))
  | None => forall x, In x l -> Parser.idEndsWith env testName x = false
  end.
Proof.
  unfold Parser.findByFileThenName.
  destruct (Arr.findIndex (Parser.isTestWithFilenameInTarget env testName filename) l)
    as [[i item]|] eqn:E1.
  - pose proof (findIndex_lookup _ _ _ _ E1) as [Hl Hf].
    split; [exact Hl|]. split; [|now left].
    unfold Parser.isTestWithFilenameInTarget in Hf.
    destruct (Parser.idEndsWith env testName item); [reflexivity|discriminate].
  - destruct (Arr.findIndex (Parser.idEndsWith env testName) l) as [[i item]|] eqn:E2.
    + pose proof (findIndex_lookup _ _ _ _ E2) as [Hl Hf].
      split; [exact Hl|]. split; [exact Hf|]. right.
      split; [|reflexivity]. now apply findIndex_none.
    + now apply findIndex_none.
Qed.

Section NothingLeft.
Variable env : Env.

Lemma darwinLine_nothing_left (r : Runner) (ln : string) :
  testItems r = [] ->
  Parser.darwinLine env r ln = r \/ Parser.darwinLine env r ln = setCurrent None r.
Proof.
  intros H. unfold Parser.darwinLine. rewrite H. simpl.
  repeat match goal with
         | |- context [Regex.exec ?p ln] => destruct (Regex.exec p ln)
         end; auto.
Qed.

Lemma nonDarwinLine1_nothing_left (r : Runner) (ln : string) :
  testItems r = [] ->
  Parser.nonDarwinLine1 env r ln = r
  \/ Parser.nonDarwinLine1 env r ln = setCurrent None r.
Proof.
  intros H. unfold Parser.nonDarwinLine1, Parser.findByFileThenName. rewrite H. simpl.
  repeat match goal with
         | |- context [Regex.exec ?p ln] => destruct (Regex.exec p ln)
         end; auto.
Qed.

Lemma nonDarwinLine2_nothing_left (r : Runner) (ln : string) :
  testItems r = [] ->
  Parser.nonDarwinLine2 env r ln = r
  \/ Parser.nonDarwinLine2 env r ln = setCurrent None r.
Proof.
  intros H. unfold Parser.nonDarwinLine2. rewrite H. simpl.
  destruct (Regex.exec _ ln); auto.
Qed.

Lemma fold_nothing_left (step : Runner -> string -> Runner) :
  (forall r ln, testItems r = [] -> step r ln = r \/ step r ln = setCurrent None r) ->
  forall lines r, testItems r = [] ->
    fold_left step lines r = r \/ fold_left step lines r = setCurrent None r.
Proof.
  intros Hstep lines. induction lines as [|ln lines IH]; intros r Hr; simpl; [now left|].
  destruct (Hstep r ln Hr) as [->| ->].
  - now apply IH.
  - destruct (IH (setCurrent None r) Hr) as [->| ->]; now right.
Qed.
End NothingLeft.

(** X17.  Once the list is empty (nothing is tracked, or every tracked
    test has been given its outcome) neither parser reports anything,
    whatever the test binary prints: the log and the list stay as they
    are, and the only thing that may change is that the current item is
    cleared. *)
Theorem parseResult_nothing_left (env : Env) (r : Runner) (output : string) :
  testItems r = [] ->
  Parser.parseResult env r output = r
  \/ Parser.parseResult env r output = setCurrent None r.
Proof.
  intros Hr. unfold Parser.parseResult, Parser.parseResultDarwin,
    Parser.parseResultNonDarwin.
  destruct (platform env).
  - apply fold_nothing_left; [apply darwinLine_nothing_left|exact Hr].
  - destruct (fold_nothing_left _ (nonDarwinLine1_nothing_left env)
                (Parser.linesOf output) r Hr) as [->| ->].
    + apply fold_nothing_left; [apply nonDarwinLine2_nothing_left|exact Hr].
    + destruct (fold_nothing_left _ (nonDarwinLine2_nothing_left env)
                  (Parser.linesOf output) (setCurrent None r) Hr) as [->| ->];
        now right.
Qed.

Lemma parseResult_nothing_left_witness :
  Parser.parseResult Examples.env1 (Examples.runner [] (Some 2))
    "Test Case 'FooTests.testBar' passed (0.012 seconds)"
  = Examples.runner [] (Some 2)
  \/ Parser.parseResult Examples.env1 (Examples.runner [] (Some 2))
       "Test Case 'FooTests.testBar' passed (0.012 seconds)"
     = setCurrent None (Examples.runner [] (Some 2)).
Proof.
  exact (parseResult_nothing_left Examples.env1 (Examples.runner [] (Some 2))
           "Test Case 'FooTests.testBar' passed (0.012 seconds)" eq_refl).
Defined.

Lemma crlf_app (a b : string) : JS.crlf (a ++ b) = (JS.crlf a ++ JS.crlf b)%string.
Proof.
  induction a as [|c a IH]; [reflexivity|]. simpl.
  destruct (nat_of_ascii c =? 10)%nat; simpl; now rewrite IH.
Qed.

Lemma string_app_assoc (a b c : string) : ((a ++ b) ++ c = a ++ b ++ c)%string.
Proof. induction a as [|x a IH]; simpl; [reflexivity|now rewrite IH]. Qed.

Lemma string_app_nil_r (a : string) : (a ++ "")%string = a.
Proof. induction a as [|x a IH]; simpl; [reflexivity|now rewrite IH]. Qed.

Lemma outputText_app (a b : list Event) :
  RunSpec.outputText (a ++ b) = (RunSpec.outputText a ++ RunSpec.outputText b)%string.
Proof.
  induction a as [|e a IH]; simpl; [reflexivity|].
  now rewrite IH, string_app_assoc.
Qed.

Lemma outputText_results (new : list Event) :
  Forall SinkSpec.isResult new -> RunSpec.outputText new = EmptyString.
Proof.
  induction 1 as [|e new He _ IH]; simpl; [reflexivity|].
  rewrite IH. now destruct e.
Qed.

(** X18.  The text that a streamed run appends to the output of the
    sink is the line that says when the run started, followed by all
    that the test binary has written with every line feed turned into a
    carriage return and a line feed; how the output is cut into chunks
    does not show in it. *)
Theorem runSession_output (env : Env) (w : World) (r : Runner)
    (config : Launch.DebugConfiguration) :
  Launch.createLaunchConfigurationForTesting (platform env) (launch w)
    (testArgs r) false None = Launch.Returned (Some config) ->
  cancelledAtStart w = false ->
  exists new,
    testRun (fst (Run.runSession env w r)) = testRun r ++ new
    /\ RunSpec.outputText new
       = (Run.banner w ++ JS.crlf (String.concat "" (chunks w)))%string.
Proof.
  intros H1 H2. unfold Run.runSession. rewrite H1, H2. cbn [fst].
  assert (forall cs r0, exists new,
             testRun (fold_left (Run.write env) cs r0) = testRun r0 ++ new
             /\ RunSpec.outputText new = JS.crlf (String.concat "" cs)) as H.
  { induction cs as [|c cs IH]; intros r0.
    - exists []. simpl. now rewrite app_nil_r.
    - cbn [fold_left]. destruct (IH (Run.write env r0 c)) as (new & E & T).
      destruct (parseResult_advances env (emit (appendOutput (JS.crlf c)) r0) c)
        as (res & Er & Fr & _).
      exists (appendOutput (JS.crlf c) :: res ++ new). split.
      + rewrite E. unfold Run.write. rewrite Er. simpl.
        now rewrite <- !app_assoc.
      + cbn [RunSpec.outputText fold_right RunSpec.outputOf].
        change (fold_right _ EmptyString (res ++ new))
          with (RunSpec.outputText (res ++ new)).
        rewrite outputText_app, (outputText_results res Fr), T.
        cbn [String.append].
        destruct cs as [|c' cs]; [simpl; now rewrite string_app_nil_r|].
        change (String.concat "" (c :: c' :: cs))
          with (c ++ "" ++ String.concat "" (c' :: cs))%string.
        cbn [String.append]. now rewrite crlf_app. }
  destruct (H (chunks w) (emit (appendOutput (Run.banner w)) r)) as (new & E & T).
  exists (appendOutput (Run.banner w) :: new). split.
  - rewrite E. simpl. now rewrite <- app_assoc.
  - cbn [RunSpec.outputText fold_right RunSpec.outputOf].
    change (fold_right _ EmptyString new) with (RunSpec.outputText new).
    now rewrite T.
Qed.

Lemma runSession_output_witness :
  exists new,
    testRun (fst (Run.runSession Examples.env1 MoreExamples.world2
                    (Examples.runner [1; 3; 2] None)))
    = [] ++ new
    /\ RunSpec.outputText new
       = (Run.banner MoreExamples.world2
          ++ JS.crlf (String.concat "" (chunks MoreExamples.world2)))%string.
Proof.
  exact (runSession_output Examples.env1 MoreExamples.world2
           (Examples.runner [1; 3; 2] None) _ eq_refl eq_refl).
Defined.

(** ** The task provider *)

Lemma pushExecutables_eq (targets : list Tasks.Target) (tasks : list Tasks.Task) :
  Tasks.pushExecutables targets tasks
  = tasks ++ map Tasks.createExecutableTask (TaskSpec.executables targets).
Proof.
  revert tasks. induction targets as [|t targets IH]; intros tasks; simpl.
  - now rewrite app_nil_r.
  - destruct (String.eqb (Tasks.type t) "executable"); rewrite IH; simpl;
      [now rewrite <- app_assoc|reflexivity].
Qed.

(** X20.  provideTasks gives the four tasks of the package (build,
    clean, resolve, update) followed by one run task for every
    executable target, in the order of the targets, and no task for a
    target of another type: the run tasks are as many as the executable
    targets, and each runs [swift run] with the name of its target. *)
Theorem provideTasks_spec (targets : list Tasks.Target) :
  Tasks.provideTasks targets
  = [Tasks.createBuildAllTask; Tasks.createCleanTask; Tasks.createResolveTask;
     Tasks.createUpdateTask]
    ++ map Tasks.createExecutableTask (TaskSpec.executables targets)
  /\ length (Tasks.provideTasks targets) = 4 + length (TaskSpec.executables targets)
  /\ map Tasks.detail (skipn 4 (Tasks.provideTasks targets))
     = map (fun t => Some ("swift run " ++ Tasks.name t)%string)
         (TaskSpec.executables targets).
Proof.
  unfold Tasks.provideTasks. rewrite pushExecutables_eq.
  split; [reflexivity|]. split; [now rewrite length_app, length_map|].
  cbn [skipn app]. rewrite skipn_O, map_map. apply map_ext. intros t.
  unfold Tasks.createExecutableTask, Tasks.createSwiftTask, Tasks.commandLine.
  reflexivity.
Qed.

Lemma createSwiftTask_coherent (cmd : string) (a : list string) (nm : string)
    (g : option Tasks.TaskGroup) :
  nm <> EmptyString ->
  TaskSpec.coherent (Tasks.createSwiftTask cmd a nm g)
  /\ Tasks.resolveTask (Tasks.createSwiftTask cmd a nm g)
     = Tasks.Returned (Tasks.createSwiftTask cmd a nm g).
Proof.
  intros Hnm. split.
  - unfold TaskSpec.coherent. simpl. repeat apply conj; eauto.
  - unfold Tasks.resolveTask, Tasks.newTask, Tasks.createSwiftTask. simpl.
    destruct nm; [contradiction|reflexivity].
Qed.

(** X21.  Every task that provideTasks gives is complete (it has a
    name, a detail, the source [swift] and an execution that runs the
    command of its definition), and resolveTask returns it as it is. *)
Theorem provideTasks_resolved (targets : list Tasks.Target) (t : Tasks.Task) :
  In t (Tasks.provideTasks targets) ->
  TaskSpec.coherent t /\ Tasks.resolveTask t = Tasks.Returned t.
Proof.
  unfold Tasks.provideTasks. rewrite pushExecutables_eq.
  intros [H|H]%in_app_or.
  - simpl in H.
    repeat (destruct H as [<-|H]; [apply createSwiftTask_coherent; discriminate|]).
    destruct H.
  - apply in_map_iff in H as (target & <- & _).
    apply createSwiftTask_coherent. discriminate.
Qed.

Lemma provideTasks_resolved_witness :
  TaskSpec.coherent
    (Tasks.createExecutableTask {| Tasks.name := "tool"; Tasks.type := "executable" |})
  /\ Tasks.resolveTask
       (Tasks.createExecutableTask
          {| Tasks.name := "tool"; Tasks.type := "executable" |})
     = Tasks.Returned
         (Tasks.createExecutableTask
            {| Tasks.name := "tool"; Tasks.type := "executable" |}).
Proof.
  apply (provideTasks_resolved
           [ {| Tasks.name := "lib"; Tasks.type := "library" |};
             {| Tasks.name := "tool"; Tasks.type := "executable" |} ]).
  vm_compute. do 4 right. left. reflexivity.
Defined.

Lemma nameOrCustom_idem (nm : string) :
  Tasks.nameOrCustom (Tasks.nameOrCustom nm) = Tasks.nameOrCustom nm
  /\ Tasks.nameOrCustom nm <> EmptyString
  /\ Tasks.nameOrCustom nm
     = (if String.eqb nm EmptyString then "Custom Task" else nm).
Proof. destruct nm; repeat split; try reflexivity; discriminate. Qed.

(** X22.  resolveTask throws in one case only: the task has no detail
    and its definition has no [args], so that the detail cannot be made
    from the command line.  In every other case it returns a task that
    has the definition and the group of the task it is given, the name
    of that task or [Custom Task] when the name is empty, the detail of
    that task or, when there is none, the command (read [undefined]
    when absent), a space and the arguments joined by spaces; the task
    is complete, and resolveTask returns it as it is when it is
    resolved again. *)
Theorem resolveTask_completes (task : Tasks.Task) :
  match Tasks.resolveTask task with
  | Tasks.Threw e =>
      e = Tasks.noJoin
      /\ Tasks.detail task = None
      /\ Tasks.args (Tasks.definition task) = None
  | Tasks.Returned t =>
      (Tasks.detail task <> None \/ Tasks.args (Tasks.definition task) <> None)
      /\ Tasks.definition t = Tasks.definition task
      /\ Tasks.group t = Tasks.group task
      /\ Tasks.taskName t
         = (if String.eqb (Tasks.taskName task) EmptyString then "Custom Task"
            else Tasks.taskName task)
      /\ Tasks.detail t
         = Some match Tasks.detail task, Tasks.args (Tasks.definition task) with
                | Some d, _ => d
                | None, Some a =>
                    (Tasks.show (Tasks.command (Tasks.definition task)) ++ " "
                     ++ String.concat " " a)%string
                | None, None => EmptyString
                end
      /\ TaskSpec.coherent t
      /\ Tasks.resolveTask t = Tasks.Returned t
  end.
Proof.
  unfold Tasks.resolveTask.
  destruct (nameOrCustom_idem (Tasks.taskName task)) as (Hidem & Hne & Hname).
  assert (forall d, TaskSpec.coherent (Tasks.newTask task d)
                    /\ Tasks.resolveTask (Tasks.newTask task d)
                       = Tasks.Returned (Tasks.newTask task d)) as Hnew.
  { intros d. split.
    - unfold TaskSpec.coherent. cbn. repeat apply conj; eauto.
    - unfold Tasks.resolveTask, Tasks.newTask. cbn. now rewrite Hidem. }
  destruct (Tasks.detail task) as [d|].
  - destruct (Hnew d) as [Hc Hr].
    split; [left; discriminate|].
    split; [reflexivity|]. split; [reflexivity|]. split; [exact Hname|].
    split; [reflexivity|]. split; [exact Hc|exact Hr].
  - destruct (Tasks.args (Tasks.definition task)) as [a|].
    + destruct (Hnew (Tasks.commandLine
                        (Tasks.show (Tasks.command (Tasks.definition task))) a))
        as [Hc Hr].
      split; [right; discriminate|].
      split; [reflexivity|]. split; [reflexivity|]. split; [exact Hname|].
      split; [reflexivity|]. split; [exact Hc|exact Hr].
    + split; [reflexivity|]. split; reflexivity.
Qed.

(** A task of [tasks.json] that names a command and no arguments. *)
Example resolveTask_throws :
  Tasks.resolveTask
    {| Tasks.definition :=
         {| Tasks.defType := "swift"; Tasks.command := Some "build";
            Tasks.args := None |};
       Tasks.taskName := "Build";
       Tasks.source := "Workspace";
       Tasks.execution := {| Tasks.shellCommand := None; Tasks.shellArgs := None |};
       Tasks.detail := None;
       Tasks.group := None |}
  = Tasks.Threw Tasks.noJoin.
Proof. reflexivity. Qed.
